(** * urjamitra: the fallback chains of the solar and carbon-footprint agents

    A shallow embedding of the Python sources under [backend/Solar System]
    and [backend/carbon-footprint], and the properties of their
    fallback/decision chains.

    Conventions of the embedding.
    - A Python [str] is a [string]; the sources only build and inspect ASCII
      text, and [lower], [strip] and the regular-expression class [\d] are
      modelled on ASCII.
    - A Python [int] is a [Z].  A Python [float] is idealised as an exact
      rational [Q]: binary64 rounding error is not part of the model, and
      [round(x, 4)] is round-half-even on the exact value.  The module
      [Binary64] has the calculator of the estimator on binary64 floats,
      to evaluate it on given numbers.
    - A [dict] is an association list in insertion order.
    - The text [json.dumps(v)] is kept symbolic as [Dumps v]; [json.loads]
      of such a text gives [v] back.  Text that comes from the language
      model is a plain [string], decoded by a [json_loads] that the
      development takes as a parameter.
    - Code that can raise returns a [result]. *)

From Stdlib Require Import ZArith QArith Qabs Qround Lqa List String Ascii Lia Bool DecimalString.
From Stdlib Require PrimFloat FloatOps SpecFloat Uint63 DecimalPos.
Import ListNotations.
Open Scope string_scope.
Open Scope Z_scope.
Set Warnings "-register-all".

(* ================================================================== *)
(** * Python values, exceptions *)
(* ================================================================== *)

Inductive pyval : Type :=
| PNone
| PBool (b : bool)
| PNum (q : Q)
| PStr (s : string)
| PList (l : list pyval)
| PDict (d : list (string * pyval)).

(** The str [json.dumps(v)], and [json.loads] of it. *)
Inductive json_text : Type :=
| Dumps (v : pyval).

Definition loads_dumped (t : json_text) : pyval :=
  match t with Dumps v => v end.

Inductive exn : Type :=
| RequestException
| JSONDecodeError
| AttributeError
| ValueError
| TypeError
| KeyError
| ApiError.                             (* anything the model SDK raises *)

Inductive result (A : Type) : Type :=
| Return (a : A)
| Raise (e : exn).
Arguments Return {A} a.
Arguments Raise {A} e.

Definition bind {A B : Type} (m : result A) (k : A -> result B) : result B :=
  match m with
  | Return a => k a
  | Raise e => Raise e
  end.

Notation "x <- m ;; k" := (bind m (fun x => k))
  (at level 61, m at next level, right associativity).

(** [try: body except (es): handler] *)
Definition try_except {A : Type} (body : result A) (caught : exn -> bool)
    (handler : exn -> result A) : result A :=
  match body with
  | Return a => Return a
  | Raise e => if caught e then handler e else Raise e
  end.

Definition exn_eqb (a b : exn) : bool :=
  match a, b with
  | RequestException, RequestException | JSONDecodeError, JSONDecodeError
  | AttributeError, AttributeError | ValueError, ValueError
  | TypeError, TypeError | KeyError, KeyError | ApiError, ApiError => true
  | _, _ => false
  end.

Definition one_of (es : list exn) (e : exn) : bool := existsb (exn_eqb e) es.

(** [d.get(k)] / [k in d] on a dict. *)
Fixpoint dict_get {V : Type} (k : string) (d : list (string * V)) : option V :=
  match d with
  | [] => None
  | (k', v) :: d' => if String.eqb k k' then Some v else dict_get k d'
  end.

Definition dict_mem {V : Type} (k : string) (d : list (string * V)) : bool :=
  match dict_get k d with Some _ => true | None => false end.

(** [d[k]] *)
Definition dict_item {V : Type} (k : string) (d : list (string * V)) : result V :=
  match dict_get k d with
  | Some v => Return v
  | None => Raise KeyError
  end.

(** [d[k] = v]: replaces the value in place, or appends a new key. *)
Fixpoint dict_set {V : Type} (k : string) (v : V) (d : list (string * V))
    : list (string * V) :=
  match d with
  | [] => [(k, v)]
  | (k', v') :: d' =>
      if String.eqb k k' then (k', v) :: d' else (k', v') :: dict_set k v d'
  end.

(* ================================================================== *)
(** * Text primitives *)
(* ================================================================== *)

Definition is_digit (c : ascii) : bool :=
  let n := nat_of_ascii c in (48 <=? n)%nat && (n <=? 57)%nat.

Definition is_upper (c : ascii) : bool :=
  let n := nat_of_ascii c in (65 <=? n)%nat && (n <=? 90)%nat.

(** [str.isspace] on ASCII: TAB..CR, FS..US and the blank. *)
Definition is_space (c : ascii) : bool :=
  let n := nat_of_ascii c in
  ((9 <=? n)%nat && (n <=? 13)%nat) || ((28 <=? n)%nat && (n <=? 32)%nat).

Definition lower_char (c : ascii) : ascii :=
  if is_upper c then ascii_of_nat (nat_of_ascii c + 32) else c.

(** [s.lower()] *)
Fixpoint lower (s : string) : string :=
  match s with
  | EmptyString => EmptyString
  | String c s' => String (lower_char c) (lower s')
  end.

(** [sub in s] *)
Fixpoint contains (sub s : string) : bool :=
  if prefix sub s then true
  else match s with
       | EmptyString => false
       | String _ s' => contains sub s'
       end.

Fixpoint skip (n : nat) (s : string) : string :=
  match n, s with
  | O, _ => s
  | S n', String _ s' => skip n' s'
  | S _, EmptyString => EmptyString
  end.

Fixpoint take (n : nat) (s : string) : string :=
  match n, s with
  | S n', String c s' => String c (take n' s')
  | _, _ => EmptyString
  end.

(** [s.replace(old, new)] for a non-empty [old]: leftmost, non-overlapping.
    [fuel] bounds the number of characters still to be scanned. *)
Fixpoint replace_fuel (fuel : nat) (old new s : string) : string :=
  match fuel with
  | O => s
  | S fuel' =>
      if prefix old s then new ++ replace_fuel fuel' old new (skip (length old) s)
      else match s with
           | EmptyString => EmptyString
           | String c s' => String c (replace_fuel fuel' old new s')
           end
  end.

Definition replace (old new s : string) : string :=
  replace_fuel (S (length s)) old new s.

Fixpoint lstrip (s : string) : string :=
  match s with
  | String c s' => if is_space c then lstrip s' else s
  | EmptyString => EmptyString
  end.

Fixpoint rstrip (s : string) : string :=
  match s with
  | EmptyString => EmptyString
  | String c s' =>
      match rstrip s' with
      | EmptyString => if is_space c then EmptyString else String c EmptyString
      | r => String c r
      end
  end.

(** [s.strip()] *)
Definition strip (s : string) : string := rstrip (lstrip s).

(** [str(n)] for an int. *)
Definition str_of_int (n : Z) : string := NilZero.string_of_int (Z.to_int n).

Definition digit_val (c : ascii) : Z := Z.of_nat (nat_of_ascii c) - 48.

Fixpoint int_of_digits_acc (acc : Z) (s : string) : Z :=
  match s with
  | EmptyString => acc
  | String c s' => int_of_digits_acc (10 * acc + digit_val c) s'
  end.

(** [int(s)] on a string of digits. *)
Definition int_of_digits (s : string) : Z := int_of_digits_acc 0 s.

(* ================================================================== *)
(** * Solar System/Gemini_API_Client.py *)
(* ================================================================== *)

(** ** The two patterns of [generate_content]

    [re.search(r'Solar Panel Production: (\d+) Watts', prompt)] and
    [re.search(r'Current Battery Charge: (\d+)%', prompt)]: literal
    characters and one greedy capturing group [(\d+)], matched with
    backtracking at the leftmost position that succeeds. *)

Inductive re_item : Type :=
| Lit (c : ascii)
| Digits.                               (* the group (\d+) *)

Fixpoint lits (s : string) : list re_item :=
  match s with
  | EmptyString => []
  | String c s' => Lit c :: lits s'
  end.

(** Length of the longest run of digits at the head of [s]. *)
Fixpoint digit_run (s : string) : nat :=
  match s with
  | String c s' => if is_digit c then S (digit_run s') else O
  | EmptyString => O
  end.

(** Try [k], [k-1], ..., [1] repetitions: greedy first, then backtrack. *)
Fixpoint longest_first {A : Type} (f : nat -> option A) (k : nat) : option A :=
  match k with
  | O => None
  | S k' => match f k with
            | Some a => Some a
            | None => longest_first f k'
            end
  end.

(** Match [re] at the head of [s]; the result is the text of group 1
    (empty when [re] has no group). *)
Fixpoint match_here (re : list re_item) (s : string) : option string :=
  match re with
  | [] => Some EmptyString
  | Lit c :: re' =>
      match s with
      | String a s' => if Ascii.eqb a c then match_here re' s' else None
      | EmptyString => None
      end
  | Digits :: re' =>
      longest_first
        (fun k => match match_here re' (skip k s) with
                  | Some _ => Some (take k s)
                  | None => None
                  end)
        (digit_run s)
  end.

(** [re.search(re, s)], reduced to [.group(1)] of the match. *)
Fixpoint re_search (re : list re_item) (s : string) : option string :=
  match match_here re s with
  | Some g => Some g
  | None => match s with
            | EmptyString => None
            | String _ s' => re_search re s'
            end
  end.

Definition solar_label : string := "Solar Panel Production: ".
Definition battery_label : string := "Current Battery Charge: ".

Definition solar_pattern : list re_item :=
  lits solar_label ++ [Digits] ++ lits " Watts".
Definition battery_pattern : list re_item :=
  lits battery_label ++ [Digits] ++ lits "%".

(** ** [_get_simulated_response] *)

(** The three variables assigned by the first if-chain. *)
Record conditions : Type := {
  period : string;
  power_source_heavy : string;
  recommendation : string
}.

Definition solar_conditions (solar_watts : Z) : conditions :=
  if solar_watts >? 2000 then
    {| period := "Peak Sun (High Production)";
       power_source_heavy := "Direct Solar";
       recommendation := "Excellent time for high-power appliances. Run water heater and washing machine now." |}
  else if solar_watts >? 500 then
    {| period := "Moderate Sun";
       power_source_heavy := "Direct Solar";
       recommendation := "Good time for medium-power appliances. Save heavy tasks if possible." |}
  else if solar_watts >? 100 then
    {| period := "Low Sun";
       power_source_heavy := "Battery";
       recommendation := "Transition to battery power. Minimize non-essential usage." |}
  else
    {| period := "Night/No Sun";
       power_source_heavy := "Battery";
       recommendation := "Use only essential appliances. Preserve battery for overnight needs." |}.

Definition battery_advice (battery_pct : Z) : string :=
  if battery_pct >? 80 then
    "Battery well charged. Can support high-power loads if needed."
  else if battery_pct >? 50 then
    "Battery at moderate level. Monitor usage and prioritize essentials."
  else
    "Battery getting low. Conserve power and avoid non-essential appliances.".

Definition allocation (appliance time_to_run power_source priority : string) : pyval :=
  PDict [("appliance", PStr appliance); ("time_to_run", PStr time_to_run);
         ("power_source", PStr power_source); ("priority", PStr priority)].

(** The dict handed to [json.dumps]. *)
Definition simulated_plan (solar_watts battery_pct : Z) : pyval :=
  let c := solar_conditions solar_watts in
  PDict [
    ("recommendation_summary",
      PStr (recommendation c ++ " Current conditions: " ++ period c
            ++ ", Battery: " ++ str_of_int battery_pct ++ "%"));
    ("energy_allocation_plan", PList [
      allocation "Refrigerator" "24/7" "Solar/Battery" "Essential";
      allocation "Lights (LED x5)" "As needed"
        (if solar_watts <? 100 then "Battery" else "Solar") "Essential";
      allocation "Water Heater" "During peak sun if available"
        (power_source_heavy c) "High";
      allocation "Washing Machine" "When solar > 2000W"
        (power_source_heavy c) "Medium";
      allocation "Television" "Evening (limited use)" "Battery" "Low";
      allocation "Laptop Charger" "Daytime preferred"
        (if solar_watts >? 100 then "Solar" else "Battery") "Medium" ]);
    ("battery_management",
      PStr (battery_advice battery_pct ++ " Current solar: "
            ++ str_of_int solar_watts ++ "W. "
            ++ (if solar_watts >? 1000 then "Charge mode active"
                else "Conservation mode - discharge minimally") ++ "."));
    ("alerts", PList [
      PStr ("Current solar production: " ++ str_of_int solar_watts ++ "W");
      PStr ("Battery level: " ++ str_of_int battery_pct ++ "%");
      PStr (if solar_watts >=? 0 then "Demo mode active - simulated AI responses"
            else EmptyString) ])
  ].

(** The dict that [generate_content] returns: the decoded body of the
    candidate that answered, or the literal
    [{"candidates": [{"content": {"parts": [{"text": text}]}}]}]
    built by [_get_simulated_response]. *)
Inductive response_dict : Type :=
| ApiJson (json : pyval)
| SimulatedCandidates (text : json_text).

Definition _get_simulated_response (solar_watts battery_pct : Z) : response_dict :=
  SimulatedCandidates (Dumps (simulated_plan solar_watts battery_pct)).

(** The call without arguments: [solar_watts=0, battery_pct=50]. *)
Definition _get_simulated_response_default : response_dict :=
  _get_simulated_response 0 50.

(** ** [generate_content] *)

(** What [requests.post] does for one candidate: it raises a
    [RequestException], or it returns a response, of which the code reads
    [status_code] and [json()].  The body of a response is taken to be
    JSON, so that [json()] returns a value. *)
Inductive http_outcome : Type :=
| HttpResponse (status_code : Z) (json : pyval)
| HttpRaises.

(** The network, as seen by one call: the outcome of posting the prompt
    to each model. *)
Definition transport : Type := string -> string -> http_outcome.

Definition models_to_try : list string :=
  ["gemini-1.5-flash"; "gemini-1.5-pro"; "gemini-pro"].

(** The extraction after the loop; the initial values [0] and [50] stay
    when a pattern finds nothing. *)
Definition extract_solar_watts (prompt : string) : Z :=
  match re_search solar_pattern prompt with
  | Some g => int_of_digits g
  | None => 0
  end.

Definition extract_battery_pct (prompt : string) : Z :=
  match re_search battery_pattern prompt with
  | Some g => int_of_digits g
  | None => 50
  end.

Definition all_failed_response (prompt : string) : response_dict :=
  _get_simulated_response (extract_solar_watts prompt) (extract_battery_pct prompt).

(** The [for model in models_to_try] loop and what follows it.  The first
    component is the list of models posted to, in order. *)
Fixpoint try_models (post : transport) (prompt : string) (models : list string)
    : list string * response_dict :=
  match models with
  | [] => ([], all_failed_response prompt)
  | model :: rest =>
      match post model prompt with
      | HttpResponse status_code json =>
          if status_code =? 200 then ([model], ApiJson json)
          else if status_code =? 429 then ([model], _get_simulated_response_default)
          else let (posted, r) := try_models post prompt rest in (model :: posted, r)
      | HttpRaises =>
          let (posted, r) := try_models post prompt rest in (model :: posted, r)
      end
  end.

Definition generate_content (post : transport) (prompt : string)
    : list string * response_dict :=
  try_models post prompt models_to_try.

(* ================================================================== *)
(** * Solar System/Solar_Energy_AI_Agent.py *)
(* ================================================================== *)

Definition nl : string := String "010"%char EmptyString.
Definition dq : string := String "034"%char EmptyString.

Definition unlines (ls : list string) : string :=
  fold_right (fun l acc => l ++ nl ++ acc) EmptyString ls.

(** [_create_prompt].  The arguments are the replacement fields of the
    f-string, each already formatted: [current_time] by [strftime], the
    three numbers [solar_production_watts], [battery_capacity_wh] and
    [battery_percentage] by plain [{...}], [battery_wh] by [{...:.2f}],
    and the two [json.dumps(..., indent=2)] texts. *)
Definition _create_prompt
    (current_time solar_production_watts battery_capacity_wh battery_percentage
     battery_wh appliances_json energy_log_json : string) : string :=
  let ind := "        " in
  strip (nl ++ unlines [
    ind ++ "Act as an expert AI Solar Energy Management Agent.";
    ind;
    ind ++ "Current State at " ++ current_time ++ ":";
    ind ++ "- Solar Panel Production: " ++ solar_production_watts ++ " Watts";
    ind ++ "- Battery Capacity: " ++ battery_capacity_wh ++ " Wh";
    ind ++ "- Current Battery Charge: " ++ battery_percentage ++ "% ("
        ++ battery_wh ++ " Wh)";
    EmptyString;
    ind ++ "List of available electrical appliances and their power draw:";
    ind ++ appliances_json;
    EmptyString;
    ind ++ "Previous Energy Log (last 3 entries):";
    ind ++ energy_log_json;
    EmptyString;
    ind ++ "Task:";
    ind ++ "Provide a detailed energy management plan in a structured JSON format. ";
    ind;
    ind ++ "IMPORTANT: Respond ONLY with valid JSON, no other text or explanations.";
    ind;
    ind ++ "The JSON should include:";
    ind ++ "1.  `recommendation_summary`: A brief, actionable summary.";
    ind ++ "2.  `energy_allocation_plan`: A list of dictionaries, where each dictionary contains `appliance`, `time_to_run`, `power_source` (Direct Solar or Battery), and `priority` (Essential, High, Medium, Low).";
    ind ++ "3.  `battery_management`: Specific instructions on when to charge or discharge the battery.";
    ind ++ "4.  `alerts`: Any important alerts for the user (e.g., " ++ dq
        ++ "Low production forecast" ++ dq ++ ", " ++ dq
        ++ "Excess energy available" ++ dq ++ ").";
    ind;
    ind ++ "Prioritize running high-power appliances directly from solar during peak production.";
    ind ++ "Use the battery for essential loads when solar production is low or at night.";
    ind ++ "Ensure the battery is preserved for essential needs.";
    ind ]).

(** How an f-string field shows a number: an int as its digits, and a
    float that holds an integer below 10^16 in magnitude as the digits
    followed by [.0] (what [float(n)] of the REST handler becomes). *)
Definition format_int (n : Z) : string := str_of_int n.
Definition format_float_integral (n : Z) : string := str_of_int n ++ ".0".

(** [json.dumps(APPLIANCES, indent=2)] for the table of Main_Application.py. *)
Definition appliances_json_default : string :=
  "{" ++ nl ++
  "  " ++ dq ++ "Refrigerator" ++ dq ++ ": 200," ++ nl ++
  "  " ++ dq ++ "Lights (LED x5)" ++ dq ++ ": 50," ++ nl ++
  "  " ++ dq ++ "Television" ++ dq ++ ": 150," ++ nl ++
  "  " ++ dq ++ "Washing Machine" ++ dq ++ ": 2000," ++ nl ++
  "  " ++ dq ++ "Water Heater" ++ dq ++ ": 3000," ++ nl ++
  "  " ++ dq ++ "Laptop Charger" ++ dq ++ ": 65" ++ nl ++
  "}".

(** The prompt of one step of Main_Application.py (ints) and of one REST
    request (floats), for a 10 kWh battery and an energy log shown as
    [energy_log_json]. *)
Definition prompt_of_ints (current_time : string) (solar battery : Z)
    (battery_wh energy_log_json : string) : string :=
  _create_prompt current_time (format_int solar) "10000" (format_int battery)
    battery_wh appliances_json_default energy_log_json.

Definition prompt_of_floats (current_time : string) (solar battery : Z)
    (battery_wh energy_log_json : string) : string :=
  _create_prompt current_time (format_float_integral solar) "10000"
    (format_float_integral battery) battery_wh appliances_json_default
    energy_log_json.

(** Every place where [label] occurs in [s] is followed by a number
    written with a decimal point: an optional sign, digits, a dot. *)
Definition digits_then_dot (s : string) : bool :=
  match digit_run s with
  | O => false
  | S _ as k => prefix "." (skip k s)
  end.

Definition decimal_here (s : string) : bool :=
  match s with
  | String "-"%char s' => digits_then_dot s'
  | _ => digits_then_dot s
  end.

Fixpoint label_values_decimal (label s : string) : bool :=
  (if prefix label s then decimal_here (skip (length label) s) else true)
  && match s with
     | EmptyString => true
     | String _ s' => label_values_decimal label s'
     end.

(* ================================================================== *)
(** * carbon-footprint/KnowledgeRetriever.py *)
(* ================================================================== *)

Definition footprint_record (co2e_kg : Q) (source confidence : string) : pyval :=
  PDict [("co2e_kg", PNum co2e_kg); ("source", PStr source);
         ("confidence", PStr confidence)].

Definition MOCK_INTERNAL_DATABASE : list (string * pyval) := [
  ("coca-cola, 0.5l, pet bottle",
     footprint_record 0.17 "Internal DB (EcoInvent)" "High");
  ("t-shirt, cotton, blue, large",
     footprint_record 6.8 "Internal DB (OpenApparel)" "High") ].

Definition MOCK_CATEGORY_FALLBACKS : list (string * pyval) := [
  ("Food", PNum 1.5); ("Beverage", PNum 0.5); ("Clothing", PNum 7.0);
  ("Electronics", PNum 25.0); ("Flights", PNum 0.115); ("Other", PNum 5.0) ].

Definition error_record (message : string) : pyval :=
  PDict [("error", PStr message)].

(** The three tools.  Their arguments are [str], as annotated. *)
Definition _lookup_internal_database (canonical_name : string) : json_text :=
  let normalized_name := lower canonical_name in
  match dict_get normalized_name MOCK_INTERNAL_DATABASE with
  | Some record => Dumps record
  | None => Dumps (error_record "Product not found in the internal database.")
  end.

Definition web_key : string := "lay's classic potato chips".

Definition _search_web_for_footprint_data (canonical_name : string) : json_text :=
  if contains web_key (lower canonical_name) then
    Dumps (PDict [("co2e_kg", PNum 0.075);
                  ("source", PStr "Simulated Web Scrape (GoodFood Institute Report)");
                  ("confidence", PStr "Medium");
                  ("notes", PStr "Based on potato farming, processing, and packaging.")])
  else
    Dumps (error_record "Could not find reliable footprint data from web search.").

Definition _use_category_fallback_heuristic (category : string) : json_text :=
  match dict_get category MOCK_CATEGORY_FALLBACKS with
  | Some co2e =>
      Dumps (PDict [("co2e_kg", co2e); ("source", PStr "Category Fallback Heuristic");
                    ("confidence", PStr "Low")])
  | None =>
      Dumps (error_record ("Category '" ++ category ++ "' has no fallback value."))
  end.

(** ** [run_agentic_loop]

    The planner is the remote chat model.  Its reply to a message depends
    on the conversation so far: the initial prompt and the tool outputs
    sent back, oldest first. *)
Inductive planner_reply : Type :=
| FunctionCall (name : string) (args : list (string * string))
| FinalText (text : string)
| SendRaises.

Definition planner : Type := string -> list (string * json_text) -> planner_reply.

Definition initial_prompt (canonical_name category : string) : string :=
  let ind := "        " in
  nl ++ unlines [
    ind ++ "My goal is to find the carbon footprint (CO2e in kg) for the following product:";
    ind ++ "- Product Name: " ++ dq ++ canonical_name ++ dq;
    ind ++ "- Category: " ++ dq ++ category ++ dq;
    EmptyString;
    ind ++ "Follow this exact decision process:";
    ind ++ "1. First, ALWAYS try to find the product in the internal database.";
    ind ++ "2. If and ONLY IF it's not in the database, search the web for its data.";
    ind ++ "3. If and ONLY IF both the database and web search fail, use the category fallback heuristic as a last resort.";
    EmptyString;
    ind ++ "Execute the appropriate tool now." ] ++ ind.

(** [f( **tool_args )] for a function of one parameter [param]. *)
Definition kwarg (param : string) (tool_args : list (string * string))
    : result string :=
  match tool_args with
  | [(k, v)] => if String.eqb k param then Return v else Raise TypeError
  | _ => Raise TypeError
  end.

(** The executor: the if-chain on [tool_name]. *)
Definition execute_tool (tool_name : string) (tool_args : list (string * string))
    : result json_text :=
  if String.eqb tool_name "_lookup_internal_database" then
    a <- kwarg "canonical_name" tool_args ;; Return (_lookup_internal_database a)
  else if String.eqb tool_name "_search_web_for_footprint_data" then
    a <- kwarg "canonical_name" tool_args ;; Return (_search_web_for_footprint_data a)
  else if String.eqb tool_name "_use_category_fallback_heuristic" then
    a <- kwarg "category" tool_args ;; Return (_use_category_fallback_heuristic a)
  else Raise ValueError.

(** One tool run: which tool, with what arguments, and its output. *)
Record tool_run : Type := {
  run_name : string;
  run_args : list (string * string);
  run_output : json_text
}.

(** How the loop stands after at most [fuel] iterations. *)
Inductive loop_state : Type :=
| Finished (runs : list tool_run) (text : string)
| Running (runs : list tool_run).

(** The [while] loop.  [sent] is the list of tool outputs sent back so
    far and [runs] the tools run so far, both oldest first. *)
Fixpoint agentic_loop (fuel : nat) (chat : list (string * json_text) -> planner_reply)
    (sent : list (string * json_text)) (runs : list tool_run)
    : result loop_state :=
  match chat sent with
  | SendRaises => Raise ApiError
  | FinalText text => Return (Finished runs text)
  | FunctionCall tool_name tool_args =>
      match fuel with
      | O => Return (Running runs)
      | S fuel' =>
          tool_response <- execute_tool tool_name tool_args ;;
          agentic_loop fuel' chat (sent ++ [(tool_name, tool_response)])
            (runs ++ [{| run_name := tool_name; run_args := tool_args;
                         run_output := tool_response |}])
      end
  end.

(** [standardized_data] is the dict of the standardizer, whose two
    values are [str]. *)
Definition run_agentic_loop (fuel : nat) (model : planner)
    (standardized_data : list (string * string)) : result loop_state :=
  canonical_name <- dict_item "canonical_name" standardized_data ;;
  category <- dict_item "category" standardized_data ;;
  agentic_loop fuel (model (initial_prompt canonical_name category)) [] [].

(** The planner that does what [initial_prompt] asks: the database first,
    the web only after the database reported an error, the category
    heuristic only after both did, and the final text as soon as a tool
    gave data. *)
Definition is_error_output (t : json_text) : bool :=
  match loads_dumped t with
  | PDict d => dict_mem "error" d
  | _ => false
  end.

Definition prescribed_planner (canonical_name category : string)
    (sent : list (string * json_text)) : planner_reply :=
  match sent with
  | [] => FunctionCall "_lookup_internal_database" [("canonical_name", canonical_name)]
  | [(_, db)] =>
      if is_error_output db
      then FunctionCall "_search_web_for_footprint_data" [("canonical_name", canonical_name)]
      else FinalText "done"
  | [(_, db); (_, web)] =>
      if is_error_output web
      then FunctionCall "_use_category_fallback_heuristic" [("category", category)]
      else FinalText "done"
  | _ => FinalText "done"
  end.

(* ================================================================== *)
(** * carbon-footprint/master_automation.py, layer 3 *)
(* ================================================================== *)

(** The receiver of a [str] method such as [.lower()]. *)
Definition str_method (v : pyval) : result string :=
  match v with
  | PStr s => Return s
  | _ => Raise AttributeError
  end.

(** [table.get(key, default)] for a table with [str] keys: a list or a
    dict is not hashable, any other non-str key is absent. *)
Definition get_or (table : list (string * pyval)) (key default : pyval)
    : result pyval :=
  match key with
  | PStr k => match dict_get k table with
              | Some v => Return v
              | None => Return default
              end
  | PList _ | PDict _ => Raise TypeError
  | _ => Return default
  end.

Definition fallback_values : list (string * pyval) := [
  ("Food", PNum 1.5); ("Beverage", PNum 0.5); ("Clothing", PNum 7.0);
  ("Electronics", PNum 25.0); ("Flights", PNum 0.115); ("Other", PNum 5.0) ].

(** The body of the layer-3 [try]; an exception here makes the pipeline
    return its "Layer 3 (Knowledge Retrieval) failed" record. *)
Definition layer3_knowledge_retrieval (layer2_result : list (string * pyval))
    : result pyval :=
  canonical_name <- dict_item "canonical_name" layer2_result ;;
  category <- dict_item "category" layer2_result ;;
  name <- str_method canonical_name ;;
  if contains web_key (lower name) then
    Return (PDict [("canonical_name", canonical_name); ("category", category);
                   ("co2e_kg", PNum 0.075);
                   ("source", PStr "Simulated Web Scrape (GoodFood Institute Report)");
                   ("confidence", PStr "Medium")])
  else
    co2e <- get_or fallback_values category (PNum 5.0) ;;
    Return (PDict [("canonical_name", canonical_name); ("category", category);
                   ("co2e_kg", co2e);
                   ("source", PStr "Category Fallback Heuristic");
                   ("confidence", PStr "Low")]).

(* ================================================================== *)
(** * Replies of the language model *)
(* ================================================================== *)

(** [response = self.model.generate_content(prompt)] followed by
    [response.text]: the call raises and [response] stays unbound, or the
    response has no text and reading [response.text] raises, or there is
    a text. *)
Inductive model_outcome : Type :=
| ModelRaises (e : exn)
| TextRaises (e : exn)
| ModelText (text : string).

Definition response_text (reply : model_outcome) : result string :=
  match reply with
  | ModelRaises e => Raise e
  | TextRaises e => Raise e
  | ModelText text => Return text
  end.

(** [text.strip()], then [.replace] of the fence with its language tag
    and of the bare fence by the empty str. *)
Definition clean_response (text : string) : string :=
  replace "```" EmptyString (replace "```json" EmptyString (strip text)).

(** [k in v] for a str [k]: a key of a dict, an element of a list, a
    substring of a str; other values are not containers. *)
Definition py_in (k : string) (v : pyval) : result bool :=
  match v with
  | PDict d => Return (dict_mem k d)
  | PList l => Return (existsb (fun x => match x with
                                         | PStr s => String.eqb s k
                                         | _ => false
                                         end) l)
  | PStr s => Return (contains k s)
  | PNone | PBool _ | PNum _ => Raise TypeError
  end.

(** [v.get(k, default)]: only a dict has the method. *)
Definition py_get (v : pyval) (k : string) (default : pyval) : result pyval :=
  match v with
  | PDict d => match dict_get k d with
               | Some x => Return x
               | None => Return default
               end
  | _ => Raise AttributeError
  end.

(** A value used as an operand of [+], [*] and [round]; [bool] is an
    [int] in Python. *)
Definition as_number (v : pyval) : result Q :=
  match v with
  | PNum q => Return q
  | PBool b => Return (if b then 1%Q else 0%Q)
  | _ => Raise TypeError
  end.

(** [round(x)] to an integer, ties to even. *)
Definition round_half_even (x : Q) : Z :=
  let f := Qfloor x in
  match Qcompare (x - inject_Z f) (1 # 2) with
  | Lt => f
  | Gt => f + 1
  | Eq => if Z.even f then f else f + 1
  end.

(** [round(x, 4)] *)
Definition round4 (x : Q) : Q :=
  Qred (inject_Z (round_half_even (x * 10000)) / 10000).

(** ** The calculator on binary64 floats *)

Module Binary64.

Import PrimFloat FloatOps SpecFloat.

(** The magnitude of a finite float, exactly. *)
Definition magnitude (x : float) : option Q :=
  match Prim2SF x with
  | S754_zero _ => Some 0%Q
  | S754_finite _ m e => Some (inject_Z (Zpos m) * Qpower 2 e)%Q
  | S754_infinity _ | S754_nan => None
  end.

Definition negative (x : float) : bool :=
  (ltb x 0 || eqb (1 / x) neg_infinity)%float.

(** The value of a finite float, exactly. *)
Definition exact (x : float) : Q :=
  match magnitude x with
  | Some q => if negative x then (- q)%Q else q
  | None => 0%Q
  end.

(** [round(x, 4)]: the float nearest to the exact value of [x] rounded
    half-even to four decimals.  From 2^39 on the floats are more than
    0.0001 apart and the result is [x]; below, the rounded value times
    10000 is an integer under 2^53 and one float division gives the
    nearest float. *)
Definition round4 (x : float) : float :=
  match magnitude x with
  | None => x
  | Some q =>
      if Qle_bool (Qpower 2 39) q then x
      else
        let r :=
          (of_uint63 (Uint63.of_Z (round_half_even (q * 10000))) / 10000)%float in
        if negative x then (- r)%float else r
  end.

(** [_calculate_from_components] on three floats: the total and the
    parts of the result. *)
Definition _calculate_from_components (production_impact packaging_impact
    transport_impact : float) : float * (float * float * float) :=
  let total_co2e :=
    (production_impact + packaging_impact + transport_impact)%float in
  (round4 total_co2e,
   (round4 production_impact, round4 packaging_impact, round4 transport_impact)).



(** The floats nearest to 0.3 and to 6.8. *)
Definition three_tenths : float := 0x1.3333333333333p-2%float.
Definition six_point_eight : float := 0x1.b333333333333p+2%float.

Definition one : float := 1%float.
Definition five_and_a_half : float := 5.5%float.

End Binary64.

Section Decoder.

(** [json.loads] on a text of the language model: [None] stands for
    [JSONDecodeError]. *)
Variable json_loads : string -> option pyval.

Definition loads (text : string) : result pyval :=
  match json_loads text with
  | Some v => Return v
  | None => Raise JSONDecodeError
  end.

(* ================================================================== *)
(** * carbon-footprint/EntityStandardizer.py *)
(* ================================================================== *)

Definition sentinel (canonical_name : string) : pyval :=
  PDict [("canonical_name", PStr canonical_name); ("category", PStr "Error")].

(** The body of the [try] of [standardize_json]. *)
Definition standardize_body (reply : model_outcome) : result pyval :=
  text <- response_text reply ;;
  let json_str := clean_response text in
  parsed <- loads json_str ;;
  has_name <- py_in "canonical_name" parsed ;;
  if negb has_name then Raise ValueError
  else
    has_category <- py_in "category" parsed ;;
    if negb has_category then Raise ValueError
    else Return parsed.

(** What the first handler prints when [response] is bound:
    [response.text], read once more. *)
Definition print_raw_response (reply : model_outcome) : result unit :=
  match reply with
  | ModelRaises _ => Return tt
  | TextRaises e => Raise e
  | ModelText _ => Return tt
  end.

(** [standardize_json]: the first handler takes [JSONDecodeError],
    [AttributeError] and [ValueError], the second every other exception.
    [model] is the reply of the language model to the prompt built from
    [json_data]. *)
Definition standardize_json (model : pyval -> model_outcome) (json_data : pyval)
    : result pyval :=
  match standardize_body (model json_data) with
  | Return parsed => Return parsed
  | Raise e =>
      if one_of [JSONDecodeError; AttributeError; ValueError] e
      then _ <- print_raw_response (model json_data) ;;
           Return (sentinel "Error processing JSON")
      else Return (sentinel "API call failed")
  end.

(* ================================================================== *)
(** * carbon-footprint/FootprintEstimator.py *)
(* ================================================================== *)

Definition _calculate_from_components
    (production_impact packaging_impact transport_impact : pyval) : result json_text :=
  p <- as_number production_impact ;;
  k <- as_number packaging_impact ;;
  t <- as_number transport_impact ;;
  let total_co2e := (p + k + t)%Q in
  Return (Dumps (PDict [
    ("total_co2e_kg", PNum (round4 total_co2e));
    ("breakdown", PDict [("production", PNum (round4 p));
                         ("packaging", PNum (round4 k));
                         ("transport", PNum (round4 t))]);
    ("formula", PStr "Total = Production + Packaging + Transport") ])).

(** What the model is asked: the three arguments of
    [_breakdown_total_co2e], which make up its prompt. *)
Definition breakdown_request : Type := (pyval * pyval * pyval)%type.

Definition _breakdown_total_co2e (model : breakdown_request -> model_outcome)
    (canonical_name total_co2e source_description : pyval) : result string :=
  text <- response_text (model (canonical_name, total_co2e, source_description)) ;;
  Return (clean_response text).

Definition with_notes (final_result : pyval) (notes : string) : result pyval :=
  match final_result with
  | PDict d => Return (PDict (dict_set "notes" (PStr notes) d))
  | _ => Raise TypeError
  end.

Definition times (v : pyval) (factor : Q) : result pyval :=
  x <- as_number v ;; Return (PNum (x * factor)%Q).

(** The three arguments of the calculator, read from a parsed dict with
    [.get(key, 0)]. *)
Definition calculate_from_dict (components : pyval) : result pyval :=
  p <- py_get components "production_impact" (PNum 0) ;;
  k <- py_get components "packaging_impact" (PNum 0) ;;
  t <- py_get components "transport_impact" (PNum 0) ;;
  final_result_json <- _calculate_from_components p k t ;;
  Return (loads_dumped final_result_json).

(** [estimate].  The first component lists the requests made to the
    model. *)
Definition estimate (model : breakdown_request -> model_outcome)
    (retrieval_data : list (string * pyval))
    : list breakdown_request * result pyval :=
  let canonical_name :=
    match dict_get "canonical_name" retrieval_data with
    | Some v => v
    | None => PNone
    end in
  if dict_mem "components" retrieval_data then
    ([],
     components <- dict_item "components" retrieval_data ;;
     calculate_from_dict components)
  else if dict_mem "co2e_kg" retrieval_data then
    let total_co2e :=
      match dict_get "co2e_kg" retrieval_data with Some v => v | None => PNone end in
    let source :=
      match dict_get "source" retrieval_data with
      | Some v => v
      | None => PStr "Unknown source"
      end in
    ([(canonical_name, total_co2e, source)],
     estimated_breakdown_json <-
       _breakdown_total_co2e model canonical_name total_co2e source ;;
     try_except
       (estimated_components <- loads estimated_breakdown_json ;;
        final_result <- calculate_from_dict estimated_components ;;
        with_notes final_result "Component breakdown was estimated by AI.")
       (one_of [JSONDecodeError; AttributeError])
       (fun _ =>
          p <- times total_co2e 0.70 ;;
          k <- times total_co2e 0.20 ;;
          t <- times total_co2e 0.10 ;;
          final_result_json <- _calculate_from_components p k t ;;
          with_notes (loads_dumped final_result_json)
            "Component breakdown used fallback percentages due to parsing error."))
  else
    ([], Return (error_record "Input data has neither 'components' nor 'co2e_kg'.")).

(* ================================================================== *)
(** * carbon-footprint/master_automation.py, layer 4 *)
(* ================================================================== *)

(** The body of the layer-4 [try]; an exception here makes the pipeline
    return its "Layer 4 (Footprint Estimation) failed" record. *)
Definition layer4_footprint_estimation (model : breakdown_request -> model_outcome)
    (layer3_result : list (string * pyval)) : result pyval :=
  canonical_name <- dict_item "canonical_name" layer3_result ;;
  total_co2e <- dict_item "co2e_kg" layer3_result ;;
  let source :=
    match dict_get "source" layer3_result with
    | Some v => v
    | None => PStr "Unknown source"
    end in
  estimated_breakdown_json <-
    _breakdown_total_co2e model canonical_name total_co2e source ;;
  estimated_components <-
    try_except (loads estimated_breakdown_json) (one_of [JSONDecodeError])
      (fun _ =>
         p <- times total_co2e 0.60 ;;
         k <- times total_co2e 0.20 ;;
         t <- times total_co2e 0.20 ;;
         Return (PDict [("production_impact", p); ("packaging_impact", k);
                        ("transport_impact", t)])) ;;
  layer4_result <- calculate_from_dict estimated_components ;;
  layer4_result <- with_notes layer4_result "Component breakdown was estimated by AI." ;;
  confidence <- dict_item "confidence" layer3_result ;;
  match layer4_result with
  | PDict d =>
      Return (PDict (dict_set "confidence" confidence
                      (dict_set "source" source
                        (dict_set "canonical_name" canonical_name d))))
  | _ => Raise TypeError
  end.

End Decoder.

(* ================================================================== *)
(** * Vocabulary of the statements and instances *)
(* ================================================================== *)

(** A candidate after which the loop goes on: any status other than 200
    and 429, or a request error. *)
Definition advances (o : http_outcome) : bool :=
  match o with
  | HttpResponse status_code _ =>
      negb (status_code =? 200) && negb (status_code =? 429)
  | HttpRaises => true
  end.

Definition plan_of (r : response_dict) : option pyval :=
  match r with
  | SimulatedCandidates text => Some (loads_dumped text)
  | ApiJson _ => None
  end.

Definition plan_field (k : string) (plan : pyval) : option pyval :=
  match plan with
  | PDict d => dict_get k d
  | _ => None
  end.

(** The [power_source] of the entry of [appliance] in the plan. *)
Definition power_source_of (appliance : string) (plan : pyval) : option pyval :=
  match plan_field "energy_allocation_plan" plan with
  | Some (PList items) =>
      match find (fun item => match plan_field "appliance" item with
                              | Some (PStr a) => String.eqb a appliance
                              | _ => false
                              end) items with
      | Some item => plan_field "power_source" item
      | None => None
      end
  | _ => None
  end.

(** Three networks: the second candidate answers, the second candidate is
    rate limited, nobody answers. *)
Definition post_second_ok : transport := fun model _ =>
  if String.eqb model "gemini-1.5-pro" then HttpResponse 200 (PStr "body")
  else HttpResponse 503 PNone.


Definition post_all_down : transport := fun _ _ => HttpRaises.

Definition post_first_limited : transport := fun _ _ => HttpResponse 429 PNone.

Definition prompt_3500_75 : string :=
  prompt_of_ints "2025-01-01 12:00:00" 3500 75 "7500.00" "[]".

Definition prompt_3500_75_float : string :=
  prompt_of_floats "2025-01-01 12:00:00" 3500 75 "7500.00" "[]".

(** The row of the table that goes with each period. *)
Definition band_row (p : string) : conditions :=
  if String.eqb p "Peak Sun (High Production)" then solar_conditions 2001
  else if String.eqb p "Moderate Sun" then solar_conditions 501
  else if String.eqb p "Low Sun" then solar_conditions 101
  else solar_conditions 100.

(** [canonical_name] is in the internal table, case-insensitively. *)
Definition in_database (canonical_name : string) : bool :=
  dict_mem (lower canonical_name) MOCK_INTERNAL_DATABASE.

Definition standardized (canonical_name category : string) : list (string * string) :=
  [("canonical_name", canonical_name); ("category", category)].

Definition layer2_entity (canonical_name category : string) : list (string * pyval) :=
  [("canonical_name", PStr canonical_name); ("category", PStr category)].

Definition db_run (canonical_name : string) : tool_run :=
  {| run_name := "_lookup_internal_database";
     run_args := [("canonical_name", canonical_name)];
     run_output := _lookup_internal_database canonical_name |}.

Definition web_run (canonical_name : string) : tool_run :=
  {| run_name := "_search_web_for_footprint_data";
     run_args := [("canonical_name", canonical_name)];
     run_output := _search_web_for_footprint_data canonical_name |}.

Definition fallback_run (category : string) : tool_run :=
  {| run_name := "_use_category_fallback_heuristic";
     run_args := [("category", category)];
     run_output := _use_category_fallback_heuristic category |}.

(** The order database, web, category heuristic, each later step only
    after the step before it reported an error. *)
Definition ordered_runs (canonical_name category : string) : list tool_run :=
  db_run canonical_name ::
  (if is_error_output (_lookup_internal_database canonical_name) then
     web_run canonical_name ::
     (if is_error_output (_search_web_for_footprint_data canonical_name) then
        [fallback_run category]
      else [])
   else []).

(** A planner that goes to the web first. *)
Definition web_first_planner (canonical_name : string)
    (sent : list (string * json_text)) : planner_reply :=
  match sent with
  | [] => FunctionCall "_search_web_for_footprint_data" [("canonical_name", canonical_name)]
  | _ => FinalText "done"
  end.

Definition fallback_record (canonical_name category : string) (co2e_kg : pyval) : pyval :=
  PDict [("canonical_name", PStr canonical_name); ("category", PStr category);
         ("co2e_kg", co2e_kg); ("source", PStr "Category Fallback Heuristic");
         ("confidence", PStr "Low")].

Definition web_record (canonical_name category : string) : pyval :=
  PDict [("canonical_name", PStr canonical_name); ("category", PStr category);
         ("co2e_kg", PNum 0.075);
         ("source", PStr "Simulated Web Scrape (GoodFood Institute Report)");
         ("confidence", PStr "Medium")].

Definition planner_for (canonical_name category : string) : planner :=
  fun _ => prescribed_planner canonical_name category.


(** The dict built by [_calculate_from_components] from three numbers. *)
Definition calculated (p k t : Q) : list (string * pyval) :=
  [("total_co2e_kg", PNum (round4 (p + k + t)));
   ("breakdown", PDict [("production", PNum (round4 p));
                        ("packaging", PNum (round4 k));
                        ("transport", PNum (round4 t))]);
   ("formula", PStr "Total = Production + Packaging + Transport")].

Definition number_field (k : string) (v : pyval) : option Q :=
  match plan_field k v with
  | Some (PNum q) => Some q
  | _ => None
  end.

(** The total and the three parts of an estimate. *)
Definition footprint_parts (r : pyval) : option (Q * Q * Q * Q) :=
  match number_field "total_co2e_kg" r, plan_field "breakdown" r with
  | Some total, Some b =>
      match number_field "production" b, number_field "packaging" b,
            number_field "transport" b with
      | Some p, Some k, Some t => Some (total, p, k, t)
      | _, _, _ => None
      end
  | _, _ => None
  end.

(** [components.get(key, 0)] as a number. *)
Definition component (components : pyval) (key : string) : result Q :=
  v <- py_get components key (PNum 0) ;; as_number v.

(** The request that [estimate] sends for [retrieval_data]. *)
Definition request_of (retrieval_data : list (string * pyval)) : breakdown_request :=
  (match dict_get "canonical_name" retrieval_data with Some v => v | None => PNone end,
   match dict_get "co2e_kg" retrieval_data with Some v => v | None => PNone end,
   match dict_get "source" retrieval_data with
   | Some v => v
   | None => PStr "Unknown source"
   end).


Definition is_scalar (v : pyval) : bool :=
  match v with
  | PNone | PBool _ | PNum _ => true
  | _ => false
  end.

(** [v] is a container in which one of the two keys is not found. *)
Definition lacks_required_key (v : pyval) : bool :=
  match py_in "canonical_name" v, py_in "category" v with
  | Return a, Return b => negb (a && b)
  | _, _ => false
  end.

(** [json.loads] on the texts used in the examples below; it takes every
    other text as not being JSON. *)
Definition known_texts : list (string * pyval) := [
  ("5", PNum 5);
  ("null", PNone);
  ("{}", PDict []);
  ("{" ++ dq ++ "category" ++ dq ++ ": " ++ dq ++ "Food" ++ dq ++ "}",
     PDict [("category", PStr "Food")]);
  ("[0.05, 0.02]", PList [PNum 0.05; PNum 0.02]) ].

Definition json_loads_known (text : string) : option pyval :=
  dict_get text known_texts.

Definition lays_total : list (string * pyval) :=
  [("canonical_name", PStr "Lay's Classic Potato Chips (1 oz)");
   ("category", PStr "Food"); ("co2e_kg", PNum 0.075);
   ("source", PStr "Simulated Web Scrape (GoodFood Institute Report)");
   ("confidence", PStr "Medium")].


Definition model_says (text : string) : breakdown_request -> model_outcome :=
  fun _ => ModelText text.

Definition model_down : breakdown_request -> model_outcome :=
  fun _ => ModelRaises ApiError.


Definition manual_text : pyval :=
  PDict [("type", PStr "manual_text");
         ("content", PStr "Lay's Classic Potato Chips (1 oz)")].

(* ================================================================== *)
(** * carbon-footprint/api_server.py *)
(* ================================================================== *)

Definition ALLOWED_EXTENSIONS : list string := ["png"; "jpg"; "jpeg"; "webp"].

(** [filename.rsplit('.', 1)[1]] when there is a dot in [filename]: the
    text after the last dot. *)
Fixpoint after_last_dot (filename : string) : option string :=
  match filename with
  | EmptyString => None
  | String c rest =>
      match after_last_dot rest with
      | Some ext => Some ext
      | None => if Ascii.eqb c "."%char then Some rest else None
      end
  end.

(** [x in ALLOWED_EXTENSIONS], a set of str. *)
Definition in_set (x : string) (set : list string) : bool :=
  existsb (String.eqb x) set.

Definition allowed_file (filename : string) : bool :=
  contains "." filename &&
  match after_last_dot filename with
  | Some ext => in_set (lower ext) ALLOWED_EXTENSIONS
  | None => false
  end.

(** Number of backticks at the head of a text. *)
Fixpoint ticks (s : string) : nat :=
  match s with
  | String c s' => if Ascii.eqb c "`"%char then S (ticks s') else O
  | EmptyString => O
  end.

(** [s.find(sub)]: the first index at which [sub] occurs. *)
Fixpoint find_index (sub s : string) : option nat :=
  if prefix sub s then Some O
  else match s with
       | EmptyString => None
       | String _ s' => option_map S (find_index sub s')
       end.

Fixpoint all_digits (s : string) : bool :=
  match s with
  | EmptyString => true
  | String c s' => is_digit c && all_digits s'
  end.

(** The alerts of a plan. *)
Definition alerts_of (plan : pyval) : list pyval :=
  match plan_field "alerts" plan with
  | Some (PList l) => l
  | _ => []
  end.

(** The [battery_management] text of a plan. *)
Definition battery_management_of (plan : pyval) : option pyval :=
  plan_field "battery_management" plan.




(** The three fields that a footprint record shows. *)
Definition footprint_fields (record : pyval) : option pyval * option pyval * option pyval :=
  (plan_field "co2e_kg" record, plan_field "source" record,
   plan_field "confidence" record).

(** The three keys of a breakdown. *)
Definition impact_keys : list string :=
  ["production_impact"; "packaging_impact"; "transport_impact"].

(** One of the three entries of a dict is there and is not a number. *)
Definition has_non_number (d : list (string * pyval)) : bool :=
  existsb (fun key => match component (PDict d) key with
                      | Raise _ => true
                      | Return _ => false
                      end) impact_keys.

(** [json.loads] on some more texts; every other text is taken as not
    being JSON. *)
Definition more_texts : list (string * pyval) := [
  ("{}", PDict []);
  ("{" ++ dq ++ "production_impact" ++ dq ++ ": 0.1, " ++ dq ++ "packaging_impact"
       ++ dq ++ ": 0.05, " ++ dq ++ "transport_impact" ++ dq ++ ": 0.02}",
     PDict [("production_impact", PNum 0.1); ("packaging_impact", PNum 0.05);
            ("transport_impact", PNum 0.02)]);
  ("{" ++ dq ++ "production_impact" ++ dq ++ ": " ++ dq ++ "0.05" ++ dq ++ "}",
     PDict [("production_impact", PStr "0.05")]);
  ("{" ++ dq ++ "canonical_name" ++ dq ++ ": " ++ dq ++ "Desk Lamp" ++ dq ++ ", "
       ++ dq ++ "category" ++ dq ++ ": " ++ dq ++ "Furniture" ++ dq ++ "}",
     PDict [("canonical_name", PStr "Desk Lamp"); ("category", PStr "Furniture")]);
  ("null", PNone) ].

Definition json_loads_more (text : string) : option pyval :=
  dict_get text more_texts.

Definition breakdown_text : string :=
  "{" ++ dq ++ "production_impact" ++ dq ++ ": 0.1, " ++ dq ++ "packaging_impact"
      ++ dq ++ ": 0.05, " ++ dq ++ "transport_impact" ++ dq ++ ": 0.02}".

Definition quoted_number_text : string :=
  "{" ++ dq ++ "production_impact" ++ dq ++ ": " ++ dq ++ "0.05" ++ dq ++ "}".

Definition desk_lamp_text : string :=
  "{" ++ dq ++ "canonical_name" ++ dq ++ ": " ++ dq ++ "Desk Lamp" ++ dq ++ ", "
      ++ dq ++ "category" ++ dq ++ ": " ++ dq ++ "Furniture" ++ dq ++ "}".

(* ================================================================== *)
(** * carbon-footprint/input_layer.py *)
(* ================================================================== *)

Definition first_char (s : string) : option ascii :=
  match s with
  | String c _ => Some c
  | EmptyString => None
  end.

Fixpoint last_char (s : string) : option ascii :=
  match s with
  | EmptyString => None
  | String c EmptyString => Some c
  | String _ s' => last_char s'
  end.

Definition is_empty (s : string) : bool :=
  match s with
  | EmptyString => true
  | String _ _ => false
  end.

(** [_process_with_tesseract]: [ocr] is what [Image.open] and
    [pytesseract.image_to_string] give for the path, a raw text or an
    exception; the result is the record or [None]. *)
Definition _process_with_tesseract (ocr : result string) : pyval :=
  match ocr with
  | Return raw_text =>
      if negb (is_empty (strip raw_text)) then
        PDict [("type", PStr "ocr_fallback"); ("source", PStr "Tesseract");
               ("raw_text", PStr (strip raw_text))]
      else PNone
  | Raise _ => PNone
  end.

Section Vision.

Variable json_loads : string -> option pyval.

(** [_process_with_gemini]: [reply] is what [Image.open] and the call
    of the vision model give for the path; the result is the decoded
    text, or [None] after any exception. *)
Definition _process_with_gemini (reply : model_outcome) : pyval :=
  match (text <- response_text reply ;; loads json_loads (clean_response text)) with
  | Return decoded => decoded
  | Raise _ => PNone
  end.

Definition is_none (v : pyval) : bool :=
  match v with
  | PNone => true
  | _ => false
  end.

(** [process_input].  [path_exists] is [os.path.exists(input_data)].
    The first component lists the tools that were run. *)
Definition process_input (path_exists : bool) (reply : model_outcome)
    (ocr : result string) (input_data : string) : list string * pyval :=
  if path_exists then
    let result := _process_with_gemini reply in
    if is_none result then
      let result := _process_with_tesseract ocr in
      if is_none result then
        (["gemini"; "tesseract"],
         error_record "Failed to process image with all available tools.")
      else (["gemini"; "tesseract"], result)
    else (["gemini"], result)
  else
    ([], PDict [("type", PStr "manual_text"); ("content", PStr input_data)]).

End Vision.

(* ================================================================== *)
(** * carbon-footprint/CarbonFootprintAgent.py *)
(* ================================================================== *)

(** [v[k]] for a str key. *)
Definition py_item (v : pyval) (k : string) : result pyval :=
  match v with
  | PDict d => dict_item k d
  | _ => Raise TypeError
  end.

Module CarbonFootprintAgent.

(** The values that the f-string of the final summary shows, in order. *)
Record summary : Type := {
  shown_name : pyval;
  shown_total : pyval;
  shown_production : pyval;
  shown_packaging : pyval;
  shown_transport : pyval;
  shown_notes : pyval
}.

Record run_result : Type := {
  standardized_data : pyval;
  knowledge_data : pyval;
  estimation_data : pyval;
  final_summary : summary
}.

Section Agent.

Variable json_loads : string -> option pyval.

(** The reply of the model to the prompt of [_standardize_entity], which
    is made from [raw_text]. *)
Variable standardizer : string -> model_outcome.

(** The reply of the model to the prompt of
    [_estimate_footprint_breakdown], which is made from the total. *)
Variable estimator : pyval -> model_outcome.

Definition _standardize_entity (raw_text : string) : result string :=
  text <- response_text (standardizer raw_text) ;;
  Return (clean_response text).

Definition _retrieve_knowledge (canonical_name category : pyval) : result json_text :=
  name <- str_method canonical_name ;;
  if contains web_key (lower name) then
    Return (Dumps (footprint_record 0.075 "Simulated Web Scrape" "Medium"))
  else
    Return (Dumps (footprint_record 1.5 "Category Fallback" "Low")).

Definition _estimate_footprint_breakdown (retrieved_data_json : json_text)
    : result json_text :=
  let data := loads_dumped retrieved_data_json in
  total_co2e <- py_get data "co2e_kg" PNone ;;
  text <- response_text (estimator total_co2e) ;;
  let cleaned_response := clean_response text in
  breakdown <-
    try_except (loads json_loads cleaned_response) (one_of [JSONDecodeError])
      (fun _ =>
         p <- times total_co2e 0.60 ;;
         k <- times total_co2e 0.20 ;;
         t <- times total_co2e 0.20 ;;
         Return (PDict [("production_impact", p); ("packaging_impact", k);
                        ("transport_impact", t)])) ;;
  Return (Dumps (PDict [("total_co2e_kg", total_co2e); ("breakdown", breakdown);
                        ("notes", PStr "Component breakdown was estimated by AI.")])).

Definition _generate_final_summary (final_data_json : json_text)
    (standardized_data_json : string) : result summary :=
  let final_data := loads_dumped final_data_json in
  standardized_data <- loads json_loads standardized_data_json ;;
  name <- py_get standardized_data "canonical_name" PNone ;;
  total <- py_get final_data "total_co2e_kg" PNone ;;
  breakdown <- py_item final_data "breakdown" ;;
  p <- py_get breakdown "production_impact" (PNum 0) ;;
  breakdown <- py_item final_data "breakdown" ;;
  k <- py_get breakdown "packaging_impact" (PNum 0) ;;
  breakdown <- py_item final_data "breakdown" ;;
  t <- py_get breakdown "transport_impact" (PNum 0) ;;
  notes <- py_get final_data "notes" PNone ;;
  Return {| shown_name := name; shown_total := total; shown_production := p;
            shown_packaging := k; shown_transport := t; shown_notes := notes |}.

Definition run (user_query : string) : result run_result :=
  standardized_result <- _standardize_entity user_query ;;
  standardized_data <-
    try_except (loads json_loads standardized_result) (one_of [JSONDecodeError])
      (fun _ => Return (PDict [("canonical_name", PStr user_query);
                               ("category", PStr "Food")])) ;;
  canonical_name <- py_item standardized_data "canonical_name" ;;
  category <- py_item standardized_data "category" ;;
  knowledge_result <- _retrieve_knowledge canonical_name category ;;
  let knowledge_data := loads_dumped knowledge_result in
  estimation_result <- _estimate_footprint_breakdown knowledge_result ;;
  let estimation_data := loads_dumped estimation_result in
  final_summary <- _generate_final_summary estimation_result standardized_result ;;
  Return {| standardized_data := standardized_data;
            knowledge_data := knowledge_data;
            estimation_data := estimation_data;
            final_summary := final_summary |}.

End Agent.

End CarbonFootprintAgent.

(* ================================================================== *)
(** * carbon-footprint/master_automation.py, the five layers *)
(* ================================================================== *)

(** What [run_complete_pipeline] returns: the results of the layers, or
    the record of the layer that failed; [details] is [str(e)] for the
    exception [e]. *)
Record pipeline_results : Type := {
  layer1_input_processing : pyval;
  layer2_standardization : pyval;
  layer3_knowledge_retrieval_result : pyval;
  layer4_footprint_estimation_result : pyval;
  layer5_final_summary : list pyval     (* the values shown, in order *)
}.

Inductive pipeline_outcome : Type :=
| Completed (results : pipeline_results)
| Failed (error : string) (details : exn).

(** One [try: ... except Exception as e: return {"error": ..., ...}]. *)
Definition layer {A : Type} (error : string) (body : result A)
    (next : A -> pipeline_outcome) : pipeline_outcome :=
  match body with
  | Return a => next a
  | Raise e => Failed error e
  end.

(** A result on which the next layer calls [.get]: only a dict has the
    method. *)
Definition as_dict (v : pyval) : result (list (string * pyval)) :=
  match v with
  | PDict d => Return d
  | _ => Raise AttributeError
  end.

(** A result that the next layer subscripts with a str key: only a dict
    takes one. *)
Definition subscripted (v : pyval) : result (list (string * pyval)) :=
  match v with
  | PDict d => Return d
  | _ => Raise TypeError
  end.

Definition get_or_none (k : string) (d : list (string * pyval)) : pyval :=
  match dict_get k d with
  | Some v => v
  | None => PNone
  end.

Section Pipeline.

Variable json_loads : string -> option pyval.

(** The world of one run: whether the path exists, the reply of the
    vision model, the OCR, the reply of the standardizer to a record and
    of the estimator to a request. *)
Variable path_exists : bool.
Variable vision : model_outcome.
Variable ocr : result string.
Variable standardizer : pyval -> model_outcome.
Variable estimator : breakdown_request -> model_outcome.

Definition run_complete_pipeline (image_path : string) : pipeline_outcome :=
  layer "Layer 1 (Input Processing) failed"
    (let layer1_result :=
       snd (process_input json_loads path_exists vision ocr image_path) in
     _ <- py_get layer1_result "type" (PStr "Unknown") ;;
     Return layer1_result)
  (fun layer1_result =>
  layer "Layer 2 (Entity Standardization) failed"
    (layer2_result <- standardize_json json_loads standardizer layer1_result ;;
     _ <- py_get layer2_result "canonical_name" (PStr "Unknown") ;;
     _ <- py_get layer2_result "category" (PStr "Unknown") ;;
     Return layer2_result)
  (fun layer2_result =>
  layer "Layer 3 (Knowledge Retrieval) failed"
    (d <- subscripted layer2_result ;; layer3_knowledge_retrieval d)
  (fun layer3_result =>
  layer "Layer 4 (Footprint Estimation) failed"
    (d <- subscripted layer3_result ;;
     layer4_footprint_estimation json_loads estimator d)
  (fun layer4_result =>
  layer "Layer 5 (Final Summary) failed"
    (d <- as_dict layer4_result ;;
     breakdown <- dict_item "breakdown" d ;;
     production <- py_get breakdown "production" PNone ;;
     packaging <- py_get breakdown "packaging" PNone ;;
     transport <- py_get breakdown "transport" PNone ;;
     Return [get_or_none "canonical_name" d; get_or_none "total_co2e_kg" d;
             production; packaging; transport;
             get_or_none "source" d; get_or_none "confidence" d;
             get_or_none "notes" d;
             match dict_get "formula" d with
             | Some v => v
             | None => PStr "Total = Production + Packaging + Transport"
             end])
  (fun final_summary =>
  Completed {| layer1_input_processing := layer1_result;
               layer2_standardization := layer2_result;
               layer3_knowledge_retrieval_result := layer3_result;
               layer4_footprint_estimation_result := layer4_result;
               layer5_final_summary := final_summary |}))))).

End Pipeline.

Fixpoint all_space (s : string) : bool :=
  match s with
  | EmptyString => true
  | String c s' => is_space c && all_space s'
  end.

Definition is_dict (v : pyval) : bool :=
  match v with
  | PDict _ => true
  | _ => false
  end.

(* ================================================================== *)
(** * Solar System/Solar_Energy_AI_Agent.py, the agent *)
(* ================================================================== *)

(** [bool(v)] *)
Definition truthy (v : pyval) : bool :=
  match v with
  | PNone => false
  | PBool b => b
  | PNum q => negb (Qeq_bool q 0)
  | PStr s => negb (is_empty s)
  | PList [] => false
  | PList (_ :: _) => true
  | PDict [] => false
  | PDict (_ :: _) => true
  end.

(** The longest prefix of [s] that ends with a closing brace. *)
Fixpoint upto_last_brace (s : string) : option string :=
  match s with
  | EmptyString => None
  | String c s' =>
      match upto_last_brace s' with
      | Some r => Some (String c r)
      | None => if Ascii.eqb c "}" then Some (String c EmptyString) else None
      end
  end.

(** [re.search(r'\{.*\}', s, re.DOTALL).group(0)]: at the first opening
    brace that has a closing brace after it, the greedy [.*] runs up to
    the last closing brace. *)
Fixpoint search_json_object (s : string) : option string :=
  match s with
  | EmptyString => None
  | String c s' =>
      if Ascii.eqb c "{" then
        match upto_last_brace s' with
        | Some r => Some (String c r)
        | None => search_json_object s'
        end
      else search_json_object s'
  end.

(** [l[-3:]] *)
Definition last3 {A : Type} (l : list A) : list A :=
  skipn (List.length l - 3) l.

Module SolarEnergyAgent.

(** One entry of [energy_log], for readings that are ints, as those of
    Main_Application.py and of the simulation endpoint are. *)
Record log_entry : Type := {
  timestamp : string;
  solar_production_watts : Z;
  battery_percentage : Z
}.

(** The agent.  [appliances_json] is [json.dumps(self.appliances,
    indent=2)], which no method changes; the capacity is an int. *)
Record agent : Type := {
  battery_capacity_wh : Z;
  appliances_json : string;
  energy_log : list log_entry
}.

(** What one call of [track_and_advise] reads from outside: the clock,
    as the log entry and as the prompt show it, and the network. *)
Record call : Type := {
  now_isoformat : string;
  now_strftime : string;
  post : transport
}.

(** What the body of the [try] can raise: an exception of [exn], or
    [IndexError]. *)
Inductive raised : Type :=
| Exn (e : exn)
| IndexError.

Inductive tried (A : Type) : Type :=
| Got (a : A)
| Threw (e : raised).
Arguments Got {A} a.
Arguments Threw {A} e.

Definition and_then {A B : Type} (m : tried A) (k : A -> tried B) : tried B :=
  match m with
  | Got a => k a
  | Threw e => Threw e
  end.

(** [v[k]] for a str [k]. *)
Definition item (v : pyval) (k : string) : tried pyval :=
  match v with
  | PDict d =>
      match dict_get k d with
      | Some x => Got x
      | None => Threw (Exn KeyError)
      end
  | _ => Threw (Exn TypeError)
  end.

(** [v[0]]: the first element of a list, the first character of a str;
    a dict decoded from JSON has no key [0]. *)
Definition first (v : pyval) : tried pyval :=
  match v with
  | PList (x :: _) => Got x
  | PList [] => Threw IndexError
  | PStr (String c _) => Got (PStr (String c EmptyString))
  | PStr EmptyString => Threw IndexError
  | PDict _ => Threw (Exn KeyError)
  | PNone | PBool _ | PNum _ => Threw (Exn TypeError)
  end.

Section Agent.

Variable json_loads : string -> option pyval.

(** [json.dumps(entries, indent=2)] *)
Variable dumps_log : list log_entry -> string.

(** The text of [{battery_capacity_wh * (battery_percentage / 100.0):.2f}] *)
Variable format_2f : Z -> Z -> string.

(** What [d[:500]] raises for a dict [d]: [TypeError] up to Python 3.11,
    [KeyError] from Python 3.12 on. *)
Variable slice_of_dict : exn.

(** [_create_prompt] as a method: the fields of the prompt are those of
    the agent and of the readings, and [current_time] is the clock. *)
Definition create_prompt (self : agent) (current_time : string)
    (solar_production_watts battery_percentage : Z) : string :=
  _create_prompt current_time (str_of_int solar_production_watts)
    (str_of_int (battery_capacity_wh self)) (str_of_int battery_percentage)
    (format_2f (battery_capacity_wh self) battery_percentage)
    (appliances_json self) (dumps_log (last3 (energy_log self))).

(** The lines of the [try] after [response_text] is bound: the slice
    that is printed, the search and [json.loads]. *)
Definition parse_plan (response_text : pyval) : tried pyval :=
  match response_text with
  | PStr s =>
      let json_text :=
        match search_json_object s with
        | Some json_text => json_text
        | None => s
        end in
      match json_loads json_text with
      | Some plan => Got plan
      | None => Threw (Exn JSONDecodeError)
      end
  | PList _ => Threw (Exn TypeError)
  | PDict _ => Threw (Exn slice_of_dict)
  | PNone | PBool _ | PNum _ => Threw (Exn TypeError)
  end.

(** The body of the [try]. *)
Definition read_plan (response : pyval) : tried pyval :=
  and_then (item response "candidates") (fun candidates =>
  and_then (first candidates) (fun candidate =>
  and_then (item candidate "content") (fun content =>
  and_then (item content "parts") (fun parts =>
  and_then (first parts) (fun part =>
  and_then (item part "text") parse_plan))))).

(** What follows the call of [generate_content].  The text of a simulated
    response is [json.dumps] of a dict: it starts and ends with a brace,
    so that the search takes all of it and [json.loads] gives the plan
    back. *)
Definition advise (response : response_dict)
    (solar_production_watts battery_percentage : Z) : result pyval :=
  match response with
  | SimulatedCandidates text => Return (loads_dumped text)
  | ApiJson response =>
      if truthy response then
        candidates <- py_get response "candidates" PNone ;;
        if truthy candidates then
          match read_plan response with
          | Got plan => Return plan
          | Threw IndexError =>
              Return (simulated_plan solar_production_watts battery_percentage)
          | Threw (Exn e) =>
              if one_of [JSONDecodeError; KeyError] e then
                Return (simulated_plan solar_production_watts battery_percentage)
              else Raise e
          end
        else Return (error_record "No response from Gemini API.")
      else Return (error_record "No response from Gemini API.")
  end.

(** [track_and_advise]: the agent after the call, and what the call
    returns or raises. *)
Definition track_and_advise (self : agent) (c : call)
    (solar_production_watts battery_percentage : Z) : agent * result pyval :=
  let log_entry := {| timestamp := now_isoformat c;
                      solar_production_watts := solar_production_watts;
                      battery_percentage := battery_percentage |} in
  let self := {| battery_capacity_wh := battery_capacity_wh self;
                 appliances_json := appliances_json self;
                 energy_log := (energy_log self ++ [log_entry])%list |} in
  let prompt :=
    create_prompt self (now_strftime c) solar_production_watts battery_percentage in
  let response := snd (generate_content (post c) prompt) in
  (self, advise response solar_production_watts battery_percentage).

End Agent.

End SolarEnergyAgent.

(** No character of [s] is [c]. *)
Fixpoint free_of (c : ascii) (s : string) : bool :=
  match s with
  | EmptyString => true
  | String a s' => negb (Ascii.eqb a c) && free_of c s'
  end.

(** A text of [strftime("%Y-%m-%d %H:%M:%S")]: digits, dashes, colons
    and a blank. *)
Fixpoint strftime_text (s : string) : bool :=
  match s with
  | EmptyString => true
  | String a s' =>
      (is_digit a || Ascii.eqb a "-" || Ascii.eqb a ":" || Ascii.eqb a " ")
      && strftime_text s'
  end.

(** The first place of [s] where [label] occurs, and what is there. *)
Definition first_at (label s found : string) : Prop :=
  exists i, find_index label s = Some i /\ skip i s = found.

(** A response of the API with one candidate that has one part. *)
Definition reply_with_text (text : pyval) : pyval :=
  PDict [("candidates",
          PList [PDict [("content",
                         PDict [("parts", PList [PDict [("text", text)]])])]])].

(** [json.dumps(entries, indent=2)] for entries with timestamps of
    [isoformat], which need no escape; used in the instances. *)
Definition dumps_entry (e : SolarEnergyAgent.log_entry) : string :=
  "  {" ++ nl ++
  "    " ++ dq ++ "timestamp" ++ dq ++ ": " ++ dq
         ++ SolarEnergyAgent.timestamp e ++ dq ++ "," ++ nl ++
  "    " ++ dq ++ "solar_production_watts" ++ dq ++ ": "
         ++ str_of_int (SolarEnergyAgent.solar_production_watts e) ++ "," ++ nl ++
  "    " ++ dq ++ "battery_percentage" ++ dq ++ ": "
         ++ str_of_int (SolarEnergyAgent.battery_percentage e) ++ nl ++
  "  }".

Fixpoint join_lines (ls : list string) : string :=
  match ls with
  | [] => EmptyString
  | [l] => l
  | l :: ls' => l ++ "," ++ nl ++ join_lines ls'
  end.

Definition dumps_log (entries : list SolarEnergyAgent.log_entry) : string :=
  match entries with
  | [] => "[]"
  | _ => "[" ++ nl ++ join_lines (map dumps_entry entries) ++ nl ++ "]"
  end.

(** The Wh of the charge with two decimals, for a capacity that is a
    multiple of 100: the product is then an integer. *)
Definition format_2f_hundreds (capacity percentage : Z) : string :=
  str_of_int (capacity / 100 * percentage) ++ ".00".

(** The agent of Main_Application.py before its first step. *)
Definition main_agent : SolarEnergyAgent.agent :=
  {| SolarEnergyAgent.battery_capacity_wh := 10000;
     SolarEnergyAgent.appliances_json := appliances_json_default;
     SolarEnergyAgent.energy_log := [] |}.

Definition network_down : transport := fun _ _ => HttpRaises.

Definition noon (post : transport) : SolarEnergyAgent.call :=
  {| SolarEnergyAgent.now_isoformat := "2025-06-01T12:00:00.000000";
     SolarEnergyAgent.now_strftime := "2025-06-01 12:00:00";
     SolarEnergyAgent.post := post |}.

(* ================================================================== *)
(** * Solar System/solar_api_server.py *)
(* ================================================================== *)

Definition DEFAULT_APPLIANCES : pyval :=
  PDict [("Refrigerator", PNum 200); ("Lights (LED x5)", PNum 50);
         ("Television", PNum 150); ("Washing Machine", PNum 2000);
         ("Water Heater", PNum 3000); ("Laptop Charger", PNum 65)].

(** What a handler has done once it has called [initialize_agent], or
    before: it has made a new agent, whose log is empty, or it has
    answered with a status and an error text, or its [except Exception]
    has taken an exception. *)
Inductive configured : Type :=
| Agent (battery_capacity_wh appliances : pyval)
| Answered (status : Z) (error : string)
| ServerError (e : exn).

(** [initialize_agent] *)
Definition initialize_agent (battery_capacity_wh appliances : pyval) : configured :=
  Agent battery_capacity_wh
        (if is_none appliances then DEFAULT_APPLIANCES else appliances).

Definition handled (r : result configured) : configured :=
  match r with
  | Return c => c
  | Raise e => ServerError e
  end.

(** [analyze_solar_energy], up to its call of [initialize_agent];
    [data] is what [request.get_json()] returned. *)
Definition analyze_solar_energy_agent (data : pyval) : configured :=
  handled (
    if negb (truthy data) then Return (Answered 400 "No JSON data provided")
    else
      solar_production <- py_get data "solar_production" PNone ;;
      battery_percentage <- py_get data "battery_percentage" PNone ;;
      if is_none solar_production || is_none battery_percentage then
        Return (Answered 400
          "Missing required fields: solar_production and battery_percentage")
      else
        battery_capacity <- py_get data "battery_capacity" (PNum 10000) ;;
        custom_appliances <- py_get data "appliances" PNone ;;
        let current_appliances :=
          if truthy custom_appliances then custom_appliances else PNone in
        Return (initialize_agent battery_capacity current_appliances)).

(** [run_simulation], up to its call of [initialize_agent]. *)
Definition run_simulation_agent (data : pyval) : configured :=
  handled (
    if negb (truthy data) then Return (Answered 400 "No JSON data provided")
    else
      battery_capacity <- py_get data "battery_capacity" (PNum 10000) ;;
      custom_appliances <- py_get data "appliances" PNone ;;
      simulation_data <- py_get data "simulation_data" (PList []) ;;
      if negb (truthy simulation_data) then
        Return (Answered 400 "No simulation data provided")
      else Return (initialize_agent battery_capacity custom_appliances)).

(** [handle_configuration] for a POST, up to its call of
    [initialize_agent]. *)
Definition handle_configuration_post_agent (data : pyval) : configured :=
  handled (
    battery_capacity <- py_get data "battery_capacity" (PNum 10000) ;;
    appliances <- py_get data "appliances" (PDict []) ;;
    Return (initialize_agent battery_capacity appliances)).

(** A body that holds readings, simulation data and [appliances]. *)
Definition body_with (appliances : list (string * pyval)) : pyval :=
  PDict ([("solar_production", PNum 0); ("battery_percentage", PNum 75);
          ("simulation_data", PList [PDict [("solar", PNum 3500)]])]
         ++ appliances)%list.

(** A decoded text that is a list of both key names, not a dict. *)
Definition names_list_text : string :=
  "[" ++ dq ++ "canonical_name" ++ dq ++ ", " ++ dq ++ "category" ++ dq ++ "]".

Definition json_loads_lists (text : string) : option pyval :=
  if String.eqb text names_list_text
  then Some (PList [PStr "canonical_name"; PStr "category"])
  else json_loads_more text.

(* ================================================================== *)
(** * Properties of the Gemini client *)
(* ================================================================== *)

Section TryModels.

Variable post : transport.
Variable prompt : string.

Lemma try_models_advance (pre rest : list string) :
  Forall (fun m => advances (post m prompt) = true) pre ->
  try_models post prompt (pre ++ rest) =
  ((pre ++ fst (try_models post prompt rest))%list,
   snd (try_models post prompt rest)).
Proof.
  intros H. induction H as [|m ms Hm _ IH]; cbn [app try_models].
  - now destruct (try_models post prompt rest).
  - rewrite IH. unfold advances in Hm.
    destruct (post m prompt) as [status_code json|]; [|reflexivity].
    apply andb_prop in Hm. destruct Hm as [H200 H429].
    apply negb_true_iff in H200, H429. now rewrite H200, H429.
Qed.

Lemma try_models_all_fail (models : list string) :
  Forall (fun m => advances (post m prompt) = true) models ->
  try_models post prompt models = (models, all_failed_response prompt).
Proof.
  intros H. rewrite <- (app_nil_r models) at 1.
  rewrite (try_models_advance models [] H). cbn. now rewrite app_nil_r.
Qed.




End TryModels.



(** ** The bands of the simulated plan *)

Lemma solar_conditions_night (w : Z) :
  w <= 100 -> period (solar_conditions w) = "Night/No Sun".
Proof.
  intros H. unfold solar_conditions.
  destruct (Z.gtb_spec w 2000); [lia|].
  destruct (Z.gtb_spec w 500); [lia|].
  destruct (Z.gtb_spec w 100); [lia|]. reflexivity.
Qed.

Lemma solar_conditions_low (w : Z) :
  100 < w <= 500 -> period (solar_conditions w) = "Low Sun".
Proof.
  intros H. unfold solar_conditions.
  destruct (Z.gtb_spec w 2000); [lia|].
  destruct (Z.gtb_spec w 500); [lia|].
  destruct (Z.gtb_spec w 100); [|lia]. reflexivity.
Qed.

Lemma solar_conditions_moderate (w : Z) :
  500 < w <= 2000 -> period (solar_conditions w) = "Moderate Sun".
Proof.
  intros H. unfold solar_conditions.
  destruct (Z.gtb_spec w 2000); [lia|].
  destruct (Z.gtb_spec w 500); [|lia]. reflexivity.
Qed.

Lemma solar_conditions_peak (w : Z) :
  2000 < w -> period (solar_conditions w) = "Peak Sun (High Production)".
Proof.
  intros H. unfold solar_conditions.
  destruct (Z.gtb_spec w 2000); [|lia]. reflexivity.
Qed.

Lemma solar_conditions_row (w : Z) :
  solar_conditions w = band_row (period (solar_conditions w)).
Proof.
  unfold solar_conditions.
  destruct (w >? 2000); [reflexivity|].
  destruct (w >? 500); [reflexivity|].
  destruct (w >? 100); reflexivity.
Qed.

(** C8.  The simulated plan sorts the solar production into four bands
    with the strict thresholds 100, 500 and 2000, so that a value equal to
    a threshold is in the lower band; the period fixes the power source of
    the heavy appliances and the recommendation, and these are what the
    plan shows; for 3500 W and 75 % the period is "Peak Sun (High
    Production)" and the heavy appliances run on "Direct Solar". *)
Theorem simulated_plan_bands :
  (forall w, (w <= 100 -> period (solar_conditions w) = "Night/No Sun") /\
             (100 < w <= 500 -> period (solar_conditions w) = "Low Sun") /\
             (500 < w <= 2000 -> period (solar_conditions w) = "Moderate Sun") /\
             (2000 < w -> period (solar_conditions w) = "Peak Sun (High Production)")) /\
  (period (solar_conditions 100) = "Night/No Sun" /\
   period (solar_conditions 101) = "Low Sun" /\
   period (solar_conditions 500) = "Low Sun" /\
   period (solar_conditions 501) = "Moderate Sun" /\
   period (solar_conditions 2000) = "Moderate Sun" /\
   period (solar_conditions 2001) = "Peak Sun (High Production)") /\
  (forall w1 w2, period (solar_conditions w1) = period (solar_conditions w2) ->
                 solar_conditions w1 = solar_conditions w2) /\
  (forall w b,
     plan_field "recommendation_summary" (simulated_plan w b) =
       Some (PStr (recommendation (solar_conditions w) ++ " Current conditions: "
                   ++ period (solar_conditions w) ++ ", Battery: "
                   ++ str_of_int b ++ "%")) /\
     power_source_of "Water Heater" (simulated_plan w b) =
       Some (PStr (power_source_heavy (solar_conditions w))) /\
     power_source_of "Washing Machine" (simulated_plan w b) =
       Some (PStr (power_source_heavy (solar_conditions w)))) /\
  (period (solar_conditions 3500) = "Peak Sun (High Production)" /\
   power_source_heavy (solar_conditions 3500) = "Direct Solar" /\
   power_source_of "Water Heater" (simulated_plan 3500 75) = Some (PStr "Direct Solar") /\
   plan_field "recommendation_summary" (simulated_plan 3500 75) =
     Some (PStr "Excellent time for high-power appliances. Run water heater and washing machine now. Current conditions: Peak Sun (High Production), Battery: 75%")).
Proof.
  split; [|split; [|split; [|split]]].
  - intros w. repeat split.
    + apply solar_conditions_night.
    + apply solar_conditions_low.
    + apply solar_conditions_moderate.
    + apply solar_conditions_peak.
  - repeat split; reflexivity.
  - intros w1 w2 H.
    rewrite (solar_conditions_row w1), (solar_conditions_row w2). now rewrite H.
  - intros w b. repeat split; reflexivity.
  - repeat split; reflexivity.
Qed.

(** The entries of the lights and of the laptop charger have comparisons
    of their own: at exactly 100 W the lights are on "Solar" and the
    charger on "Battery". *)
Lemma light_sources_at_the_edge :
  power_source_of "Lights (LED x5)" (simulated_plan 100 75) = Some (PStr "Solar") /\
  power_source_of "Lights (LED x5)" (simulated_plan 99 75) = Some (PStr "Battery") /\
  power_source_of "Laptop Charger" (simulated_plan 100 75) = Some (PStr "Battery") /\
  power_source_of "Laptop Charger" (simulated_plan 101 75) = Some (PStr "Solar").
Proof. repeat split; reflexivity. Qed.

(** C2.  On a prompt that states 3500 W and 75 %, a rate-limited first
    candidate makes [generate_content] return the simulated response of
    the defaults 0 and 50, which is the "Night/No Sun" plan and not the
    plan of the values in the prompt; when all candidates fail, the same
    prompt gives the plan of 3500 and 75. *)
Theorem rate_limit_ignores_prompt_values :
  extract_solar_watts prompt_3500_75 = 3500 /\
  extract_battery_pct prompt_3500_75 = 75 /\
  generate_content post_first_limited prompt_3500_75 =
    (["gemini-1.5-flash"], _get_simulated_response 0 50) /\
  generate_content post_all_down prompt_3500_75 =
    (models_to_try, _get_simulated_response 3500 75) /\
  _get_simulated_response 0 50 <> _get_simulated_response 3500 75 /\
  plan_field "recommendation_summary" (simulated_plan 0 50) =
    Some (PStr "Use only essential appliances. Preserve battery for overnight needs. Current conditions: Night/No Sun, Battery: 50%").
Proof.
  repeat split; try reflexivity.
  intros H. discriminate H.
Qed.

(** ** The patterns on numbers written with a decimal point *)

Lemma prefix_cons (c a : ascii) (l s : string) :
  prefix (String c l) (String a s) = if Ascii.eqb a c then prefix l s else false.
Proof.
  cbn [prefix]. destruct (ascii_dec c a) as [->|N].
  - now rewrite Ascii.eqb_refl.
  - destruct (Ascii.eqb_spec a c) as [->|_]; [now elim N|reflexivity].
Qed.

(** A pattern that starts with literal text matches where the text is a
    prefix and the rest of the pattern matches behind it. *)
Lemma match_here_lits (l : string) (re : list re_item) (s : string) :
  match_here (lits l ++ re) s =
  if prefix l s then match_here re (skip (length l) s) else None.
Proof.
  revert s. induction l as [|c l IH]; intros s.
  - cbn. now destruct s.
  - cbn [lits app match_here length skip]. destruct s as [|a s].
    + reflexivity.
    + rewrite prefix_cons. destruct (Ascii.eqb a c); [apply IH|reflexivity].
Qed.

Lemma longest_first_none {A : Type} (f : nat -> option A) (k : nat) :
  (forall j, (1 <= j <= k)%nat -> f j = None) -> longest_first f k = None.
Proof.
  induction k as [|k IH]; intros H; [reflexivity|].
  cbn [longest_first]. rewrite (H (S k)) by lia. apply IH. intros j Hj.
  apply H. lia.
Qed.

(** Inside the run of digits, the text goes on with a digit. *)
Lemma skip_inside_run (s : string) (j : nat) :
  (j < digit_run s)%nat ->
  exists c r, skip j s = String c r /\ is_digit c = true.
Proof.
  revert s. induction j as [|j IH]; intros s H.
  - destruct s as [|c r]; cbn in H; [lia|].
    destruct (is_digit c) eqn:E; [|lia]. now exists c, r.
  - destruct s as [|c r]; cbn in H; [lia|].
    destruct (is_digit c); [|lia]. cbn [skip]. apply IH. lia.
Qed.

(** The group [(\d+)] followed by a literal [c] that is not a digit finds
    nothing where the run of digits is not followed by [c]: giving back
    digits does not help, the text then goes on with a digit. *)
Lemma digits_group_fails (c : ascii) (re : list re_item) (s : string) :
  is_digit c = false ->
  (forall r, skip (digit_run s) s <> String c r) ->
  match_here (Digits :: Lit c :: re) s = None.
Proof.
  intros Hc Hend. cbn [match_here]. apply longest_first_none. intros j Hj.
  destruct (Nat.eq_dec j (digit_run s)) as [->|N].
  - destruct (skip (digit_run s) s) as [|a r] eqn:E; [reflexivity|].
    destruct (Ascii.eqb_spec a c) as [->|_]; [now elim (Hend r)|reflexivity].
  - assert (Hin : (j < digit_run s)%nat) by lia.
    destruct (skip_inside_run s j Hin) as (a & r & E & Ha). rewrite E.
    destruct (Ascii.eqb_spec a c) as [->|_]; [congruence|reflexivity].
Qed.

Lemma digits_then_dot_end (c : ascii) (s : string) :
  c <> "."%char -> digits_then_dot s = true ->
  forall r, skip (digit_run s) s <> String c r.
Proof.
  unfold digits_then_dot. intros Hc H r E.
  destruct (digit_run s) as [|k]; [discriminate H|].
  rewrite E in H. cbn [prefix] in H.
  destruct (ascii_dec "." c) as [D|D]; [now elim Hc|discriminate H].
Qed.

Lemma decimal_here_fails (c : ascii) (re : list re_item) (s : string) :
  is_digit c = false -> c <> "."%char -> c <> "-"%char ->
  decimal_here s = true ->
  match_here (Digits :: Lit c :: re) s = None.
Proof.
  intros Hd Hdot Hminus H. apply digits_group_fails; [exact Hd|].
  unfold decimal_here in H.
  destruct s as [|a s']; [discriminate H|].
  destruct (Ascii.eqb_spec a "-"%char) as [->|N].
  - cbn. intros r E. injection E as E _. now elim Hminus.
  - assert (H' : digits_then_dot (String a s') = true).
    { destruct a as [[] [] [] [] [] [] [] []]; try exact H; now elim N. }
    now apply digits_then_dot_end.
Qed.

(** The search finds nothing when every occurrence of the label is
    followed by a number with a decimal point. *)
Lemma re_search_decimal (label : string) (c : ascii) (tail : string) (s : string) :
  is_digit c = false -> c <> "."%char -> c <> "-"%char ->
  label_values_decimal label s = true ->
  re_search (lits label ++ [Digits] ++ lits (String c tail)) s = None.
Proof.
  intros Hd Hdot Hminus.
  assert (Hat : forall t, label_values_decimal label t = true ->
                match_here (lits label ++ [Digits] ++ lits (String c tail)) t = None).
  { intros t Ht. rewrite match_here_lits.
    destruct (prefix label t) eqn:P; [|reflexivity].
    apply decimal_here_fails; try assumption.
    destruct t; cbn [label_values_decimal] in Ht; rewrite P in Ht;
      now apply andb_prop in Ht. }
  induction s as [|a s IH]; intros H.
  - cbn [re_search]. now rewrite (Hat _ H).
  - cbn [re_search]. rewrite (Hat _ H). apply IH.
    cbn [label_values_decimal] in H. now apply andb_prop in H.
Qed.

Lemma extract_solar_watts_decimal (prompt : string) :
  label_values_decimal solar_label prompt = true ->
  extract_solar_watts prompt = 0.
Proof.
  intros H. unfold extract_solar_watts, solar_pattern.
  now rewrite (re_search_decimal solar_label " " "Watts" prompt).
Qed.

Lemma extract_battery_pct_decimal (prompt : string) :
  label_values_decimal battery_label prompt = true ->
  extract_battery_pct prompt = 50.
Proof.
  intros H. unfold extract_battery_pct, battery_pattern.
  now rewrite (re_search_decimal battery_label "%" EmptyString prompt).
Qed.

(** C10.  When all candidates fail and every value that follows the two
    labels in the prompt is written with a decimal point, the patterns
    find nothing: the extraction keeps 0 W and 50 %, and the response is
    the "Night/No Sun" plan, whatever the numbers in the prompt are. *)
Theorem decimal_prompt_gets_night_plan (post : transport) (prompt : string) :
  Forall (fun m => advances (post m prompt) = true) models_to_try ->
  label_values_decimal solar_label prompt = true ->
  label_values_decimal battery_label prompt = true ->
  extract_solar_watts prompt = 0 /\
  extract_battery_pct prompt = 50 /\
  generate_content post prompt = (models_to_try, _get_simulated_response 0 50) /\
  plan_field "recommendation_summary" (simulated_plan 0 50) =
    Some (PStr "Use only essential appliances. Preserve battery for overnight needs. Current conditions: Night/No Sun, Battery: 50%").
Proof.
  intros Hfail Hs Hb.
  pose proof (extract_solar_watts_decimal prompt Hs) as Es.
  pose proof (extract_battery_pct_decimal prompt Hb) as Eb.
  repeat split; try assumption.
  unfold generate_content. rewrite (try_models_all_fail post prompt _ Hfail).
  unfold all_failed_response. now rewrite Es, Eb.
Qed.

(** The prompt of a REST request for 3500 W and 75 %: both numbers are
    shown as floats. *)
Lemma decimal_prompt_gets_night_plan_witness :
  contains "Solar Panel Production: 3500.0 Watts" prompt_3500_75_float = true /\
  contains "Current Battery Charge: 75.0%" prompt_3500_75_float = true /\
  generate_content post_all_down prompt_3500_75_float =
    (models_to_try, _get_simulated_response 0 50).
Proof.
  split; [reflexivity|split; [reflexivity|]].
  apply (decimal_prompt_gets_night_plan post_all_down prompt_3500_75_float).
  - repeat constructor.
  - reflexivity.
  - reflexivity.
Defined.

(* ================================================================== *)
(** * Properties of the knowledge retrieval *)
(* ================================================================== *)

Lemma in_database_not_error (canonical_name : string) :
  in_database canonical_name = true ->
  is_error_output (_lookup_internal_database canonical_name) = false.
Proof.
  unfold in_database, dict_mem, _lookup_internal_database, MOCK_INTERNAL_DATABASE.
  cbn [dict_get].
  destruct (String.eqb (lower canonical_name) "coca-cola, 0.5l, pet bottle");
    [reflexivity|].
  destruct (String.eqb (lower canonical_name) "t-shirt, cotton, blue, large");
    [reflexivity|discriminate].
Qed.

(** The loop ends when the planner answers with text, whatever is left
    of the fuel. *)
Lemma agentic_loop_final (fuel : nat) (chat : list (string * json_text) -> planner_reply)
    (sent : list (string * json_text)) (runs : list tool_run) (text : string) :
  chat sent = FinalText text ->
  agentic_loop fuel chat sent runs = Return (Finished runs text).
Proof.
  intros H. destruct fuel; cbn [agentic_loop]; now rewrite H.
Qed.

Lemma agentic_loop_prescribed (fuel : nat) (canonical_name category : string) :
  (3 <= fuel)%nat ->
  agentic_loop fuel (prescribed_planner canonical_name category) [] [] =
  Return (Finished (ordered_runs canonical_name category) "done").
Proof.
  intros Hfuel.
  destruct fuel as [|[|[|fuel]]]; try lia.
  unfold ordered_runs, db_run, web_run, fallback_run.
  cbn [agentic_loop prescribed_planner execute_tool kwarg bind String.eqb
       Ascii.eqb Bool.eqb app].
  destruct (is_error_output (_lookup_internal_database canonical_name));
    [|reflexivity].
  cbn [agentic_loop prescribed_planner execute_tool kwarg bind String.eqb
       Ascii.eqb Bool.eqb app].
  destruct (is_error_output (_search_web_for_footprint_data canonical_name));
    [|reflexivity].
  cbn [prescribed_planner execute_tool kwarg bind String.eqb
       Ascii.eqb Bool.eqb app].
  now apply agentic_loop_final.
Qed.

(** C3, corrected.  [run_agentic_loop] runs the tools that the planner
    names, and the order database, web, heuristic is what the prompt asks
    of the planner: when the planner follows it, the runs are
    [ordered_runs], and for a name in the internal table that is the
    database lookup alone, which returns the entry.  Layer 3 of the
    pipeline has no database step: a name with the web key gets the web
    record, any other name the category fallback. *)
Theorem retrieval_order_when_planner_follows
    (fuel : nat) (model : planner) (canonical_name category : string) :
  (3 <= fuel)%nat ->
  model (initial_prompt canonical_name category) =
    prescribed_planner canonical_name category ->
  run_agentic_loop fuel model (standardized canonical_name category) =
    Return (Finished (ordered_runs canonical_name category) "done") /\
  (in_database canonical_name = true ->
     ordered_runs canonical_name category = [db_run canonical_name] /\
     exists record,
       dict_get (lower canonical_name) MOCK_INTERNAL_DATABASE = Some record /\
       run_output (db_run canonical_name) = Dumps record) /\
  (exists co2e_kg,
     layer3_knowledge_retrieval (layer2_entity canonical_name category) =
     Return (if contains web_key (lower canonical_name)
             then web_record canonical_name category
             else fallback_record canonical_name category co2e_kg)).
Proof.
  intros Hfuel Hmodel. split; [|split].
  - unfold run_agentic_loop, standardized. cbn [dict_item dict_get String.eqb
      Ascii.eqb Bool.eqb bind].
    rewrite Hmodel. now apply agentic_loop_prescribed.
  - intros Hin. split.
    + unfold ordered_runs. now rewrite (in_database_not_error _ Hin).
    + unfold in_database, dict_mem in Hin. unfold db_run, run_output,
        _lookup_internal_database.
      destruct (dict_get (lower canonical_name) MOCK_INTERNAL_DATABASE) as [record|];
        [|discriminate]. now exists record.
  - unfold layer3_knowledge_retrieval, layer2_entity.
    cbn [dict_item dict_get String.eqb Ascii.eqb Bool.eqb bind str_method].
    destruct (contains web_key (lower canonical_name)).
    + now exists PNone.
    + unfold get_or. destruct (dict_get category fallback_values) as [v|].
      * now exists v.
      * now exists (PNum 5.0).
Qed.

Lemma retrieval_order_when_planner_follows_witness :
  run_agentic_loop 3 (planner_for "Coca-Cola, 0.5L, PET bottle" "Beverage")
    (standardized "Coca-Cola, 0.5L, PET bottle" "Beverage") =
  Return (Finished (ordered_runs "Coca-Cola, 0.5L, PET bottle" "Beverage") "done").
Proof.
  apply (retrieval_order_when_planner_follows 3
           (planner_for "Coca-Cola, 0.5L, PET bottle" "Beverage")
           "Coca-Cola, 0.5L, PET bottle" "Beverage").
  - lia.
  - reflexivity.
Defined.

(** C3 as stated fails on two inputs: for a name that is in the internal
    table, layer 3 of the pipeline answers from the category fallback, and
    [run_agentic_loop] runs the web search alone when the planner asks for
    it. *)
Lemma database_entry_not_used :
  in_database "Coca-Cola, 0.5L, PET bottle" = true /\
  layer3_knowledge_retrieval (layer2_entity "Coca-Cola, 0.5L, PET bottle" "Beverage") =
    Return (fallback_record "Coca-Cola, 0.5L, PET bottle" "Beverage" (PNum 0.5)) /\
  run_agentic_loop 3 (fun _ => web_first_planner "Coca-Cola, 0.5L, PET bottle")
    (standardized "Coca-Cola, 0.5L, PET bottle" "Beverage") =
    Return (Finished [web_run "Coca-Cola, 0.5L, PET bottle"] "done").
Proof.
  repeat split; reflexivity.
Qed.

(** C7, corrected.  For a name without the web key and a category that is
    not a key of the fallback table, layer 3 of the pipeline returns the
    generic value 5.0 with the source "Category Fallback Heuristic" and
    the confidence "Low"; the tool [_use_category_fallback_heuristic]
    returns an error record for such a category.  Neither raises. *)
Theorem unknown_category_fallback (canonical_name category : string) :
  contains web_key (lower canonical_name) = false ->
  dict_mem category fallback_values = false ->
  layer3_knowledge_retrieval (layer2_entity canonical_name category) =
    Return (fallback_record canonical_name category (PNum 5.0)) /\
  _use_category_fallback_heuristic category =
    Dumps (error_record ("Category '" ++ category ++ "' has no fallback value.")).
Proof.
  intros Hweb Hcat. split.
  - unfold layer3_knowledge_retrieval, layer2_entity.
    cbn [dict_item dict_get String.eqb Ascii.eqb Bool.eqb bind str_method].
    rewrite Hweb. unfold get_or, dict_mem in *.
    now destruct (dict_get category fallback_values).
  - unfold _use_category_fallback_heuristic.
    change MOCK_CATEGORY_FALLBACKS with fallback_values.
    unfold dict_mem in Hcat. now destruct (dict_get category fallback_values).
Qed.

Lemma unknown_category_fallback_witness :
  layer3_knowledge_retrieval (layer2_entity "Widget" "Gadgets") =
    Return (fallback_record "Widget" "Gadgets" (PNum 5.0)) /\
  _use_category_fallback_heuristic "Gadgets" =
    Dumps (error_record "Category 'Gadgets' has no fallback value.").
Proof.
  apply (unknown_category_fallback "Widget" "Gadgets"); reflexivity.
Defined.

(** C7 as stated fails for the tool of the retriever: with an unknown name
    and an unknown category the three tools all report an error, and the
    last output is not a footprint value. *)
Lemma unknown_category_tool_error :
  in_database "Widget" = false /\
  contains web_key (lower "Widget") = false /\
  dict_mem "Gadgets" MOCK_CATEGORY_FALLBACKS = false /\
  _use_category_fallback_heuristic "Gadgets" =
    Dumps (error_record "Category 'Gadgets' has no fallback value.") /\
  run_agentic_loop 3 (planner_for "Widget" "Gadgets") (standardized "Widget" "Gadgets") =
    Return (Finished [db_run "Widget"; web_run "Widget"; fallback_run "Gadgets"] "done") /\
  is_error_output (run_output (fallback_run "Gadgets")) = true.
Proof.
  repeat split; reflexivity.
Qed.

(* ================================================================== *)
(** * Rounding to four decimals *)
(* ================================================================== *)

Open Scope Q_scope.

Lemma round_half_even_close (x : Q) :
  Qabs (inject_Z (round_half_even x) - x) <= 1 # 2.
Proof.
  unfold round_half_even.
  pose proof (Qfloor_le x) as Hlo. pose proof (Qlt_floor x) as Hhi.
  rewrite inject_Z_plus in Hhi. change (inject_Z 1) with 1 in Hhi.
  apply Qabs_Qle_condition.
  destruct (Qcompare_spec (x - inject_Z (Qfloor x)) (1 # 2)) as [E|L|G].
  - destruct (Z.even (Qfloor x)).
    + lra.
    + rewrite inject_Z_plus. change (inject_Z 1) with 1. lra.
  - lra.
  - rewrite inject_Z_plus. change (inject_Z 1) with 1. lra.
Qed.

Lemma round_half_even_comp (x y : Q) :
  x == y -> round_half_even x = round_half_even y.
Proof.
  intros E. unfold round_half_even. rewrite (Qfloor_comp x y E).
  assert (C : (x - inject_Z (Qfloor y) ?= 1 # 2) = (y - inject_Z (Qfloor y) ?= 1 # 2)).
  { apply Qcompare_comp; [now rewrite E|reflexivity]. }
  now rewrite C.
Qed.

Lemma round_half_even_Z (n : Z) : round_half_even (inject_Z n) = n.
Proof.
  unfold round_half_even. rewrite Qfloor_Z.
  destruct (Qcompare_spec (inject_Z n - inject_Z n) (1 # 2)) as [E|L|G].
  - exfalso. lra.
  - reflexivity.
  - exfalso. lra.
Qed.

Lemma round4_grid (x : Q) :
  round4 x == inject_Z (round_half_even (x * 10000)) * (1 # 10000).
Proof. unfold round4. rewrite Qred_correct. reflexivity. Qed.

(** Rounding moves a number by at most half a unit of the fourth decimal. *)
Lemma round4_close (x : Q) : Qabs (round4 x - x) <= 1 # 20000.
Proof.
  pose proof (round_half_even_close (x * 10000)) as H.
  apply Qabs_Qle_condition in H. apply Qabs_Qle_condition.
  rewrite round4_grid.
  set (n := inject_Z (round_half_even (x * 10000))) in *.
  split; lra.
Qed.

Lemma round4_sum_close (p k t : Q) :
  Qabs (round4 p + round4 k + round4 t - round4 (p + k + t)) <= 1 # 1000.
Proof.
  pose proof (round4_close p) as Hp. pose proof (round4_close k) as Hk.
  pose proof (round4_close t) as Ht. pose proof (round4_close (p + k + t)) as Hs.
  apply Qabs_Qle_condition in Hp, Hk, Ht, Hs. apply Qabs_Qle_condition.
  split; lra.
Qed.

Lemma round4_comp (x y : Q) : x == y -> round4 x = round4 y.
Proof.
  intros E. unfold round4.
  rewrite (round_half_even_comp (x * 10000) (y * 10000)); [reflexivity|].
  now rewrite E.
Qed.

Lemma round4_idem (x : Q) : round4 (round4 x) = round4 x.
Proof.
  unfold round4 at 1 3.
  rewrite (round_half_even_comp (round4 x * 10000)
             (inject_Z (round_half_even (x * 10000)))).
  - now rewrite round_half_even_Z.
  - rewrite round4_grid. field.
Qed.



Close Scope Q_scope.

(* ================================================================== *)
(** * Properties of the standardizer and of the estimator *)
(* ================================================================== *)

Lemma bind_return {A B : Type} (m : result A) (k : A -> result B) (b : B) :
  bind m k = Return b -> exists a, m = Return a /\ k a = Return b.
Proof.
  destruct m as [a|e]; cbn; intros H; [now exists a|discriminate].
Qed.


Lemma calculate_return (a b c : pyval) (j : json_text) :
  _calculate_from_components a b c = Return j ->
  exists p k t, as_number a = Return p /\ as_number b = Return k /\
                as_number c = Return t /\ j = Dumps (PDict (calculated p k t)).
Proof.
  unfold _calculate_from_components. intros H.
  apply bind_return in H. destruct H as (p & Hp & H).
  apply bind_return in H. destruct H as (k & Hk & H).
  apply bind_return in H. destruct H as (t & Ht & H).
  injection H as <-. now exists p, k, t.
Qed.

Lemma calculate_from_dict_return (components r : pyval) :
  calculate_from_dict components = Return r ->
  exists p k t, r = PDict (calculated p k t).
Proof.
  unfold calculate_from_dict. intros H.
  apply bind_return in H. destruct H as (a & _ & H).
  apply bind_return in H. destruct H as (b & _ & H).
  apply bind_return in H. destruct H as (c & _ & H).
  apply bind_return in H. destruct H as (j & Hj & H).
  apply calculate_return in Hj. destruct Hj as (p & k & t & _ & _ & _ & ->).
  injection H as <-. now exists p, k, t.
Qed.


(** A dict that shows the total and the parts of a calculation obeys the
    bound. *)
Lemma calculated_parts (p k t : Q) (r : pyval) :
  footprint_parts r = Some (round4 (p + k + t), round4 p, round4 k, round4 t) ->
  exists total p' k' t',
    footprint_parts r = Some (total, p', k', t') /\
    round4 total = total /\ round4 p' = p' /\ round4 k' = k' /\ round4 t' = t' /\
    (Qabs (round4 p' + round4 k' + round4 t' - round4 total) <= 1 # 1000)%Q.
Proof.
  intros H.
  exists (round4 (p + k + t)), (round4 p), (round4 k), (round4 t).
  split; [exact H|].
  rewrite !round4_idem. repeat split. apply round4_sum_close.
Qed.


Section Decoded.

Variable json_loads : string -> option pyval.


(** Layer 4 of the pipeline goes through the same calculator, so its
    result obeys the same bound. *)
Lemma layer4_parts_sum_to_total
    (model : breakdown_request -> model_outcome)
    (layer3_result : list (string * pyval)) (r : pyval) :
  layer4_footprint_estimation json_loads model layer3_result = Return r ->
  exists total p k t,
    footprint_parts r = Some (total, p, k, t) /\
    round4 total = total /\ round4 p = p /\ round4 k = k /\ round4 t = t /\
    (Qabs (round4 p + round4 k + round4 t - round4 total) <= 1 # 1000)%Q.
Proof.
  unfold layer4_footprint_estimation. intros H.
  apply bind_return in H. destruct H as (cn & _ & H).
  apply bind_return in H. destruct H as (total & _ & H).
  apply bind_return in H. destruct H as (text & _ & H).
  apply bind_return in H. destruct H as (comps & _ & H).
  apply bind_return in H. destruct H as (fr & Hfr & H).
  apply calculate_from_dict_return in Hfr. destruct Hfr as (p & k & t & ->).
  cbn [with_notes bind] in H.
  apply bind_return in H. destruct H as (conf & _ & H).
  injection H as <-. now apply (calculated_parts p k t).
Qed.

(** In layer 4 a text that is not JSON gives the split 60 % / 20 % /
    20 %, under the note of the model's own breakdown. *)
Lemma layer4_parse_failure_split
    (model : breakdown_request -> model_outcome)
    (layer3_result : list (string * pyval))
    (canonical_name total_co2e confidence : pyval) (q : Q) (text : string) :
  dict_get "canonical_name" layer3_result = Some canonical_name ->
  dict_get "co2e_kg" layer3_result = Some total_co2e ->
  dict_get "confidence" layer3_result = Some confidence ->
  as_number total_co2e = Return q ->
  model (request_of layer3_result) = ModelText text ->
  json_loads (clean_response text) = None ->
  layer4_footprint_estimation json_loads model layer3_result =
    Return (PDict [
      ("total_co2e_kg", PNum (round4 q));
      ("breakdown", PDict [("production", PNum (round4 (q * 0.60)));
                           ("packaging", PNum (round4 (q * 0.20)));
                           ("transport", PNum (round4 (q * 0.20)))]);
      ("formula", PStr "Total = Production + Packaging + Transport");
      ("notes", PStr "Component breakdown was estimated by AI.");
      ("canonical_name", canonical_name);
      ("source", match dict_get "source" layer3_result with
                 | Some v => v
                 | None => PStr "Unknown source"
                 end);
      ("confidence", confidence) ]).
Proof.
  intros Hn Ht Hconf Hq Hm Hd.
  assert (Hsum : round4 (q * 0.60 + q * 0.20 + q * 0.20) = round4 q).
  { apply round4_comp. ring. }
  unfold layer4_footprint_estimation, dict_item, _breakdown_total_co2e.
  unfold request_of in Hm. rewrite Hn, Ht in Hm.
  rewrite Hn, Ht, Hconf. cbn [bind]. rewrite Hm. cbn [response_text bind].
  unfold loads. rewrite Hd.
  cbn [try_except one_of existsb exn_eqb orb bind]. unfold times. rewrite Hq.
  cbn [bind calculate_from_dict py_get dict_get String.eqb Ascii.eqb Bool.eqb
       _calculate_from_components as_number loads_dumped with_notes dict_set].
  now rewrite Hsum.
Qed.

(** On binary64 floats the components 5.5, 0.3 and 1.0 give the float
    6.8 and themselves. *)
Lemma tshirt_estimate_binary64 :
  Binary64._calculate_from_components Binary64.five_and_a_half
    Binary64.three_tenths Binary64.one =
    (Binary64.six_point_eight,
     (Binary64.five_and_a_half, Binary64.three_tenths, Binary64.one)) /\
  (Qabs (Binary64.exact Binary64.six_point_eight - 6.8) <= 1 # 1000000000000000)%Q.
Proof.
  split; [vm_compute; reflexivity|].
  vm_compute. intros H. discriminate H.
Qed.



(** C9, corrected.  When the model answers with a text, [standardize_json]
    returns the sentinel "Error processing JSON" if the text is not JSON
    or decodes to a dict, list or str in which one of the two keys is not
    found, and the sentinel "API call failed" if it decodes to a number, a
    boolean or null; whatever the model does, the method returns. *)
Theorem standardize_json_sentinels
    (model : pyval -> model_outcome) (json_data : pyval) (text : string) :
  model json_data = ModelText text ->
  (json_loads (clean_response text) = None ->
     standardize_json json_loads model json_data =
     Return (sentinel "Error processing JSON")) /\
  (forall v, json_loads (clean_response text) = Some v ->
     lacks_required_key v = true ->
     standardize_json json_loads model json_data =
     Return (sentinel "Error processing JSON")) /\
  (forall v, json_loads (clean_response text) = Some v ->
     is_scalar v = true ->
     standardize_json json_loads model json_data =
     Return (sentinel "API call failed")) /\
  (exists r, standardize_json json_loads model json_data = Return r).
Proof.
  intros Hm. unfold standardize_json, standardize_body, loads.
  rewrite Hm. cbn [response_text print_raw_response bind].
  split; [|split; [|split]].
  - intros ->. reflexivity.
  - intros v -> Hv. cbn [bind]. unfold lacks_required_key in Hv.
    destruct (py_in "canonical_name" v) as [a|]; [|discriminate].
    destruct (py_in "category" v) as [b|]; [|discriminate].
    cbn [bind]. destruct a; [|reflexivity]. cbn [negb].
    destruct b; [discriminate|reflexivity].
  - intros v -> Hv. cbn [bind]. destruct v; try discriminate Hv; reflexivity.
  - destruct (json_loads (clean_response text)) as [v|]; cbn [bind].
    + destruct (py_in "canonical_name" v) as [[]|e]; cbn [bind negb].
      * destruct (py_in "category" v) as [[]|e]; cbn [bind negb].
        -- now exists v.
        -- eexists. reflexivity.
        -- destruct (one_of _ e); eexists; reflexivity.
      * eexists. reflexivity.
      * destruct (one_of _ e); eexists; reflexivity.
    + eexists. reflexivity.
Qed.

(** When the call to the model raises, [standardize_json] returns one of
    the two sentinels. *)
Lemma standardize_json_call_raises
    (model : pyval -> model_outcome) (json_data : pyval) (e : exn) :
  model json_data = ModelRaises e ->
  standardize_json json_loads model json_data =
  Return (sentinel (if one_of [JSONDecodeError; AttributeError; ValueError] e
                    then "Error processing JSON" else "API call failed")).
Proof.
  intros Hm. unfold standardize_json, standardize_body. rewrite Hm.
  cbn [response_text bind].
  now destruct (one_of [JSONDecodeError; AttributeError; ValueError] e).
Qed.

(** When [response.text] raises a [ValueError], the first handler reads
    [response.text] again and the exception leaves the method. *)
Lemma standardize_json_text_raises
    (model : pyval -> model_outcome) (json_data : pyval) :
  model json_data = TextRaises ValueError ->
  standardize_json json_loads model json_data = Raise ValueError.
Proof.
  intros Hm. unfold standardize_json, standardize_body. now rewrite Hm.
Qed.

End Decoded.

(** ** Instances *)






Lemma standardize_json_sentinels_witness :
  standardize_json json_loads_known (fun _ => ModelText "not json at all") manual_text =
    Return (sentinel "Error processing JSON") /\
  standardize_json json_loads_known
    (fun _ => ModelText ("{" ++ dq ++ "category" ++ dq ++ ": " ++ dq ++ "Food" ++ dq ++ "}"))
    manual_text = Return (sentinel "Error processing JSON") /\
  standardize_json json_loads_known (fun _ => ModelText "null") manual_text =
    Return (sentinel "API call failed").
Proof.
  split; [|split].
  - apply (proj1 (standardize_json_sentinels json_loads_known
                    (fun _ => ModelText "not json at all") manual_text
                    "not json at all" eq_refl)).
    reflexivity.
  - apply (proj1 (proj2 (standardize_json_sentinels json_loads_known
                    (fun _ => ModelText ("{" ++ dq ++ "category" ++ dq ++ ": " ++ dq
                                         ++ "Food" ++ dq ++ "}"))
                    manual_text _ eq_refl)) (PDict [("category", PStr "Food")]));
      reflexivity.
  - apply (proj1 (proj2 (proj2 (standardize_json_sentinels json_loads_known
                    (fun _ => ModelText "null") manual_text "null" eq_refl))) PNone);
      reflexivity.
Defined.

(** C9 as stated fails when the text decodes to a number: the membership
    test raises [TypeError], which the second handler takes. *)
Lemma scalar_reply_other_sentinel :
  json_loads_known (clean_response "5") = Some (PNum 5) /\
  py_in "canonical_name" (PNum 5) = Raise TypeError /\
  standardize_json json_loads_known (fun _ => ModelText "5") manual_text =
    Return (sentinel "API call failed") /\
  sentinel "API call failed" <> sentinel "Error processing JSON".
Proof.
  repeat split; try reflexivity. intros H. discriminate H.
Qed.

(* ================================================================== *)
(** * Further properties: texts *)
(* ================================================================== *)

Lemma contains_dot_cons (c : ascii) (s : string) :
  contains "." (String c s) = Ascii.eqb c "."%char || contains "." s.
Proof.
  cbn [contains]. rewrite prefix_cons.
  destruct (Ascii.eqb c "."%char); [now destruct s|reflexivity].
Qed.

Lemma after_last_dot_none (s : string) :
  contains "." s = false -> after_last_dot s = None.
Proof.
  induction s as [|c s IH]; [reflexivity|].
  rewrite contains_dot_cons. intros H. apply orb_false_elim in H.
  destruct H as [Hc Hs]. cbn [after_last_dot]. now rewrite (IH Hs), Hc.
Qed.

Lemma contains_dot_app (stem ext : string) :
  contains "." (stem ++ String "."%char ext) = true.
Proof.
  induction stem as [|c stem IH].
  - cbn [String.append]. rewrite contains_dot_cons. reflexivity.
  - cbn [String.append]. rewrite contains_dot_cons, IH. apply orb_true_r.
Qed.

Lemma after_last_dot_app (stem ext : string) :
  contains "." ext = false ->
  after_last_dot (stem ++ String "."%char ext) = Some ext.
Proof.
  intros H. induction stem as [|c stem IH].
  - cbn [String.append after_last_dot]. now rewrite (after_last_dot_none ext H).
  - cbn [String.append after_last_dot]. now rewrite IH.
Qed.

(** X1.  [allowed_file] looks at the text after the last dot only, and
    compares it in lower case with the four extensions: a name [stem.ext]
    whose [ext] has no dot is allowed exactly when [ext.lower()] is one of
    png, jpg, jpeg, webp, and a name without a dot is refused. *)
Theorem allowed_file_last_extension (stem ext : string) :
  contains "." ext = false ->
  allowed_file (stem ++ "." ++ ext) = in_set (lower ext) ALLOWED_EXTENSIONS /\
  allowed_file ext = false.
Proof.
  intros H. unfold allowed_file. split.
  - cbn [String.append]. rewrite contains_dot_app, (after_last_dot_app stem ext H).
    reflexivity.
  - now rewrite H.
Qed.

Lemma allowed_file_last_extension_witness :
  allowed_file ("holiday.photo" ++ "." ++ "JPeG") = true /\
  allowed_file "JPeG" = false.
Proof.
  pose proof (allowed_file_last_extension "holiday.photo" "JPeG" eq_refl) as H.
  exact H.
Defined.

(** Edge cases of [allowed_file]: a trailing dot, a hidden file, an
    image extension that is not the last one. *)
Lemma allowed_file_edges :
  allowed_file "photo." = false /\ allowed_file ".png" = true /\
  allowed_file "photo.png.exe" = false /\ allowed_file "photo.tar.PNG" = true /\
  allowed_file EmptyString = false.
Proof. repeat split; reflexivity. Qed.

Lemma prefix_fence_ticks (s : string) :
  prefix "```" s = true <-> (3 <= ticks s)%nat.
Proof.
  destruct s as [|a [|b [|c s]]]; cbn [ticks];
    try (rewrite !prefix_cons); cbn [prefix].
  - split; [discriminate|lia].
  - destruct (Ascii.eqb a "`"); split; try discriminate; lia.
  - destruct (Ascii.eqb a "`"); destruct (Ascii.eqb b "`");
      split; try discriminate; lia.
  - destruct (Ascii.eqb a "`"); destruct (Ascii.eqb b "`");
      destruct (Ascii.eqb c "`"); split; try discriminate; try lia;
      try (intros _; destruct s; reflexivity).
Qed.

Lemma skip_fence (s : string) :
  prefix "```" s = true ->
  ticks s = (3 + ticks (skip 3 s))%nat /\ (length (skip 3 s) < length s)%nat.
Proof.
  destruct s as [|a [|b [|c s]]]; try (rewrite !prefix_cons); cbn [prefix];
    try discriminate.
  - destruct (Ascii.eqb a "`"); discriminate.
  - destruct (Ascii.eqb a "`"); [|discriminate].
    destruct (Ascii.eqb b "`"); discriminate.
  - cbn [ticks skip length]. destruct (Ascii.eqb a "`"); [|discriminate].
    destruct (Ascii.eqb b "`"); [|discriminate].
    destruct (Ascii.eqb c "`"); [|discriminate]. intros _. split; lia.
Qed.

(** After the fences are removed, what is left of a run of backticks is
    its length modulo 3. *)
Lemma replace_fence_ticks (fuel : nat) (s : string) :
  (length s < fuel)%nat ->
  ticks (replace_fuel fuel "```" EmptyString s) = (ticks s mod 3)%nat.
Proof.
  revert s. induction fuel as [|fuel IH]; intros s Hlen; [lia|].
  cbn [replace_fuel]. destruct (prefix "```" s) eqn:P.
  - destruct (skip_fence s P) as [Ht Hl]. cbn [String.append length].
    rewrite IH by lia. rewrite Ht.
    replace (3 + ticks (skip 3 s))%nat with (ticks (skip 3 s) + 1 * 3)%nat by lia.
    now rewrite Nat.Div0.mod_add.
  - assert (Hlt : (ticks s < 3)%nat).
    { destruct (le_lt_dec 3 (ticks s)) as [H|H]; [|exact H].
      apply prefix_fence_ticks in H. congruence. }
    destruct s as [|c s']; [reflexivity|].
    cbn [ticks] in *. destruct (Ascii.eqb c "`").
    + cbn [length] in Hlen. rewrite IH by lia.
      rewrite (Nat.mod_small (ticks s')) by lia. now rewrite Nat.mod_small by lia.
    + reflexivity.
Qed.

Lemma replace_fence_free (fuel : nat) (s : string) :
  (length s < fuel)%nat ->
  contains "```" (replace_fuel fuel "```" EmptyString s) = false.
Proof.
  revert s. induction fuel as [|fuel IH]; intros s Hlen; [lia|].
  cbn [replace_fuel]. destruct (prefix "```" s) eqn:P.
  - destruct (skip_fence s P) as [_ Hl]. cbn [String.append length]. apply IH. lia.
  - assert (Hlt : (ticks s < 3)%nat).
    { destruct (le_lt_dec 3 (ticks s)) as [H|H]; [|exact H].
      apply prefix_fence_ticks in H. congruence. }
    destruct s as [|c s']; [reflexivity|].
    cbn [length] in Hlen. cbn [contains].
    destruct (prefix "```" (String c (replace_fuel fuel "```" EmptyString s'))) eqn:Q.
    + apply prefix_fence_ticks in Q. cbn [ticks] in Q, Hlt.
      destruct (Ascii.eqb c "`"); [|lia].
      rewrite replace_fence_ticks in Q by lia.
      rewrite Nat.mod_small in Q by lia. lia.
    + apply IH. lia.
Qed.

(** X2.  The cleaned text of a model reply never contains a code fence,
    whatever the reply: after [.replace] of the tagged and of the bare
    fence no three backticks in a row are left, also where the removal
    of one fence brings backticks together. *)
Theorem clean_response_has_no_fence (text : string) :
  contains "```" (clean_response text) = false.
Proof.
  unfold clean_response, replace. apply replace_fence_free. lia.
Qed.

(* ================================================================== *)
(** * Further properties: the Gemini client *)
(* ================================================================== *)

(** ** Reading back the numbers of a prompt *)

Lemma int_of_digits_acc_uint (d : Decimal.uint) (acc : positive) :
  int_of_digits_acc (Z.pos acc) (NilEmpty.string_of_uint d) =
  Z.pos (Pos.of_uint_acc d acc).
Proof.
  revert acc. induction d; intros acc; cbn [NilEmpty.string_of_uint
    int_of_digits_acc Pos.of_uint_acc]; try reflexivity;
    rewrite <- IHd; f_equal;
    match goal with
    | |- context [digit_val ?c] =>
        let v := eval vm_compute in (digit_val c) in change (digit_val c) with v
    end; lia.
Qed.

Lemma int_of_digits_uint (d : Decimal.uint) :
  int_of_digits (NilEmpty.string_of_uint d) = Z.of_N (Pos.of_uint d).
Proof.
  unfold int_of_digits.
  induction d; cbn [NilEmpty.string_of_uint int_of_digits_acc Pos.of_uint];
    try reflexivity;
    try (change (10 * 0 + digit_val "0") with 0; exact IHd);
    cbn [Z.of_N]; rewrite <- int_of_digits_acc_uint; reflexivity.
Qed.

Lemma all_digits_uint (d : Decimal.uint) :
  all_digits (NilEmpty.string_of_uint d) = true.
Proof. induction d; cbn; auto. Qed.

Lemma string_of_uint_nonnil (d : Decimal.uint) :
  d <> Decimal.Nil -> NilZero.string_of_uint d = NilEmpty.string_of_uint d.
Proof. destruct d; intros H; [now elim H| reflexivity ..]. Qed.

(** [str] of a natural number is a non-empty text of digits, and [int]
    reads the number back. *)
Lemma str_of_int_digits (n : Z) :
  0 <= n ->
  all_digits (str_of_int n) = true /\ str_of_int n <> EmptyString /\
  int_of_digits (str_of_int n) = n.
Proof.
  intros Hn. unfold str_of_int. destruct n as [|p|p]; [| |lia].
  - repeat split; discriminate.
  - cbn [Z.to_int NilZero.string_of_int].
    pose proof (DecimalPos.Unsigned.to_uint_nonnil p) as Hnil.
    rewrite (string_of_uint_nonnil _ Hnil). repeat split.
    + apply all_digits_uint.
    + destruct (Pos.to_uint p); [now elim Hnil|discriminate ..].
    + rewrite int_of_digits_uint, DecimalPos.Unsigned.of_to. reflexivity.
Qed.

Lemma digit_run_digits (ds rest : string) (c : ascii) :
  all_digits ds = true -> is_digit c = false ->
  digit_run (ds ++ String c rest) = length ds /\
  skip (length ds) (ds ++ String c rest) = String c rest /\
  take (length ds) (ds ++ String c rest) = ds.
Proof.
  intros Hds Hc. induction ds as [|a ds IH].
  - cbn. now rewrite Hc.
  - cbn [all_digits] in Hds. apply andb_prop in Hds. destruct Hds as [Ha Hds].
    destruct (IH Hds) as (R & S & T).
    cbn [String.append digit_run length skip take]. rewrite Ha, R, S, T. auto.
Qed.

Lemma match_here_lits_prefix (l rest : string) :
  match_here (lits l) (l ++ rest) = Some EmptyString.
Proof.
  induction l as [|c l IH]; [reflexivity|].
  cbn [lits match_here String.append]. now rewrite Ascii.eqb_refl.
Qed.

(** The group reads a text of digits that is followed by the rest of the
    pattern. *)
Lemma digits_group_reads (ds : string) (c : ascii) (tail rest : string) :
  all_digits ds = true -> ds <> EmptyString -> is_digit c = false ->
  match_here (Digits :: lits (String c tail)) (ds ++ String c tail ++ rest) = Some ds.
Proof.
  intros Hds Hne Hc. cbn [match_here].
  change (ds ++ String c tail ++ rest) with (ds ++ String c (tail ++ rest)).
  destruct (digit_run_digits ds (tail ++ rest) c Hds Hc) as (R & S & T).
  rewrite R. destruct (length ds) as [|k] eqn:L.
  - destruct ds; [now elim Hne|discriminate].
  - cbn [longest_first]. rewrite S, T.
    change (String c (tail ++ rest)) with (String c tail ++ rest).
    now rewrite match_here_lits_prefix.
Qed.

Lemma prefix_app (l rest : string) : prefix l (l ++ rest) = true.
Proof.
  induction l as [|c l IH]; [now destruct rest|].
  cbn [String.append]. now rewrite prefix_cons, Ascii.eqb_refl.
Qed.

Lemma skip_length_app (l rest : string) : skip (length l) (l ++ rest) = rest.
Proof. induction l as [|c l IH]; [reflexivity|exact IH]. Qed.

(** The search stops at the first place where the label occurs when the
    label is followed there by digits and the rest of the pattern. *)
Lemma re_search_first_label (label ds : string) (c : ascii) (tail : string)
    (s : string) (i : nat) (rest : string) :
  all_digits ds = true -> ds <> EmptyString -> is_digit c = false ->
  find_index label s = Some i ->
  skip i s = label ++ ds ++ String c tail ++ rest ->
  re_search (lits label ++ [Digits] ++ lits (String c tail)) s = Some ds.
Proof.
  intros Hds Hne Hc. revert i.
  change ([Digits] ++ lits (String c tail))%list with (Digits :: lits (String c tail)).
  induction s as [|a s IH]; intros i Hi Hs.
  - cbn [find_index] in Hi. destruct (prefix label EmptyString) eqn:P; [|discriminate].
    injection Hi as <-. cbn [skip] in Hs. cbn [re_search]. rewrite match_here_lits, P.
    rewrite Hs, skip_length_app.
    now rewrite (digits_group_reads ds c tail rest).
  - cbn [find_index] in Hi. cbn [re_search]. rewrite match_here_lits.
    destruct (prefix label (String a s)) eqn:P.
    + injection Hi as <-. cbn [skip] in Hs. rewrite Hs, skip_length_app.
      now rewrite (digits_group_reads ds c tail rest).
    + destruct (find_index label s) as [j|] eqn:F; [|discriminate].
      injection Hi as <-. cbn [skip] in Hs. exact (IH j eq_refl Hs).
Qed.

(** X3.  The numbers that [_create_prompt] writes as ints are read back
    by the extraction: when the first occurrence of each label in the
    prompt is followed by [str(n)] and the rest of its pattern, for
    natural numbers, the extraction gives these numbers, and with all
    candidates failing the response is the simulated plan of them. *)
Theorem extraction_reads_ints_back
    (post : transport) (prompt : string) (solar battery : Z)
    (i j : nat) (rest_s rest_b : string) :
  0 <= solar -> 0 <= battery ->
  find_index solar_label prompt = Some i ->
  skip i prompt = solar_label ++ str_of_int solar ++ " Watts" ++ rest_s ->
  find_index battery_label prompt = Some j ->
  skip j prompt = battery_label ++ str_of_int battery ++ "%" ++ rest_b ->
  extract_solar_watts prompt = solar /\
  extract_battery_pct prompt = battery /\
  (Forall (fun m => advances (post m prompt) = true) models_to_try ->
   snd (generate_content post prompt) = _get_simulated_response solar battery).
Proof.
  intros Hs Hb Fi Si Fj Sj.
  destruct (str_of_int_digits solar Hs) as (Ds & Ns & Rs).
  destruct (str_of_int_digits battery Hb) as (Db & Nb & Rb).
  assert (Es : extract_solar_watts prompt = solar).
  { unfold extract_solar_watts, solar_pattern.
    rewrite (re_search_first_label solar_label (str_of_int solar) " " "Watts"
               prompt i rest_s Ds Ns eq_refl Fi Si). exact Rs. }
  assert (Eb : extract_battery_pct prompt = battery).
  { unfold extract_battery_pct, battery_pattern.
    rewrite (re_search_first_label battery_label (str_of_int battery) "%" EmptyString
               prompt j rest_b Db Nb eq_refl Fj Sj). exact Rb. }
  repeat split; try assumption.
  intros Hfail. unfold generate_content.
  rewrite (try_models_all_fail post prompt _ Hfail). cbn [snd].
  unfold all_failed_response. now rewrite Es, Eb.
Qed.

Lemma extraction_reads_ints_back_witness :
  extract_solar_watts prompt_3500_75 = 3500 /\
  extract_battery_pct prompt_3500_75 = 75 /\
  (Forall (fun m => advances (post_all_down m prompt_3500_75) = true) models_to_try ->
   snd (generate_content post_all_down prompt_3500_75) =
   _get_simulated_response 3500 75).
Proof.
  apply (extraction_reads_ints_back post_all_down prompt_3500_75 3500 75
           116 198 (skip 150 prompt_3500_75) (skip 225 prompt_3500_75));
    [lia | lia | reflexivity ..].
Defined.

(** ** What the extraction can give *)

Lemma longest_first_some {A : Type} (f : nat -> option A) (k : nat) (a : A) :
  longest_first f k = Some a -> exists j, (1 <= j <= k)%nat /\ f j = Some a.
Proof.
  induction k as [|k IH]; cbn [longest_first]; [discriminate|].
  destruct (f (S k)) as [x|] eqn:E.
  - intros H. injection H as <-. exists (S k). split; [lia|exact E].
  - intros H. destruct (IH H) as (j & Hj & Fj). exists j. split; [lia|exact Fj].
Qed.

Lemma take_run_digits (s : string) (j : nat) :
  (1 <= j <= digit_run s)%nat ->
  all_digits (take j s) = true /\ take j s <> EmptyString.
Proof.
  revert s. induction j as [|j IH]; intros s Hj; [lia|].
  destruct s as [|c s]; cbn [digit_run] in Hj; [lia|].
  destruct (is_digit c) eqn:D; [|lia].
  cbn [take all_digits]. rewrite D. split; [|discriminate].
  destruct j as [|j']; [now destruct s|]. apply IH. lia.
Qed.

Lemma match_here_group_digits (label : string) (re : list re_item)
    (s g : string) :
  match_here (lits label ++ Digits :: re) s = Some g ->
  all_digits g = true /\ g <> EmptyString.
Proof.
  rewrite match_here_lits. destruct (prefix label s); [|discriminate].
  cbn [match_here]. intros H. apply longest_first_some in H.
  destruct H as (j & Hj & Fj).
  destruct (match_here re (skip j (skip (length label) s))); [|discriminate].
  injection Fj as <-. now apply take_run_digits.
Qed.

Lemma re_search_group_digits (label : string) (re : list re_item) (s g : string) :
  re_search (lits label ++ Digits :: re) s = Some g ->
  all_digits g = true /\ g <> EmptyString.
Proof.
  induction s as [|a s IH]; cbn [re_search];
    destruct (match_here (lits label ++ Digits :: re) _) as [x|] eqn:M.
  - intros H. injection H as <-. exact (match_here_group_digits _ _ _ _ M).
  - discriminate.
  - intros H. injection H as <-. exact (match_here_group_digits _ _ _ _ M).
  - exact IH.
Qed.

Lemma digit_val_nonneg (c : ascii) : is_digit c = true -> 0 <= digit_val c.
Proof.
  unfold is_digit, digit_val. intros H. apply andb_prop in H.
  destruct H as [H _]. apply Nat.leb_le in H. lia.
Qed.

Lemma int_of_digits_acc_nonneg (s : string) (acc : Z) :
  0 <= acc -> all_digits s = true -> 0 <= int_of_digits_acc acc s.
Proof.
  revert acc. induction s as [|c s IH]; intros acc Hacc Hs; [exact Hacc|].
  cbn [all_digits] in Hs. apply andb_prop in Hs. destruct Hs as [Hc Hs].
  cbn [int_of_digits_acc]. apply IH; [|exact Hs].
  pose proof (digit_val_nonneg c Hc). lia.
Qed.

Lemma extract_nonneg (prompt : string) :
  0 <= extract_solar_watts prompt /\ 0 <= extract_battery_pct prompt.
Proof.
  unfold extract_solar_watts, extract_battery_pct, solar_pattern, battery_pattern.
  split.
  - destruct (re_search _ prompt) as [g|] eqn:R; [|lia].
    apply re_search_group_digits in R. destruct R as [D _].
    now apply int_of_digits_acc_nonneg.
  - destruct (re_search _ prompt) as [g|] eqn:R; [|lia].
    apply re_search_group_digits in R. destruct R as [D _].
    now apply int_of_digits_acc_nonneg.
Qed.

(** Every call ends in one of three ways. *)
Lemma try_models_cases (post : transport) (prompt : string) (models : list string) :
  (exists pre m rest json,
      models = (pre ++ m :: rest)%list /\
      Forall (fun x => advances (post x prompt) = true) pre /\
      post m prompt = HttpResponse 200 json /\
      try_models post prompt models = ((pre ++ [m])%list, ApiJson json)) \/
  (exists pre m rest json,
      models = (pre ++ m :: rest)%list /\
      Forall (fun x => advances (post x prompt) = true) pre /\
      post m prompt = HttpResponse 429 json /\
      try_models post prompt models =
        ((pre ++ [m])%list, _get_simulated_response_default)) \/
  (Forall (fun x => advances (post x prompt) = true) models /\
   try_models post prompt models = (models, all_failed_response prompt)).
Proof.
  induction models as [|m models IH].
  - right. right. split; [constructor|reflexivity].
  - destruct (advances (post m prompt)) eqn:A.
    + assert (Hstep : try_models post prompt (m :: models) =
                      (m :: fst (try_models post prompt models),
                       snd (try_models post prompt models))).
      { exact (try_models_advance post prompt [m] models
                 (Forall_cons m A (Forall_nil _))). }
      destruct IH as [(pre & x & rest & json & E & F & P & T)
                     |[(pre & x & rest & json & E & F & P & T)|(F & T)]].
      * left. exists (m :: pre), x, rest, json. rewrite Hstep, T. subst models.
        repeat split; auto.
      * right. left. exists (m :: pre), x, rest, json. rewrite Hstep, T.
        subst models. repeat split; auto.
      * right. right. rewrite Hstep, T. split; auto.
    + unfold advances in A. cbn [try_models].
      destruct (post m prompt) as [status_code json|] eqn:P; [|discriminate].
      destruct (status_code =? 200) eqn:S200.
      * left. exists [], m, models, json. apply Z.eqb_eq in S200. subst.
        repeat split; auto.
      * destruct (status_code =? 429) eqn:S429; [|discriminate].
        right. left. exists [], m, models, json. apply Z.eqb_eq in S429. subst.
        repeat split; auto.
Qed.

(** X4.  The extraction never gives a negative number, whatever the
    prompt, so every simulated response that [generate_content] returns
    has the plan of two natural numbers, and its third alert is the "Demo
    mode active" text, never the empty alert of a negative production. *)
Theorem simulated_response_is_demo (post : transport) (prompt : string) (plan : pyval) :
  plan_of (snd (generate_content post prompt)) = Some plan ->
  (exists solar battery, 0 <= solar /\ 0 <= battery /\
                         plan = simulated_plan solar battery) /\
  nth 2 (alerts_of plan) PNone = PStr "Demo mode active - simulated AI responses".
Proof.
  intros H.
  assert (E : exists solar battery, 0 <= solar /\ 0 <= battery /\
                                    plan = simulated_plan solar battery).
  { unfold generate_content in H.
    destruct (try_models_cases post prompt models_to_try)
      as [(pre & x & rest & json & _ & _ & _ & T)
         |[(pre & x & rest & json & _ & _ & _ & T)|(_ & T)]];
      rewrite T in H; cbn in H.
    - discriminate.
    - injection H as <-. exists 0, 50. repeat split; lia.
    - injection H as <-. destruct (extract_nonneg prompt) as [Hs Hb].
      exists (extract_solar_watts prompt), (extract_battery_pct prompt). auto. }
  split; [exact E|].
  destruct E as (solar & battery & Hs & _ & ->).
  unfold alerts_of, simulated_plan. cbn [plan_field dict_get String.eqb Ascii.eqb
    Bool.eqb nth].
  destruct (Z.geb_spec solar 0); [reflexivity|lia].
Qed.

Lemma simulated_response_is_demo_witness :
  nth 2 (alerts_of (simulated_plan 0 50)) PNone =
  PStr "Demo mode active - simulated AI responses".
Proof.
  apply (simulated_response_is_demo post_first_limited prompt_3500_75
           (simulated_plan 0 50)).
  reflexivity.
Defined.

(** X5.  [generate_content] returns the body of an answer only when a
    candidate gave status 200 with that body: that candidate is the last
    one posted to, and all candidates before it advanced. *)
Theorem api_body_comes_from_a_200 (post : transport) (prompt : string) (json : pyval) :
  snd (generate_content post prompt) = ApiJson json ->
  exists pre m rest,
    models_to_try = (pre ++ m :: rest)%list /\
    Forall (fun x => advances (post x prompt) = true) pre /\
    post m prompt = HttpResponse 200 json /\
    fst (generate_content post prompt) = (pre ++ [m])%list.
Proof.
  unfold generate_content. intros H.
  destruct (try_models_cases post prompt models_to_try)
    as [(pre & x & rest & j & E & F & P & T)
       |[(pre & x & rest & j & _ & _ & _ & T)|(_ & T)]];
    rewrite T in H |- *; cbn [fst snd] in *.
  - injection H as ->. now exists pre, x, rest.
  - discriminate.
  - discriminate.
Qed.

Lemma api_body_comes_from_a_200_witness :
  exists pre m rest,
    models_to_try = (pre ++ m :: rest)%list /\
    Forall (fun x => advances (post_second_ok x prompt_3500_75) = true) pre /\
    post_second_ok m prompt_3500_75 = HttpResponse 200 (PStr "body") /\
    fst (generate_content post_second_ok prompt_3500_75) = (pre ++ [m])%list.
Proof.
  apply (api_body_comes_from_a_200 post_second_ok prompt_3500_75 (PStr "body")).
  reflexivity.
Defined.

Lemma posted_between_one_and_three (post : transport) (prompt : string) :
  (1 <= List.length (fst (generate_content post prompt)) <= 3)%nat.
Proof.
  unfold generate_content.
  destruct (try_models_cases post prompt models_to_try)
    as [(pre & x & rest & j & E & _ & _ & T)
       |[(pre & x & rest & j & E & _ & _ & T)|(_ & T)]];
    rewrite T; cbn [fst].
  - apply (f_equal (@List.length string)) in E. rewrite List.length_app in E |- *.
    cbn in E |- *. lia.
  - apply (f_equal (@List.length string)) in E. rewrite List.length_app in E |- *.
    cbn in E |- *. lia.
  - cbn. lia.
Qed.

(** ** The rest of the simulated plan *)

(** The battery advice has three bands with the strict thresholds
    50 and 80, and the mode of the battery changes above 1000 W: the
    [battery_management] text of the plan is the advice of the band of
    the percentage, the production, and "Charge mode active" above 1000 W
    or the conservation mode up to 1000 W. *)
Theorem battery_management_bands (solar battery : Z) :
  (battery <= 50 ->
     battery_advice battery =
     "Battery getting low. Conserve power and avoid non-essential appliances.") /\
  (50 < battery <= 80 ->
     battery_advice battery =
     "Battery at moderate level. Monitor usage and prioritize essentials.") /\
  (80 < battery ->
     battery_advice battery =
     "Battery well charged. Can support high-power loads if needed.") /\
  (solar <= 1000 ->
     battery_management_of (simulated_plan solar battery) =
     Some (PStr (battery_advice battery ++ " Current solar: " ++ str_of_int solar
                 ++ "W. Conservation mode - discharge minimally."))) /\
  (1000 < solar ->
     battery_management_of (simulated_plan solar battery) =
     Some (PStr (battery_advice battery ++ " Current solar: " ++ str_of_int solar
                 ++ "W. Charge mode active."))).
Proof.
  unfold battery_advice, battery_management_of, simulated_plan.
  cbn [plan_field dict_get String.eqb Ascii.eqb Bool.eqb].
  repeat split; intros H.
  - destruct (Z.gtb_spec battery 80); [lia|].
    destruct (Z.gtb_spec battery 50); [lia|reflexivity].
  - destruct (Z.gtb_spec battery 80); [lia|].
    destruct (Z.gtb_spec battery 50); [reflexivity|lia].
  - destruct (Z.gtb_spec battery 80); [reflexivity|lia].
  - destruct (Z.gtb_spec solar 1000); [lia|reflexivity].
  - destruct (Z.gtb_spec solar 1000); [reflexivity|lia].
Qed.

(** X6.  The entries of the lights and of the laptop charger are
    "Solar" or "Battery" by comparisons of their own, [< 100] and
    [> 100]: they show the same source for every production except 100 W,
    where the lights are on "Solar" and the charger on "Battery", in the
    "Night/No Sun" period. *)
Theorem light_load_sources (solar battery : Z) :
  exists lights laptop,
    power_source_of "Lights (LED x5)" (simulated_plan solar battery) =
      Some (PStr lights) /\
    power_source_of "Laptop Charger" (simulated_plan solar battery) =
      Some (PStr laptop) /\
    (lights = "Solar" <-> 100 <= solar) /\
    (laptop = "Solar" <-> 100 < solar) /\
    (lights = laptop <-> solar <> 100) /\
    (solar = 100 -> period (solar_conditions solar) = "Night/No Sun").
Proof.
  exists (if solar <? 100 then "Battery" else "Solar"),
         (if solar >? 100 then "Solar" else "Battery").
  split; [reflexivity|]. split; [reflexivity|].
  destruct (Z.ltb_spec solar 100); destruct (Z.gtb_spec solar 100);
    repeat split; intros; try lia; try discriminate; try reflexivity;
    try (subst; reflexivity).
Qed.

(* ================================================================== *)
(** * Further properties: the knowledge retrieval *)
(* ================================================================== *)





Lemma in_database_keys (canonical_name : string) :
  in_database canonical_name = true ->
  lower canonical_name = "coca-cola, 0.5l, pet bottle" \/
  lower canonical_name = "t-shirt, cotton, blue, large".
Proof.
  unfold in_database, dict_mem, MOCK_INTERNAL_DATABASE. cbn [dict_get].
  destruct (String.eqb_spec (lower canonical_name) "coca-cola, 0.5l, pet bottle");
    [auto|].
  destruct (String.eqb_spec (lower canonical_name) "t-shirt, cotton, blue, large");
    [auto|discriminate].
Qed.

(** X8.  Layer 3 of the pipeline answers every name of the internal
    table from the category fallback: such a name never has the web key,
    and the value returned is one of the category averages or the generic
    5.0, which is never the value that the table holds for the name. *)
Theorem layer3_never_uses_database (canonical_name category : string) :
  in_database canonical_name = true ->
  exists q,
    layer3_knowledge_retrieval (layer2_entity canonical_name category) =
      Return (fallback_record canonical_name category (PNum q)) /\
    forall record stored,
      dict_get (lower canonical_name) MOCK_INTERNAL_DATABASE = Some record ->
      number_field "co2e_kg" record = Some stored ->
      ~ (q == stored)%Q.
Proof.
  intros Hin.
  assert (Hweb : contains web_key (lower canonical_name) = false).
  { destruct (in_database_keys _ Hin) as [-> | ->]; reflexivity. }
  unfold layer3_knowledge_retrieval, layer2_entity.
  cbn [dict_item dict_get String.eqb Ascii.eqb Bool.eqb bind str_method].
  rewrite Hweb. unfold get_or, fallback_values. cbn [dict_get].
  assert (Hval : forall q, In q [1.5; 0.5; 7.0; 25.0; 0.115; 5.0]%Q ->
            forall record stored,
              dict_get (lower canonical_name) MOCK_INTERNAL_DATABASE = Some record ->
              number_field "co2e_kg" record = Some stored -> ~ (q == stored)%Q).
  { intros q Hq record stored Hrec Hst.
    destruct (in_database_keys _ Hin) as [E | E]; rewrite E in Hrec;
      injection Hrec as <-; injection Hst as <-;
      cbn in Hq; intuition (subst; discriminate). }
  destruct (String.eqb category "Food");
    [eexists; split; [reflexivity|apply Hval; cbn; auto]|].
  destruct (String.eqb category "Beverage");
    [eexists; split; [reflexivity|apply Hval; cbn; auto]|].
  destruct (String.eqb category "Clothing");
    [eexists; split; [reflexivity|apply Hval; cbn; auto]|].
  destruct (String.eqb category "Electronics");
    [eexists; split; [reflexivity|apply Hval; cbn; auto 6]|].
  destruct (String.eqb category "Flights");
    [eexists; split; [reflexivity|apply Hval; cbn; auto 7]|].
  destruct (String.eqb category "Other");
    eexists; (split; [reflexivity|apply Hval; cbn; auto 8]).
Qed.

Lemma layer3_never_uses_database_witness :
  exists q,
    layer3_knowledge_retrieval (layer2_entity "T-Shirt, Cotton, Blue, Large" "Clothing") =
      Return (fallback_record "T-Shirt, Cotton, Blue, Large" "Clothing" (PNum q)) /\
    forall record stored,
      dict_get (lower "T-Shirt, Cotton, Blue, Large") MOCK_INTERNAL_DATABASE =
        Some record ->
      number_field "co2e_kg" record = Some stored ->
      ~ (q == stored)%Q.
Proof.
  apply (layer3_never_uses_database "T-Shirt, Cotton, Blue, Large" "Clothing").
  reflexivity.
Defined.

(** X9.  Outside the internal table, layer 3 of the pipeline and the
    tools of the retriever give the same footprint: for a name with the
    web key the value, source and confidence of layer 3 are those of the
    web tool, and for any other name with a category of the fallback
    table they are those of the category tool. *)
Theorem layer3_agrees_with_tools (canonical_name category : string) (r : pyval) :
  layer3_knowledge_retrieval (layer2_entity canonical_name category) = Return r ->
  (contains web_key (lower canonical_name) = true ->
     footprint_fields r =
     footprint_fields (loads_dumped (_search_web_for_footprint_data canonical_name))) /\
  (contains web_key (lower canonical_name) = false ->
   dict_mem category MOCK_CATEGORY_FALLBACKS = true ->
     footprint_fields r =
     footprint_fields (loads_dumped (_use_category_fallback_heuristic category))).
Proof.
  unfold layer3_knowledge_retrieval, layer2_entity, _search_web_for_footprint_data,
    _use_category_fallback_heuristic.
  cbn [dict_item dict_get String.eqb Ascii.eqb Bool.eqb bind str_method].
  destruct (contains web_key (lower canonical_name)).
  - intros H. injection H as <-. split; [reflexivity|discriminate].
  - unfold get_or, dict_mem. change fallback_values with MOCK_CATEGORY_FALLBACKS.
    destruct (dict_get category MOCK_CATEGORY_FALLBACKS) as [v|];
      cbn [bind]; intros H; injection H as <-;
      (split; [discriminate|]); intros _ Hm; [reflexivity|discriminate].
Qed.

Lemma layer3_agrees_with_tools_witness :
  footprint_fields (web_record "Lay's Classic Potato Chips (1 oz)" "Food") =
  footprint_fields
    (loads_dumped (_search_web_for_footprint_data "Lay's Classic Potato Chips (1 oz)")).
Proof.
  apply (layer3_agrees_with_tools "Lay's Classic Potato Chips (1 oz)" "Food"
           (web_record "Lay's Classic Potato Chips (1 oz)" "Food"));
    reflexivity.
Defined.

(* ================================================================== *)
(** * Further properties: the estimator and the standardizer *)
(* ================================================================== *)

Open Scope Q_scope.






Close Scope Q_scope.

Lemma as_number_raises (v : pyval) (e : exn) :
  as_number v = Raise e -> e = TypeError.
Proof. destruct v; cbn; intros H; congruence. Qed.


Lemma calculate_from_dict_type_error (d : list (string * pyval)) :
  has_non_number d = true -> calculate_from_dict (PDict d) = Raise TypeError.
Proof.
  unfold has_non_number, impact_keys. cbn [existsb]. rewrite orb_false_r.
  unfold calculate_from_dict, _calculate_from_components, component.
  cbn [py_get].
  destruct (dict_get "production_impact" d) as [a|]; cbn [bind];
    destruct (dict_get "packaging_impact" d) as [b|]; cbn [bind];
    destruct (dict_get "transport_impact" d) as [c|]; cbn [bind as_number];
    try (destruct (as_number a) as [p|ea] eqn:Ea;
         [|rewrite (as_number_raises a ea Ea)]);
    try (destruct (as_number b) as [k|eb] eqn:Eb;
         [|rewrite (as_number_raises b eb Eb)]);
    try (destruct (as_number c) as [t|ec] eqn:Ec;
         [|rewrite (as_number_raises c ec Ec)]);
    cbn [bind orb]; intros H; try discriminate H; reflexivity.
Qed.

Section MoreDecoded.

Variable json_loads : string -> option pyval.


(** X12.  A value that is there and is not a number, in the
    ['components'] dict or in the dict that the model's text decodes to,
    makes [estimate] raise [TypeError]: the fallback split is for parsing
    errors only. *)
Theorem non_number_component_raises
    (model : breakdown_request -> model_outcome)
    (retrieval_data : list (string * pyval)) (d : list (string * pyval)) :
  has_non_number d = true ->
  (dict_get "components" retrieval_data = Some (PDict d) ->
     estimate json_loads model retrieval_data = ([], Raise TypeError)) /\
  (forall text,
     dict_mem "components" retrieval_data = false ->
     dict_mem "co2e_kg" retrieval_data = true ->
     model (request_of retrieval_data) = ModelText text ->
     json_loads (clean_response text) = Some (PDict d) ->
     estimate json_loads model retrieval_data =
       ([request_of retrieval_data], Raise TypeError)).
Proof.
  intros Hd. pose proof (calculate_from_dict_type_error d Hd) as Hraise. split.
  - intros Hc. unfold estimate, dict_mem, dict_item. rewrite Hc. cbn [bind].
    now rewrite Hraise.
  - intros text Hc Ht Hm Hl. unfold estimate. rewrite Hc, Ht.
    unfold request_of in Hm. unfold _breakdown_total_co2e. rewrite Hm.
    cbn [response_text bind]. unfold loads. rewrite Hl. cbn [bind].
    rewrite Hraise. reflexivity.
Qed.

(** X13.  When the text of the model decodes to a dict with both keys,
    [standardize_json] returns that dict as it is: the category is not
    compared with the list of categories, and other keys stay. *)
Theorem standardize_json_returns_dict_unchanged
    (model : pyval -> model_outcome) (json_data : pyval) (text : string)
    (d : list (string * pyval)) :
  model json_data = ModelText text ->
  json_loads (clean_response text) = Some (PDict d) ->
  dict_mem "canonical_name" d = true ->
  dict_mem "category" d = true ->
  standardize_json json_loads model json_data = Return (PDict d).
Proof.
  intros Hm Hl Hn Hc. unfold standardize_json, standardize_body, loads.
  rewrite Hm. cbn [response_text bind]. rewrite Hl. cbn [bind py_in].
  now rewrite Hn, Hc.
Qed.

End MoreDecoded.


Lemma non_number_component_raises_witness :
  estimate json_loads_more (model_says quoted_number_text) lays_total =
    ([request_of lays_total], Raise TypeError).
Proof.
  apply (proj2 (non_number_component_raises json_loads_more
                  (model_says quoted_number_text) lays_total
                  [("production_impact", PStr "0.05")] eq_refl)
           quoted_number_text); reflexivity.
Defined.

Lemma standardize_json_returns_dict_unchanged_witness :
  standardize_json json_loads_more (fun _ => ModelText desk_lamp_text) manual_text =
  Return (PDict [("canonical_name", PStr "Desk Lamp"); ("category", PStr "Furniture")]).
Proof.
  apply (standardize_json_returns_dict_unchanged json_loads_more
           (fun _ => ModelText desk_lamp_text) manual_text desk_lamp_text);
    reflexivity.
Defined.


(* ================================================================== *)
(** * Further properties: the input layer *)
(* ================================================================== *)

Lemma lstrip_first (s : string) (c : ascii) :
  first_char (lstrip s) = Some c -> is_space c = false.
Proof.
  induction s as [|a s IH]; cbn [lstrip]; [discriminate|].
  destruct (is_space a) eqn:E; [exact IH|].
  cbn [first_char]. intros H. injection H as <-. exact E.
Qed.

Lemma rstrip_first (s : string) (c : ascii) :
  first_char (rstrip s) = Some c -> first_char s = Some c.
Proof.
  destruct s as [|a s]; cbn [rstrip]; [discriminate|].
  destruct (rstrip s); [destruct (is_space a); [discriminate|]|]; cbn [first_char]; auto.
Qed.

Lemma rstrip_last (s : string) (c : ascii) :
  last_char (rstrip s) = Some c -> is_space c = false.
Proof.
  induction s as [|a s IH]; cbn [rstrip]; [discriminate|].
  destruct (rstrip s) as [|b r] eqn:E.
  - destruct (is_space a) eqn:Ea; [discriminate|].
    cbn [last_char]. intros H. injection H as <-. exact Ea.
  - cbn [last_char]. exact IH.
Qed.

Lemma rstrip_idem (s : string) : rstrip (rstrip s) = rstrip s.
Proof.
  induction s as [|a s IH]; [reflexivity|]. cbn [rstrip].
  destruct (rstrip s) as [|b r] eqn:E.
  - destruct (is_space a) eqn:Ea; [reflexivity|]. cbn [rstrip]. rewrite Ea. reflexivity.
  - change (rstrip (String a (String b r)))
      with (match rstrip (String b r) with
            | EmptyString => if is_space a then EmptyString else String a EmptyString
            | r' => String a r'
            end).
    rewrite IH. reflexivity.
Qed.

Lemma lstrip_fix (s : string) :
  (forall c, first_char s = Some c -> is_space c = false) -> lstrip s = s.
Proof.
  destruct s as [|a s]; [reflexivity|]. intros H. cbn [lstrip].
  rewrite (H a eq_refl). reflexivity.
Qed.

Lemma strip_first (s : string) (c : ascii) :
  first_char (strip s) = Some c -> is_space c = false.
Proof. intros H. apply (lstrip_first s), rstrip_first, H. Qed.

Lemma strip_idem (s : string) : strip (strip s) = strip s.
Proof.
  unfold strip. rewrite (lstrip_fix (rstrip (lstrip s))).
  - apply rstrip_idem.
  - intros c. apply strip_first.
Qed.

Lemma rstrip_all_space (s : string) : all_space s = true -> rstrip s = EmptyString.
Proof.
  induction s as [|a s IH]; [reflexivity|]. cbn [all_space rstrip].
  intros H. apply andb_prop in H. destruct H as [Ha Hs].
  rewrite (IH Hs), Ha. reflexivity.
Qed.

Lemma lstrip_all_space (s : string) : all_space s = true -> all_space (lstrip s) = true.
Proof.
  induction s as [|a s IH]; [reflexivity|]. cbn [all_space lstrip].
  intros H. apply andb_prop in H. destruct H as [Ha Hs].
  rewrite Ha. exact (IH Hs).
Qed.

(** X14.  The record that the OCR fallback returns holds a text that is
    not empty and neither starts nor ends with white space, and that
    stripping leaves as it is; an OCR text of white space only gives
    [None], as a failed OCR does. *)
Theorem ocr_record_text_is_stripped (ocr : result string) :
  match _process_with_tesseract ocr with
  | PDict d =>
      exists raw_text t,
        ocr = Return raw_text /\ t = strip raw_text /\
        d = [("type", PStr "ocr_fallback"); ("source", PStr "Tesseract");
             ("raw_text", PStr t)] /\
        t <> EmptyString /\ strip t = t /\
        (forall c, first_char t = Some c -> is_space c = false) /\
        (forall c, last_char t = Some c -> is_space c = false)
  | v =>
      v = PNone /\
      forall raw_text, ocr = Return raw_text -> strip raw_text = EmptyString
  end /\
  (forall raw_text, all_space raw_text = true ->
     _process_with_tesseract (Return raw_text) = PNone).
Proof.
  split.
  - destruct ocr as [raw_text|e]; cbn [_process_with_tesseract].
    + destruct (strip raw_text) as [|a r] eqn:E; cbn [is_empty negb].
      * split; [reflexivity|]. intros r H. injection H as <-. exact E.
      * exists raw_text, (String a r). rewrite <- E.
        split; [reflexivity|]. split; [reflexivity|]. split; [reflexivity|].
        split; [rewrite E; discriminate|]. split; [apply strip_idem|].
        split; [apply strip_first|]. intros c. unfold strip. apply rstrip_last.
    + split; [reflexivity|]. intros r H. discriminate H.
  - intros raw_text H. cbn [_process_with_tesseract]. unfold strip.
    rewrite (rstrip_all_space _ (lstrip_all_space _ H)). reflexivity.
Qed.

Lemma process_with_gemini_failed (json_loads : string -> option pyval) (e : exn) :
  _process_with_gemini json_loads (ModelRaises e) = PNone /\
  _process_with_gemini json_loads (TextRaises e) = PNone.
Proof. split; reflexivity. Qed.

(** X15.  [process_input] never returns [None]: its result is the value
    that the vision model's text decodes to, which is then not [None],
    or one of three dicts, the OCR record, the error record or the
    manual-text record.  OCR is run exactly when the path exists and the
    vision step gave [None]. *)
Theorem process_input_never_none (json_loads : string -> option pyval)
    (path_exists : bool) (reply : model_outcome) (ocr : result string)
    (input_data : string) :
  let (tools, result) := process_input json_loads path_exists reply ocr input_data in
  result <> PNone /\
  (is_dict result = true \/
   (path_exists = true /\ result = _process_with_gemini json_loads reply)) /\
  (In "tesseract" tools <->
   path_exists = true /\ _process_with_gemini json_loads reply = PNone).
Proof.
  unfold process_input. destruct path_exists.
  - destruct (_process_with_gemini json_loads reply) as [| | | | |] eqn:G;
      cbn [is_none];
      try (split; [discriminate|split; [right; split; reflexivity|]];
           split; [intros [H|[]]; discriminate H|intros [_ H]; discriminate H]).
    destruct (_process_with_tesseract ocr) eqn:T; cbn [is_none];
        unfold _process_with_tesseract in T;
        destruct ocr as [raw|e]; try discriminate T;
        try (destruct (negb (is_empty (strip raw))); discriminate T);
        (split; [discriminate|split; [left; reflexivity|]];
         split; [intros _; split; reflexivity|intros _; right; left; reflexivity]).
  - split; [discriminate|split; [left; reflexivity|]].
    split; [intros []|intros [H _]; discriminate H].
Qed.

(** X16.  A vision reply whose text decodes to JSON [null] is taken as a
    failure of the vision step: [process_input] then does what it does
    when the model raises, it runs the OCR and gives its record or the
    error record. *)
Theorem null_reply_is_a_failure (json_loads : string -> option pyval)
    (text : string) (e : exn) (ocr : result string) (input_data : string) :
  json_loads (clean_response text) = Some PNone ->
  process_input json_loads true (ModelText text) ocr input_data =
  process_input json_loads true (ModelRaises e) ocr input_data /\
  fst (process_input json_loads true (ModelText text) ocr input_data) =
  ["gemini"; "tesseract"].
Proof.
  intros H. unfold process_input, _process_with_gemini, loads.
  cbn [response_text bind]. rewrite H. cbn [is_none].
  destruct (is_none (_process_with_tesseract ocr)); split; reflexivity.
Qed.

Lemma null_reply_is_a_failure_witness :
  json_loads_more (clean_response "```null```") = Some PNone /\
  process_input json_loads_more true (ModelText "```null```")
    (Return "  Lay's Classic  ") "chips.png" =
  (["gemini"; "tesseract"],
   PDict [("type", PStr "ocr_fallback"); ("source", PStr "Tesseract");
          ("raw_text", PStr "Lay's Classic")]).
Proof.
  split; [vm_compute; reflexivity|].
  rewrite (proj1 (null_reply_is_a_failure json_loads_more "```null```" ApiError
                    (Return "  Lay's Classic  ") "chips.png" eq_refl)).
  vm_compute. reflexivity.
Defined.

(* ================================================================== *)
(** * Further properties: the master agent *)
(* ================================================================== *)

Section AgentProperties.

Variable json_loads : string -> option pyval.
Variable standardizer : string -> model_outcome.
Variable estimator : pyval -> model_outcome.

Let run := CarbonFootprintAgent.run json_loads standardizer estimator.

(** The total that [_retrieve_knowledge] gives for a name. *)
Let total_of (name : string) : pyval :=
  PNum (if contains web_key (lower name) then 0.075 else 1.5).

Lemma retrieve_knowledge_total (name : string) (category : pyval) :
  exists record,
    CarbonFootprintAgent._retrieve_knowledge (PStr name) category = Return (Dumps record) /\
    py_get record "co2e_kg" PNone = Return (total_of name).
Proof.
  unfold CarbonFootprintAgent._retrieve_knowledge, total_of.
  cbn [str_method bind]. destruct (contains web_key (lower name));
    eexists; split; reflexivity.
Qed.

Lemma estimate_of_total (record : pyval) (q : Q) (estimation : json_text) :
  py_get record "co2e_kg" PNone = Return (PNum q) ->
  CarbonFootprintAgent._estimate_footprint_breakdown json_loads estimator (Dumps record)
    = Return estimation ->
  exists breakdown,
    estimation = Dumps (PDict [("total_co2e_kg", PNum q); ("breakdown", breakdown);
                               ("notes", PStr "Component breakdown was estimated by AI.")]).
Proof.
  unfold CarbonFootprintAgent._estimate_footprint_breakdown. cbn [loads_dumped].
  intros -> H. cbn [bind] in H.
  apply bind_return in H. destruct H as (text & _ & H).
  apply bind_return in H. destruct H as (breakdown & _ & H).
  injection H as <-. now exists breakdown.
Qed.

(** X17.  When the text of the standardizer is not JSON, [run] takes the
    query as the name and "Food" as the category and goes on, but it
    never returns: the final summary decodes the same text once more,
    outside any handler, so the call ends in [JSONDecodeError], unless
    the call of the model for the breakdown has raised before. *)
Theorem run_raises_when_standardizer_is_not_json (user_query text : string) :
  standardizer user_query = ModelText text ->
  json_loads (clean_response text) = None ->
  exists e,
    run user_query = Raise e /\
    (e = JSONDecodeError \/
     response_text (estimator (total_of user_query)) = Raise e).
Proof.
  intros Hs Hj. unfold run, CarbonFootprintAgent.run,
    CarbonFootprintAgent._standardize_entity.
  rewrite Hs. cbn [response_text bind]. unfold loads at 1. rewrite Hj.
  cbn [try_except one_of existsb exn_eqb orb bind py_item dict_item dict_get
       String.eqb Ascii.eqb Bool.eqb].
  destruct (retrieve_knowledge_total user_query (PStr "Food")) as (record & -> & Hr).
  cbn [bind]. unfold CarbonFootprintAgent._estimate_footprint_breakdown.
  cbn [loads_dumped]. rewrite Hr. cbn [bind].
  destruct (response_text (estimator (total_of user_query))) as [t|e] eqn:E.
  - exists JSONDecodeError. split; [|now left]. cbn [bind].
    assert (B : exists b,
      try_except (loads json_loads (clean_response t)) (one_of [JSONDecodeError])
        (fun _ =>
           p <- times (total_of user_query) 0.60 ;;
           k <- times (total_of user_query) 0.20 ;;
           t0 <- times (total_of user_query) 0.20 ;;
           Return (PDict [("production_impact", p); ("packaging_impact", k);
                          ("transport_impact", t0)])) = Return b).
    { unfold loads. destruct (json_loads (clean_response t)) as [v|].
      - now exists v.
      - cbn. eexists. reflexivity. }
    destruct B as (b & ->). cbn [bind].
    unfold CarbonFootprintAgent._generate_final_summary, loads.
    rewrite Hj. reflexivity.
  - exists e. split; [reflexivity|now right].
Qed.

(** X18.  Whenever [run] returns, the name of the standardized data is a
    str, and the total of the retrieved data, of the estimate and of the
    summary is 0.075 when the lowered name holds the web key and 1.5
    otherwise: the category and the breakdown of the model have no part
    in it, and the note is always that of an AI estimate. *)
Theorem run_total_ignores_category (user_query : string)
    (r : CarbonFootprintAgent.run_result) :
  run user_query = Return r ->
  exists name,
    py_item (CarbonFootprintAgent.standardized_data r) "canonical_name"
      = Return (PStr name) /\
    py_get (CarbonFootprintAgent.knowledge_data r) "co2e_kg" PNone
      = Return (total_of name) /\
    py_get (CarbonFootprintAgent.estimation_data r) "total_co2e_kg" PNone
      = Return (total_of name) /\
    CarbonFootprintAgent.shown_total (CarbonFootprintAgent.final_summary r)
      = total_of name /\
    CarbonFootprintAgent.shown_notes (CarbonFootprintAgent.final_summary r)
      = PStr "Component breakdown was estimated by AI.".
Proof.
  unfold run, CarbonFootprintAgent.run. intros H.
  apply bind_return in H. destruct H as (s & _ & H).
  apply bind_return in H. destruct H as (sd & _ & H).
  apply bind_return in H. destruct H as (cn & Hcn & H).
  apply bind_return in H. destruct H as (cat & _ & H).
  apply bind_return in H. destruct H as (kr & Hkr & H).
  apply bind_return in H. destruct H as (er & Her & H).
  apply bind_return in H. destruct H as (fs & Hfs & H).
  injection H as <-. cbn.
  assert (N : exists name, cn = PStr name).
  { unfold CarbonFootprintAgent._retrieve_knowledge in Hkr.
    apply bind_return in Hkr. destruct Hkr as (name & Hn & _).
    destruct cn; try discriminate Hn. injection Hn as ->. now eexists. }
  destruct N as (name & ->). exists name.
  destruct (retrieve_knowledge_total name cat) as (record & Hrec & Hr).
  rewrite Hrec in Hkr. injection Hkr as <-.
  destruct (estimate_of_total record _ er Hr Her) as (breakdown & ->).
  cbn [loads_dumped].
  unfold CarbonFootprintAgent._generate_final_summary in Hfs. cbn [loads_dumped] in Hfs.
  apply bind_return in Hfs. destruct Hfs as (sd' & _ & Hfs).
  apply bind_return in Hfs. destruct Hfs as (nm & _ & Hfs).
  cbn [py_get py_item dict_item dict_get String.eqb Ascii.eqb Bool.eqb bind] in Hfs.
  apply bind_return in Hfs. destruct Hfs as (p & _ & Hfs).
  apply bind_return in Hfs. destruct Hfs as (k & _ & Hfs).
  apply bind_return in Hfs. destruct Hfs as (t & _ & Hfs).
  injection Hfs as <-. cbn.
  repeat split; try assumption; reflexivity.
Qed.

End AgentProperties.

Lemma run_raises_when_standardizer_is_not_json_witness :
  CarbonFootprintAgent.run json_loads_more
    (fun _ => ModelText "Potato chips are a snack.")
    (fun _ => ModelText breakdown_text) "a bag of chips" = Raise JSONDecodeError.
Proof.
  destruct (run_raises_when_standardizer_is_not_json json_loads_more
              (fun _ => ModelText "Potato chips are a snack.")
              (fun _ => ModelText breakdown_text) "a bag of chips"
              "Potato chips are a snack." eq_refl eq_refl) as (e & -> & [->|H]).
  - reflexivity.
  - discriminate H.
Defined.

Lemma run_total_ignores_category_witness :
  exists r,
    CarbonFootprintAgent.run json_loads_more (fun _ => ModelText desk_lamp_text)
      (fun _ => ModelText breakdown_text) "desk lamp" = Return r /\
    CarbonFootprintAgent.shown_total (CarbonFootprintAgent.final_summary r) = PNum 1.5 /\
    CarbonFootprintAgent.shown_production (CarbonFootprintAgent.final_summary r) = PNum 0.1.
Proof.
  eexists. split; [vm_compute; reflexivity|].
  split; [|reflexivity].
  destruct (run_total_ignores_category json_loads_more (fun _ => ModelText desk_lamp_text)
              (fun _ => ModelText breakdown_text) "desk lamp" _ eq_refl)
    as (name & Hn & _ & _ & Ht & _).
  injection Hn as <-. exact Ht.
Defined.

Open Scope Q_scope.

(** X19.  The master agent and layer 3 of the pipeline retrieve the same
    total for a name and a category exactly when the lowered name holds
    the web key or the category is "Food": the agent answers 1.5 for
    every other name, whatever its category, where the pipeline answers
    the average of the category, or 5.0. *)
Theorem agent_and_pipeline_totals (name category : string) :
  exists record layer3_result x y,
    CarbonFootprintAgent._retrieve_knowledge (PStr name) (PStr category)
      = Return (Dumps record) /\
    layer3_knowledge_retrieval (layer2_entity name category) = Return layer3_result /\
    number_field "co2e_kg" record = Some x /\
    number_field "co2e_kg" layer3_result = Some y /\
    (x == y <-> contains web_key (lower name) = true \/ category = "Food"%string).
Proof.
  unfold CarbonFootprintAgent._retrieve_knowledge, layer3_knowledge_retrieval,
    layer2_entity.
  cbn [dict_item dict_get String.eqb Ascii.eqb Bool.eqb bind str_method].
  destruct (contains web_key (lower name)).
  - do 4 eexists. repeat (split; [reflexivity|]).
    split; [intros _; now left|reflexivity].
  - unfold get_or, fallback_values. cbn [dict_get].
    destruct (String.eqb_spec category "Food") as [->|NF].
    { do 4 eexists. repeat (split; [reflexivity|]).
      split; [intros _; now right|reflexivity]. }
    assert (R : forall x y : Q, ~ x == y ->
              (x == y <-> false = true \/ category = "Food"%string)).
    { intros x y N. split; [intros E; now elim N|intros [E|E]; [discriminate E|now elim NF]]. }
    repeat match goal with
           | |- context [String.eqb category ?k] => destruct (String.eqb category k)
           end;
      cbn [bind]; do 4 eexists; repeat (split; [reflexivity|]);
      apply R; intros E; vm_compute in E; discriminate E.
Qed.

Close Scope Q_scope.

(* ================================================================== *)
(** * Further properties: the five layers of the pipeline *)
(* ================================================================== *)

Lemma layer_failed {A : Type} (error : string) (body : result A)
    (next : A -> pipeline_outcome) (error' : string) (e : exn) :
  layer error body next = Failed error' e ->
  (body = Raise e /\ error' = error) \/
  (exists a, body = Return a /\ next a = Failed error' e).
Proof.
  destruct body as [a|e']; cbn [layer]; intros H.
  - right. now exists a.
  - injection H as <- <-. now left.
Qed.

Lemma layer_completed {A : Type} (error : string) (body : result A)
    (next : A -> pipeline_outcome) (r : pipeline_results) :
  layer error body next = Completed r ->
  exists a, body = Return a /\ next a = Completed r.
Proof.
  destruct body as [a|e']; cbn [layer]; intros H; [now exists a|discriminate H].
Qed.

Lemma py_get_raises (v : pyval) (k : string) (default : pyval) (e : exn) :
  py_get v k default = Raise e -> e = AttributeError /\ is_dict v = false.
Proof.
  destruct v as [| | | | |d]; cbn [py_get]; intros H; try (injection H as <-; now split).
  destruct (dict_get k d); discriminate H.
Qed.

Lemma py_get_returns (v : pyval) (k : string) (default x : pyval) :
  py_get v k default = Return x -> exists d, v = PDict d.
Proof. destruct v; cbn [py_get]; intros H; try discriminate H. now eexists. Qed.

Lemma standardize_json_keys (json_loads : string -> option pyval)
    (model : pyval -> model_outcome) (json_data : pyval) (d : list (string * pyval)) :
  standardize_json json_loads model json_data = Return (PDict d) ->
  dict_mem "canonical_name" d = true /\ dict_mem "category" d = true.
Proof.
  unfold standardize_json.
  destruct (standardize_body json_loads (model json_data)) as [parsed|e] eqn:B.
  - intros H. injection H as ->. unfold standardize_body in B.
    apply bind_return in B. destruct B as (text & _ & B).
    apply bind_return in B. destruct B as (parsed & _ & B).
    apply bind_return in B. destruct B as (has_name & Hn & B).
    destruct has_name; cbn [negb] in B; [|discriminate B].
    apply bind_return in B. destruct B as (has_category & Hc & B).
    destruct has_category; cbn [negb] in B; [|discriminate B].
    injection B as ->. cbn [py_in] in Hn, Hc.
    injection Hn as ->. injection Hc as ->. now split.
  - destruct (one_of [JSONDecodeError; AttributeError; ValueError] e).
    + intros H. apply bind_return in H. destruct H as (_ & _ & H).
      injection H as <-. now split.
    + intros H. injection H as <-. now split.
Qed.

Lemma layer3_raises (d : list (string * pyval)) (e : exn) :
  dict_mem "canonical_name" d = true -> dict_mem "category" d = true ->
  layer3_knowledge_retrieval d = Raise e -> e = AttributeError \/ e = TypeError.
Proof.
  unfold layer3_knowledge_retrieval, dict_item, dict_mem.
  destruct (dict_get "canonical_name" d) as [cn|]; [|discriminate].
  destruct (dict_get "category" d) as [cat|]; [|discriminate].
  intros _ _. cbn [bind].
  destruct cn; cbn [str_method bind]; try (intros H; injection H as <-; now left).
  destruct (contains web_key (lower s)); [discriminate|].
  unfold get_or. destruct cat; cbn [bind]; try discriminate;
    try (intros H; injection H as <-; now right).
  destruct (dict_get s0 fallback_values); discriminate.
Qed.

Lemma layer3_returns (d : list (string * pyval)) (r : pyval) :
  layer3_knowledge_retrieval d = Return r ->
  exists name category co2e,
    dict_get "canonical_name" d = Some (PStr name) /\
    r = PDict [("canonical_name", PStr name); ("category", category);
               ("co2e_kg", co2e);
               ("source", PStr (if contains web_key (lower name)
                                then "Simulated Web Scrape (GoodFood Institute Report)"
                                else "Category Fallback Heuristic"));
               ("confidence", PStr (if contains web_key (lower name)
                                    then "Medium" else "Low"))].
Proof.
  unfold layer3_knowledge_retrieval. intros H.
  apply bind_return in H. destruct H as (cn & Hcn & H).
  apply bind_return in H. destruct H as (cat & _ & H).
  apply bind_return in H. destruct H as (name & Hn & H).
  destruct cn; try discriminate Hn. injection Hn as ->.
  unfold dict_item in Hcn. destruct (dict_get "canonical_name" d) as [v|]; [|discriminate Hcn].
  injection Hcn as ->.
  destruct (contains web_key (lower name)) eqn:W.
  - injection H as <-. exists name, cat, (PNum 0.075). rewrite W. split; reflexivity.
  - apply bind_return in H. destruct H as (co2e & _ & H).
    injection H as <-. exists name, cat, co2e. rewrite W. split; reflexivity.
Qed.

Lemma layer4_returns (json_loads : string -> option pyval)
    (model : breakdown_request -> model_outcome)
    (name : string) (category co2e source confidence r : pyval) :
  layer4_footprint_estimation json_loads model
    [("canonical_name", PStr name); ("category", category); ("co2e_kg", co2e);
     ("source", source); ("confidence", confidence)] = Return r ->
  exists p k t,
    r = PDict [("total_co2e_kg", PNum (round4 (p + k + t)));
               ("breakdown", PDict [("production", PNum (round4 p));
                                    ("packaging", PNum (round4 k));
                                    ("transport", PNum (round4 t))]);
               ("formula", PStr "Total = Production + Packaging + Transport");
               ("notes", PStr "Component breakdown was estimated by AI.");
               ("canonical_name", PStr name); ("source", source);
               ("confidence", confidence)].
Proof.
  unfold layer4_footprint_estimation. intros H.
  apply bind_return in H. destruct H as (cn & Hcn & H).
  apply bind_return in H. destruct H as (total & _ & H).
  apply bind_return in H. destruct H as (text & _ & H).
  apply bind_return in H. destruct H as (comps & _ & H).
  apply bind_return in H. destruct H as (fr & Hfr & H).
  apply calculate_from_dict_return in Hfr. destruct Hfr as (p & k & t & ->).
  cbn [with_notes bind] in H.
  apply bind_return in H. destruct H as (conf & Hconf & H).
  injection Hcn as <-. injection Hconf as <-.
  injection H as <-. now exists p, k, t.
Qed.

Lemma process_input_not_dict (json_loads : string -> option pyval)
    (path_exists : bool) (reply : model_outcome) (ocr : result string)
    (input_data : string) :
  is_dict (snd (process_input json_loads path_exists reply ocr input_data)) = false ->
  path_exists = true /\
  snd (process_input json_loads path_exists reply ocr input_data)
    = _process_with_gemini json_loads reply.
Proof.
  unfold process_input. destruct path_exists; [|discriminate].
  destruct (_process_with_gemini json_loads reply) as [| | | | |d]; cbn [is_none snd];
    try (intros _; split; reflexivity).
  unfold _process_with_tesseract. destruct ocr as [raw|e]; cbn [is_none snd].
  - destruct (negb (is_empty (strip raw))); cbn [is_none snd]; discriminate.
  - discriminate.
Qed.

Section PipelineProperties.

Variable json_loads : string -> option pyval.
Variable path_exists : bool.
Variable vision : model_outcome.
Variable ocr : result string.
Variable standardizer : pyval -> model_outcome.
Variable estimator : breakdown_request -> model_outcome.

(** X20.  A run of the pipeline fails at one of the first four layers or
    not at all: the handler of layer 5 is never taken.  Layer 1 fails
    only with [AttributeError], when the path exists and the text of the
    vision model decodes to a value that is not a dict; layer 3 fails only
    with [AttributeError] or [TypeError], never for a missing key. *)
Theorem pipeline_failure_layers (image_path error : string) (e : exn) :
  run_complete_pipeline json_loads path_exists vision ocr standardizer estimator
    image_path = Failed error e ->
  (error = "Layer 1 (Input Processing) failed" /\ e = AttributeError /\
   path_exists = true /\ is_dict (_process_with_gemini json_loads vision) = false) \/
  error = "Layer 2 (Entity Standardization) failed" \/
  (error = "Layer 3 (Knowledge Retrieval) failed" /\
   (e = AttributeError \/ e = TypeError)) \/
  error = "Layer 4 (Footprint Estimation) failed".
Proof.
  unfold run_complete_pipeline. intros H.
  pose proof (process_input_not_dict json_loads path_exists vision ocr image_path) as P1.
  set (l1 := snd (process_input json_loads path_exists vision ocr image_path)) in *.
  apply layer_failed in H. destruct H as [[H ->]|(a1 & B1 & H)].
  { left. destruct (py_get l1 "type" (PStr "Unknown")) as [x|e'] eqn:G; [discriminate H|].
    injection H as ->. apply py_get_raises in G. destruct G as [-> G].
    destruct (P1 G) as [-> E]. rewrite <- E. auto. }
  apply bind_return in B1. destruct B1 as (_ & _ & B1). injection B1 as <-.
  right. apply layer_failed in H. destruct H as [[H ->]|(l2 & B2 & H)]; [now left|].
  right. apply bind_return in B2. destruct B2 as (l2' & S2 & B2).
  apply bind_return in B2. destruct B2 as (x & G2 & B2).
  apply bind_return in B2. destruct B2 as (_ & _ & B2). injection B2 as <-.
  apply py_get_returns in G2. destruct G2 as (d2 & ->).
  destruct (standardize_json_keys _ _ _ _ S2) as [Kn Kc].
  apply layer_failed in H. destruct H as [[H ->]|(l3 & B3 & H)].
  { left. split; [reflexivity|]. cbn [as_dict subscripted bind] in H.
    exact (layer3_raises d2 e Kn Kc H). }
  right. cbn [as_dict subscripted bind] in B3.
  apply layer3_returns in B3. destruct B3 as (name & category & co2e & _ & ->).
  apply layer_failed in H. destruct H as [[H ->]|(l4 & B4 & H)]; [reflexivity|].
  exfalso. cbn [as_dict subscripted bind] in B4.
  apply layer4_returns in B4. destruct B4 as (p & k & t & ->).
  cbn in H. discriminate H.
Qed.

End PipelineProperties.

Lemma pipeline_failure_layers_witness :
  run_complete_pipeline json_loads_known true (ModelText "[0.05, 0.02]")
    (Return "Lay's") (fun _ => ModelRaises ApiError) model_down "receipt.png"
    = Failed "Layer 1 (Input Processing) failed" AttributeError /\
  ((("Layer 1 (Input Processing) failed" = "Layer 1 (Input Processing) failed" /\
     AttributeError = AttributeError /\ true = true /\
     is_dict (_process_with_gemini json_loads_known (ModelText "[0.05, 0.02]")) = false) \/
    "Layer 1 (Input Processing) failed" = "Layer 2 (Entity Standardization) failed" \/
    ("Layer 1 (Input Processing) failed" = "Layer 3 (Knowledge Retrieval) failed" /\
     (AttributeError = AttributeError \/ AttributeError = TypeError)) \/
    "Layer 1 (Input Processing) failed" = "Layer 4 (Footprint Estimation) failed")).
Proof.
  split; [reflexivity|].
  apply (pipeline_failure_layers json_loads_known true (ModelText "[0.05, 0.02]")
           (Return "Lay's") (fun _ => ModelRaises ApiError) model_down "receipt.png").
  reflexivity.
Defined.

Section PipelineResults.

Variable json_loads : string -> option pyval.
Variable path_exists : bool.
Variable vision : model_outcome.
Variable ocr : result string.
Variable standardizer : pyval -> model_outcome.
Variable estimator : breakdown_request -> model_outcome.

(** X21.  The summary of a completed run shows the name of layer 2, a
    str, then the total and the three parts of layer 4, then the source
    and the confidence of layer 3, which are those of the web scrape
    when the lowered name holds the web key and those of the category
    fallback otherwise; the note is that of an AI estimate also when the
    60/20/20 split was used, and the formula is that of the
    calculator. *)
Theorem pipeline_completed_summary (image_path : string) (r : pipeline_results) :
  run_complete_pipeline json_loads path_exists vision ocr standardizer estimator
    image_path = Completed r ->
  exists name total p k t,
    layer1_input_processing r =
      snd (process_input json_loads path_exists vision ocr image_path) /\
    py_item (layer2_standardization r) "canonical_name" = Return (PStr name) /\
    footprint_parts (layer4_footprint_estimation_result r) = Some (total, p, k, t) /\
    layer5_final_summary r =
      [PStr name; PNum total; PNum p; PNum k; PNum t;
       PStr (if contains web_key (lower name)
             then "Simulated Web Scrape (GoodFood Institute Report)"
             else "Category Fallback Heuristic");
       PStr (if contains web_key (lower name) then "Medium" else "Low");
       PStr "Component breakdown was estimated by AI.";
       PStr "Total = Production + Packaging + Transport"].
Proof.
  unfold run_complete_pipeline. intros H.
  apply layer_completed in H. destruct H as (l1 & B1 & H).
  apply bind_return in B1. destruct B1 as (_ & _ & B1). injection B1 as <-.
  apply layer_completed in H. destruct H as (l2 & B2 & H).
  apply bind_return in B2. destruct B2 as (l2' & S2 & B2).
  apply bind_return in B2. destruct B2 as (x & G2 & B2).
  apply bind_return in B2. destruct B2 as (_ & _ & B2). injection B2 as <-.
  apply py_get_returns in G2. destruct G2 as (d2 & ->).
  apply layer_completed in H. destruct H as (l3 & B3 & H).
  cbn [as_dict subscripted bind] in B3.
  apply layer3_returns in B3. destruct B3 as (name & category & co2e & Hn & ->).
  apply layer_completed in H. destruct H as (l4 & B4 & H).
  cbn [as_dict subscripted bind] in B4.
  apply layer4_returns in B4. destruct B4 as (p & k & t & ->).
  apply layer_completed in H. destruct H as (l5 & B5 & H).
  injection H as <-. cbn in B5. injection B5 as <-.
  exists name, (round4 (p + k + t)), (round4 p), (round4 k), (round4 t).
  cbn [layer1_input_processing layer2_standardization
       layer4_footprint_estimation_result layer5_final_summary py_item].
  unfold dict_item. rewrite Hn. repeat split; reflexivity.
Qed.

Open Scope Q_scope.

(** X22.  A failed standardization does not stop the pipeline.  When
    layer 1 gives a dict and the standardizer answers with one of its two
    sentinels, layer 3 takes the generic 5.0 of a category that the table
    does not hold; when moreover the text of the estimator is not JSON,
    the run completes and its summary shows the sentinel as the product,
    5.0 split into 3, 1 and 1, and the confidence "Low". *)
Theorem pipeline_goes_on_after_failed_standardization
    (image_path name text : string) :
  is_dict (snd (process_input json_loads path_exists vision ocr image_path)) = true ->
  standardize_json json_loads standardizer
    (snd (process_input json_loads path_exists vision ocr image_path))
    = Return (sentinel name) ->
  name = "Error processing JSON"%string \/ name = "API call failed"%string ->
  estimator (PStr name, PNum 5.0, PStr "Category Fallback Heuristic") = ModelText text ->
  json_loads (clean_response text) = None ->
  exists r total p k t,
    run_complete_pipeline json_loads path_exists vision ocr standardizer estimator
      image_path = Completed r /\
    layer3_knowledge_retrieval_result r = fallback_record name "Error" (PNum 5.0) /\
    layer5_final_summary r =
      [PStr name; PNum total; PNum p; PNum k; PNum t;
       PStr "Category Fallback Heuristic"; PStr "Low";
       PStr "Component breakdown was estimated by AI.";
       PStr "Total = Production + Packaging + Transport"] /\
    total == 5 /\ p == 3 /\ k == 1 /\ t == 1.
Proof.
  intros D S N E J. unfold run_complete_pipeline.
  destruct (snd (process_input json_loads path_exists vision ocr image_path))
    as [| | | | |d1] eqn:P; try discriminate D.
  cbn [py_get]. 
  assert (G : exists x, match dict_get "type" d1 with
                        | Some x => Return x
                        | None => Return (PStr "Unknown")
                        end = Return x).
  { destruct (dict_get "type" d1); eexists; reflexivity. }
  destruct G as (x & ->). cbn [bind layer]. rewrite S.
  cbn [sentinel bind py_get dict_get String.eqb Ascii.eqb Bool.eqb layer as_dict subscripted].
  assert (W : contains web_key (lower name) = false).
  { destruct N as [-> | ->]; reflexivity. }
  unfold layer3_knowledge_retrieval.
  cbn [dict_item dict_get String.eqb Ascii.eqb Bool.eqb bind str_method].
  rewrite W. cbn [get_or fallback_values dict_get String.eqb Ascii.eqb Bool.eqb bind
                  layer as_dict subscripted].
  rewrite (layer4_parse_failure_split json_loads estimator
             [("canonical_name", PStr name); ("category", PStr "Error");
              ("co2e_kg", PNum 5.0); ("source", PStr "Category Fallback Heuristic");
              ("confidence", PStr "Low")]
             (PStr name) (PNum 5.0) (PStr "Low") 5.0 text
             eq_refl eq_refl eq_refl eq_refl E J).
  cbn [layer bind as_dict subscripted dict_item dict_get String.eqb Ascii.eqb Bool.eqb py_get
       get_or_none].
  eexists. exists (round4 5.0), (round4 (5.0 * 0.60)), (round4 (5.0 * 0.20)),
             (round4 (5.0 * 0.20)).
  split; [reflexivity|]. split; [reflexivity|]. split; [reflexivity|].
  repeat split; vm_compute; reflexivity.
Qed.

Close Scope Q_scope.

End PipelineResults.

Lemma pipeline_completed_summary_witness :
  exists r,
    run_complete_pipeline json_loads_more false (ModelRaises ApiError) (Raise ApiError)
      (fun _ => ModelText desk_lamp_text) (model_says breakdown_text) "desk lamp"
      = Completed r /\
    layer1_input_processing r =
      PDict [("type", PStr "manual_text"); ("content", PStr "desk lamp")] /\
    layer5_final_summary r =
      [PStr "Desk Lamp"; PNum (round4 (0.1 + 0.05 + 0.02)); PNum (round4 0.1);
       PNum (round4 0.05); PNum (round4 0.02);
       PStr "Category Fallback Heuristic"; PStr "Low";
       PStr "Component breakdown was estimated by AI.";
       PStr "Total = Production + Packaging + Transport"].
Proof.
  eexists. split; [vm_compute; reflexivity|].
  destruct (pipeline_completed_summary json_loads_more false (ModelRaises ApiError)
              (Raise ApiError) (fun _ => ModelText desk_lamp_text)
              (model_says breakdown_text) "desk lamp" _ eq_refl)
    as (name & total & p & k & t & H1 & Hn & Hp & H5).
  split; [exact H1|]. vm_compute. reflexivity.
Defined.

Lemma pipeline_goes_on_after_failed_standardization_witness :
  exists r total p k t,
    run_complete_pipeline json_loads_more true (ModelRaises ApiError) (Raise ApiError)
      (fun _ => ModelText "I cannot read this.") (model_says "Sorry.") "chips.png"
      = Completed r /\
    layer3_knowledge_retrieval_result r =
      fallback_record "Error processing JSON" "Error" (PNum 5.0) /\
    layer5_final_summary r =
      [PStr "Error processing JSON"; PNum total; PNum p; PNum k; PNum t;
       PStr "Category Fallback Heuristic"; PStr "Low";
       PStr "Component breakdown was estimated by AI.";
       PStr "Total = Production + Packaging + Transport"] /\
    (total == 5 /\ p == 3 /\ k == 1 /\ t == 1)%Q.
Proof.
  apply (pipeline_goes_on_after_failed_standardization json_loads_more true
           (ModelRaises ApiError) (Raise ApiError)
           (fun _ => ModelText "I cannot read this.") (model_says "Sorry.")
           "chips.png" "Error processing JSON" "Sorry.");
    try reflexivity.
  left. reflexivity.
Defined.

(* ================================================================== *)
(** * Further properties: the solar agent *)
(* ================================================================== *)

Lemma append_assoc_str (a b c : string) : (a ++ b) ++ c = a ++ (b ++ c).
Proof. induction a as [|x a IH]; [reflexivity|]. cbn [String.append]. now rewrite IH. Qed.

Lemma all_space_app (a b : string) : all_space (a ++ b) = all_space a && all_space b.
Proof.
  induction a as [|x a IH]; [reflexivity|]. cbn [String.append all_space].
  rewrite IH. now rewrite andb_assoc.
Qed.

Lemma rstrip_empty (s : string) : rstrip s = EmptyString -> all_space s = true.
Proof.
  induction s as [|a s IH]; [reflexivity|]. cbn [rstrip all_space].
  destruct (rstrip s) as [|b r]; [|discriminate].
  destruct (is_space a); [|discriminate]. intros _. now rewrite IH.
Qed.

Lemma rstrip_app (a b : string) :
  all_space b = false -> rstrip (a ++ b) = a ++ rstrip b.
Proof.
  intros H. induction a as [|x a IH]; [reflexivity|].
  cbn [String.append rstrip]. rewrite IH.
  destruct (a ++ rstrip b) as [|y r] eqn:E; [|reflexivity].
  destruct a; [|discriminate E]. cbn [String.append] in E.
  apply rstrip_empty in E. congruence.
Qed.

Lemma rstrip_app_blank (a b : string) :
  all_space b = true -> rstrip (a ++ b) = rstrip a.
Proof.
  intros H. induction a as [|x a IH].
  - cbn [String.append]. now apply rstrip_all_space.
  - cbn [String.append rstrip]. now rewrite IH.
Qed.

Lemma lstrip_app_blank (a b : string) :
  all_space a = true -> lstrip (a ++ b) = lstrip b.
Proof.
  induction a as [|x a IH]; [reflexivity|]. cbn [all_space String.append lstrip].
  intros H. apply andb_prop in H. destruct H as [Hx Ha]. rewrite Hx. exact (IH Ha).
Qed.

Lemma all_space_here (a b : string) : all_space a = false -> all_space (a ++ b) = false.
Proof. intros H. now rewrite all_space_app, H. Qed.

Lemma all_space_later (a b : string) : all_space b = false -> all_space (a ++ b) = false.
Proof. intros H. rewrite all_space_app, H. apply andb_false_r. Qed.

Ltac not_blank :=
  repeat first [ reflexivity
               | apply all_space_here; reflexivity
               | apply all_space_later ].

(** The prompt starts with the header, the time and the two lines of the
    readings, whatever the other fields hold. *)
Lemma prompt_layout (t s c b w a l : string) :
  exists rest,
    _create_prompt t s c b w a l =
    "Act as an expert AI Solar Energy Management Agent." ++ nl ++
    "        " ++ nl ++
    "        Current State at " ++ t ++ ":" ++ nl ++
    "        - " ++ solar_label ++ s ++ " Watts" ++ nl ++
    "        - Battery Capacity: " ++ c ++ " Wh" ++ nl ++
    "        - " ++ battery_label ++ b ++ "%" ++ rest.
Proof.
  unfold _create_prompt, strip.
  change (unlines ?ls) with (fold_right (fun l acc => l ++ nl ++ acc) EmptyString ls).
  cbn [fold_right]. rewrite !append_assoc_str.
  rewrite (lstrip_app_blank nl) by reflexivity.
  rewrite (lstrip_app_blank "        ") by reflexivity.
  change (lstrip ("Act as an expert AI Solar Energy Management Agent." ++ ?x))
    with ("Act as an expert AI Solar Energy Management Agent." ++ x).
  do 22 (rewrite rstrip_app by not_blank).
  change ("% (" ++ ?x) with ("%" ++ (" (" ++ x)).
  rewrite rstrip_app by not_blank.
  eexists. cbn [String.append solar_label battery_label nl]. reflexivity.
Qed.

Lemma first_at_here (label rest : string) :
  first_at label (label ++ rest) (label ++ rest).
Proof.
  exists O. split; [|reflexivity].
  destruct (label ++ rest) eqn:E; cbn [find_index]; rewrite <- E;
    now rewrite prefix_app.
Qed.

Lemma first_at_cons (label : string) (x : ascii) (s found : string) :
  prefix label (String x s) = false ->
  first_at label s found -> first_at label (String x s) found.
Proof.
  intros H (i & Hi & Hs). exists (S i). cbn [find_index skip].
  rewrite H, Hi. now split.
Qed.

Lemma first_at_app_free (c0 : ascii) (label' a s found : string) :
  free_of c0 a = true ->
  first_at (String c0 label') s found ->
  first_at (String c0 label') (a ++ s) found.
Proof.
  intros H F. induction a as [|x a IH]; [exact F|].
  cbn [free_of] in H. apply andb_prop in H. destruct H as [Hx Ha].
  cbn [String.append]. apply first_at_cons; [|exact (IH Ha)].
  cbn [prefix]. destruct (Ascii.ascii_dec c0 x) as [->|N]; [|reflexivity].
  rewrite Ascii.eqb_refl in Hx. discriminate Hx.
Qed.

Lemma digits_free (c0 : ascii) (ds : string) :
  is_digit c0 = false -> all_digits ds = true -> free_of c0 ds = true.
Proof.
  intros H. induction ds as [|x ds IH]; [reflexivity|].
  cbn [all_digits free_of]. intros D. apply andb_prop in D. destruct D as [Dx Dd].
  rewrite (IH Dd), andb_true_r. destruct (Ascii.eqb_spec x c0) as [->|N]; [|reflexivity].
  congruence.
Qed.

Lemma str_of_int_free (c0 : ascii) (n : Z) :
  is_digit c0 = false -> Ascii.eqb "-" c0 = false -> free_of c0 (str_of_int n) = true.
Proof.
  intros H M. unfold str_of_int. destruct n as [|p|p].
  - apply digits_free; [exact H|reflexivity].
  - cbn [Z.to_int NilZero.string_of_int].
    rewrite (string_of_uint_nonnil _ (DecimalPos.Unsigned.to_uint_nonnil p)).
    apply digits_free; [exact H|apply all_digits_uint].
  - cbn [Z.to_int NilZero.string_of_int free_of].
    rewrite M. cbn [negb andb].
    rewrite (string_of_uint_nonnil _ (DecimalPos.Unsigned.to_uint_nonnil p)).
    apply digits_free; [exact H|apply all_digits_uint].
Qed.

Lemma strftime_free (c0 : ascii) (t : string) :
  is_digit c0 = false -> Ascii.eqb "-" c0 = false -> Ascii.eqb ":" c0 = false ->
  Ascii.eqb " " c0 = false ->
  strftime_text t = true -> free_of c0 t = true.
Proof.
  intros H1 H2 H3 H4. induction t as [|x t IH]; [reflexivity|].
  cbn [strftime_text free_of]. intros D. apply andb_prop in D. destruct D as [Dx Dt].
  rewrite (IH Dt), andb_true_r. destruct (Ascii.eqb_spec x c0) as [->|N]; [|reflexivity].
  rewrite H1 in Dx. rewrite Ascii.eqb_sym, H2 in Dx.
  rewrite (Ascii.eqb_sym c0 ":"), H3 in Dx. rewrite (Ascii.eqb_sym c0 " "), H4 in Dx.
  discriminate Dx.
Qed.

Ltac walk := repeat (apply first_at_cons; [reflexivity|]).

(** In the prompt of readings that are ints the first place of each
    label is the line of its reading. *)
Lemma prompt_labels (t w a l : string) (solar capacity battery : Z) :
  strftime_text t = true ->
  exists rest_s rest_b,
    first_at solar_label
      (_create_prompt t (str_of_int solar) (str_of_int capacity) (str_of_int battery) w a l)
      (solar_label ++ str_of_int solar ++ " Watts" ++ rest_s) /\
    first_at battery_label
      (_create_prompt t (str_of_int solar) (str_of_int capacity) (str_of_int battery) w a l)
      (battery_label ++ str_of_int battery ++ "%" ++ rest_b).
Proof.
  intros T.
  destruct (prompt_layout t (str_of_int solar) (str_of_int capacity)
              (str_of_int battery) w a l) as (rest & ->).
  exists (nl ++ "        - Battery Capacity: " ++ str_of_int capacity ++ " Wh" ++ nl ++
          "        - " ++ battery_label ++ str_of_int battery ++ "%" ++ rest), rest.
  split.
  - cbn [String.append solar_label battery_label nl]. walk.
    apply first_at_app_free; [now apply strftime_free|].
    walk.
    exact (first_at_here solar_label
             (str_of_int solar ++ " Watts" ++ nl ++ "        - Battery Capacity: "
              ++ str_of_int capacity ++ " Wh" ++ nl ++ "        - " ++ battery_label
              ++ str_of_int battery ++ "%" ++ rest)).
  - cbn [String.append solar_label battery_label nl]. walk.
    apply first_at_app_free; [now apply strftime_free|].
    walk. apply first_at_app_free; [now apply str_of_int_free|].
    walk. apply first_at_app_free; [now apply str_of_int_free|].
    walk. exact (first_at_here battery_label (str_of_int battery ++ "%" ++ rest)).
Qed.

Lemma extraction_of_prompt (t w a l : string) (solar capacity battery : Z) :
  0 <= solar -> 0 <= battery -> strftime_text t = true ->
  all_failed_response
    (_create_prompt t (str_of_int solar) (str_of_int capacity) (str_of_int battery) w a l)
  = _get_simulated_response solar battery.
Proof.
  intros Hs Hb T.
  destruct (prompt_labels t w a l solar capacity battery T)
    as (rest_s & rest_b & (i & Fi & Si) & (j & Fj & Sj)).
  destruct (str_of_int_digits solar Hs) as (Ds & Ns & Rs).
  destruct (str_of_int_digits battery Hb) as (Db & Nb & Rb).
  unfold all_failed_response, extract_solar_watts, extract_battery_pct,
    solar_pattern, battery_pattern.
  rewrite (re_search_first_label solar_label (str_of_int solar) " " "Watts"
             _ i rest_s Ds Ns eq_refl Fi Si).
  rewrite (re_search_first_label battery_label (str_of_int battery) "%" EmptyString
             _ j rest_b Db Nb eq_refl Fj Sj).
  now rewrite Rs, Rb.
Qed.

Lemma upto_last_brace_free (s : string) :
  free_of "}" s = true -> upto_last_brace s = None.
Proof.
  induction s as [|c s IH]; [reflexivity|]. cbn [free_of upto_last_brace].
  intros H. apply andb_prop in H. destruct H as [Hc Hs]. rewrite (IH Hs).
  destruct (Ascii.eqb c "}"); [discriminate Hc|reflexivity].
Qed.

Lemma upto_last_brace_app (mid post : string) :
  free_of "}" post = true ->
  upto_last_brace (mid ++ "}" ++ post) = Some (mid ++ "}").
Proof.
  intros H. induction mid as [|c mid IH].
  - cbn [String.append upto_last_brace]. rewrite (upto_last_brace_free post H).
    reflexivity.
  - cbn [String.append upto_last_brace]. cbn [String.append] in IH. now rewrite IH.
Qed.

Lemma upto_last_brace_some (s r : string) :
  upto_last_brace s = Some r ->
  exists mid post, s = mid ++ "}" ++ post /\ r = mid ++ "}" /\ free_of "}" post = true.
Proof.
  revert r. induction s as [|c s IH]; intros r; cbn [upto_last_brace]; [discriminate|].
  destruct (upto_last_brace s) as [r'|] eqn:U.
  - intros H. injection H as <-.
    destruct (IH r' eq_refl) as (mid & post & -> & -> & F).
    exists (String c mid), post. now repeat split.
  - destruct (Ascii.eqb_spec c "}") as [->|N]; [|discriminate].
    intros H. injection H as <-. exists EmptyString, s. repeat split.
    clear IH. induction s as [|x s IHs]; [reflexivity|].
    cbn [upto_last_brace] in U. cbn [free_of].
    destruct (upto_last_brace s); [discriminate U|].
    destruct (Ascii.eqb x "}"); [discriminate U|]. now rewrite IHs.
Qed.

Lemma search_json_object_app (pre mid post : string) :
  free_of "{" pre = true -> free_of "}" post = true ->
  search_json_object (pre ++ "{" ++ mid ++ "}" ++ post) = Some ("{" ++ mid ++ "}").
Proof.
  intros Hpre Hpost. induction pre as [|c pre IH].
  - cbn [String.append search_json_object Ascii.eqb Bool.eqb].
    pose proof (upto_last_brace_app mid post Hpost) as U. cbn [String.append] in U.
    now rewrite U.
  - cbn [free_of] in Hpre. apply andb_prop in Hpre. destruct Hpre as [Hc Hp].
    cbn [String.append search_json_object].
    destruct (Ascii.eqb c "{"); [discriminate Hc|]. exact (IH Hp).
Qed.

Lemma search_json_object_some (s g : string) :
  search_json_object s = Some g ->
  exists pre mid post,
    s = pre ++ "{" ++ mid ++ "}" ++ post /\ g = "{" ++ mid ++ "}" /\
    free_of "{" pre = true /\ free_of "}" post = true.
Proof.
  induction s as [|c s IH]; cbn [search_json_object]; [discriminate|].
  destruct (Ascii.eqb_spec c "{") as [->|N].
  - destruct (upto_last_brace s) as [r|] eqn:U.
    + intros H. injection H as <-.
      destruct (upto_last_brace_some s r U) as (mid & post & -> & -> & F).
      exists EmptyString, mid, post. now repeat split.
    + intros H. destruct (IH H) as (pre & mid & post & -> & -> & Fp & Fq).
      exfalso. clear IH H.
      assert (X : forall a b, upto_last_brace (a ++ String "}" b) <> None).
      { intros a b. induction a as [|x a IHa]; cbn [String.append upto_last_brace].
        - destruct (upto_last_brace b); discriminate.
        - destruct (upto_last_brace (a ++ String "}" b)); [discriminate|now elim IHa]. }
      apply (X (pre ++ "{" ++ mid) post).
      rewrite <- U. f_equal. rewrite !append_assoc_str. reflexivity.
  - intros H. destruct (IH H) as (pre & mid & post & -> & -> & Fp & Fq).
    exists (String c pre), mid, post. repeat split; try assumption.
    cbn [free_of]. rewrite Fp, andb_true_r.
    destruct (Ascii.eqb_spec c "{"); [contradiction|reflexivity].
Qed.

Section SolarAgentProperties.

Variable json_loads : string -> option pyval.
Variable dumps_log : list SolarEnergyAgent.log_entry -> string.
Variable format_2f : Z -> Z -> string.
Variable slice_of_dict : exn.

(** X23.  For readings that are natural numbers and a clock text of
    [strftime], both fallbacks of [track_and_advise] advise for the
    readings of the call: when every candidate fails, the numbers that
    the client reads back from the prompt are the readings, whatever the
    capacity, the appliances and the log are; and when the text of the
    reply does not decode, the handler passes the readings themselves. *)
Theorem fallbacks_advise_for_the_readings
    (self : SolarEnergyAgent.agent) (c : SolarEnergyAgent.call) (solar battery : Z) :
  0 <= solar -> 0 <= battery ->
  strftime_text (SolarEnergyAgent.now_strftime c) = true ->
  ((forall model prompt, advances (SolarEnergyAgent.post c model prompt) = true) ->
   snd (SolarEnergyAgent.track_and_advise json_loads dumps_log format_2f slice_of_dict
          self c solar battery) = Return (simulated_plan solar battery)) /\
  (forall text,
     (forall prompt, snd (generate_content (SolarEnergyAgent.post c) prompt)
                     = ApiJson (reply_with_text (PStr text))) ->
     json_loads (match search_json_object text with
                 | Some json_text => json_text
                 | None => text
                 end) = None ->
     snd (SolarEnergyAgent.track_and_advise json_loads dumps_log format_2f slice_of_dict
            self c solar battery) = Return (simulated_plan solar battery)).
Proof.
  intros Hs Hb T. split.
  - intros Hdown. unfold SolarEnergyAgent.track_and_advise.
    cbn [snd]. unfold generate_content.
    rewrite try_models_all_fail
      by (apply Forall_forall; intros m _; apply Hdown).
    cbn [snd]. unfold SolarEnergyAgent.create_prompt.
    rewrite (extraction_of_prompt _ _ _ _ solar _ battery Hs Hb T).
    reflexivity.
  - intros text Hpost Hjson. unfold SolarEnergyAgent.track_and_advise.
    cbn [snd]. rewrite Hpost.
    unfold SolarEnergyAgent.advise, reply_with_text.
    cbn [truthy py_get dict_get String.eqb Ascii.eqb Bool.eqb bind].
    unfold SolarEnergyAgent.read_plan.
    cbn [SolarEnergyAgent.item SolarEnergyAgent.first SolarEnergyAgent.and_then
         dict_get String.eqb Ascii.eqb Bool.eqb SolarEnergyAgent.parse_plan].
    rewrite Hjson. reflexivity.
Qed.

(** X24.  Prose around the JSON object of a reply is dropped: when the
    text before the first opening brace and the text after the last
    closing brace hold no such brace, the search gives the text between
    these two braces, and the call returns what it decodes to, or the
    plan of the readings when it does not decode. *)
Theorem prose_around_json_is_dropped
    (pre mid post : string) (solar battery : Z) :
  free_of "{" pre = true -> free_of "}" post = true ->
  SolarEnergyAgent.advise json_loads slice_of_dict
    (ApiJson (reply_with_text (PStr (pre ++ "{" ++ mid ++ "}" ++ post))))
    solar battery =
  match json_loads ("{" ++ mid ++ "}") with
  | Some plan => Return plan
  | None => Return (simulated_plan solar battery)
  end.
Proof.
  intros Hpre Hpost.
  unfold SolarEnergyAgent.advise, reply_with_text.
  cbn [truthy py_get dict_get String.eqb Ascii.eqb Bool.eqb bind].
  unfold SolarEnergyAgent.read_plan.
  cbn [SolarEnergyAgent.item SolarEnergyAgent.first SolarEnergyAgent.and_then
       dict_get String.eqb Ascii.eqb Bool.eqb SolarEnergyAgent.parse_plan].
  rewrite (search_json_object_app pre mid post Hpre Hpost).
  destruct (json_loads ("{" ++ mid ++ "}")); reflexivity.
Qed.

(** X25.  [track_and_advise] logs the reading before it builds the
    prompt, whatever the network does afterwards: the log grows by the
    entry of the call, the other fields stay, and the three entries that
    the prompt shows as the previous log end with the reading of the call
    itself, after at most two earlier ones. *)
Theorem reading_is_logged_first
    (self : SolarEnergyAgent.agent) (c : SolarEnergyAgent.call) (solar battery : Z) :
  let entry := {| SolarEnergyAgent.timestamp := SolarEnergyAgent.now_isoformat c;
                  SolarEnergyAgent.solar_production_watts := solar;
                  SolarEnergyAgent.battery_percentage := battery |} in
  let after := fst (SolarEnergyAgent.track_and_advise json_loads dumps_log format_2f
                      slice_of_dict self c solar battery) in
  SolarEnergyAgent.energy_log after = (SolarEnergyAgent.energy_log self ++ [entry])%list /\
  SolarEnergyAgent.battery_capacity_wh after = SolarEnergyAgent.battery_capacity_wh self /\
  SolarEnergyAgent.appliances_json after = SolarEnergyAgent.appliances_json self /\
  snd (SolarEnergyAgent.track_and_advise json_loads dumps_log format_2f slice_of_dict
         self c solar battery) =
    SolarEnergyAgent.advise json_loads slice_of_dict
      (snd (generate_content (SolarEnergyAgent.post c)
              (SolarEnergyAgent.create_prompt dumps_log format_2f after
                 (SolarEnergyAgent.now_strftime c) solar battery)))
      solar battery /\
  exists older earlier,
    SolarEnergyAgent.energy_log self = (older ++ earlier)%list /\
    last3 (SolarEnergyAgent.energy_log after) = (earlier ++ [entry])%list /\
    List.length earlier = Nat.min 2 (List.length (SolarEnergyAgent.energy_log self)).
Proof.
  cbn zeta. unfold SolarEnergyAgent.track_and_advise. cbn [fst snd].
  cbn [SolarEnergyAgent.energy_log SolarEnergyAgent.battery_capacity_wh
       SolarEnergyAgent.appliances_json].
  repeat (split; [reflexivity|]).
  set (log := SolarEnergyAgent.energy_log self).
  exists (firstn (List.length log - 2) log), (skipn (List.length log - 2) log).
  split; [symmetry; apply firstn_skipn|]. split.
  - unfold last3. rewrite List.length_app. cbn [List.length].
    replace (List.length log + 1 - 3)%nat with (List.length log - 2)%nat by lia.
    rewrite skipn_app.
    replace (List.length log - 2 - List.length log)%nat with 0%nat by lia.
    reflexivity.
  - rewrite List.length_skipn. lia.
Qed.

End SolarAgentProperties.

(** X26.  The search of [track_and_advise] for a JSON object takes the
    text from the first opening brace to the last closing brace: it finds
    [g] in [s] exactly when [s] is a text without opening brace, then
    [g], which starts and ends with a brace, then a text without closing
    brace. *)
Theorem search_json_object_spans_braces (s g : string) :
  search_json_object s = Some g <->
  exists pre mid post,
    s = pre ++ "{" ++ mid ++ "}" ++ post /\ g = "{" ++ mid ++ "}" /\
    free_of "{" pre = true /\ free_of "}" post = true.
Proof.
  split.
  - apply search_json_object_some.
  - intros (pre & mid & post & -> & -> & Hpre & Hpost).
    now apply search_json_object_app.
Qed.

Lemma fallbacks_advise_for_the_readings_witness :
  snd (SolarEnergyAgent.track_and_advise json_loads_more dumps_log format_2f_hundreds
         TypeError main_agent (noon network_down) 3500 75)
  = Return (simulated_plan 3500 75).
Proof.
  apply (proj1 (fallbacks_advise_for_the_readings json_loads_more dumps_log
                  format_2f_hundreds TypeError main_agent (noon network_down) 3500 75
                  ltac:(lia) ltac:(lia) eq_refl)).
  intros model prompt. reflexivity.
Defined.

Lemma prose_around_json_is_dropped_witness :
  SolarEnergyAgent.advise json_loads_more TypeError
    (ApiJson (reply_with_text (PStr ("Here is the plan: " ++ "{" ++ EmptyString ++ "}"
                                      ++ " Let me know."))))
    3500 75 = Return (PDict []).
Proof.
  rewrite (prose_around_json_is_dropped json_loads_more TypeError
             "Here is the plan: " EmptyString " Let me know." 3500 75 eq_refl eq_refl).
  reflexivity.
Defined.

Lemma search_json_object_spans_braces_witness :
  search_json_object "Plan: {} (see {note} below)" = Some "{} (see {note}".
Proof.
  apply (proj2 (search_json_object_spans_braces "Plan: {} (see {note} below)"
                  "{} (see {note}")).
  exists "Plan: ", "} (see {note", " below)". repeat split; reflexivity.
Defined.

(* ================================================================== *)
(** * Further properties: the solar REST endpoints *)
(* ================================================================== *)

Lemma truthy_not_none (v : pyval) : truthy v = true -> is_none v = false.
Proof. destruct v; cbn; congruence. Qed.

(** X27.  The three endpoints that make a new agent read the same
    capacity from a body, but not the same appliances: they agree exactly
    when the body holds [appliances] with a value that is true or null.
    For an empty dict the analysis takes the default table and the two
    others no appliance at all, and without the key the configuration
    takes no appliance where the two others take the default table. *)
Theorem endpoints_disagree_on_appliances (d : list (string * pyval))
    (cap_a app_a cap_s app_s cap_c app_c : pyval) :
  analyze_solar_energy_agent (PDict d) = Agent cap_a app_a ->
  run_simulation_agent (PDict d) = Agent cap_s app_s ->
  handle_configuration_post_agent (PDict d) = Agent cap_c app_c ->
  cap_a = cap_s /\ cap_s = cap_c /\
  ((app_a = app_s /\ app_s = app_c) <->
   exists v, dict_get "appliances" d = Some v /\ (truthy v = true \/ v = PNone)).
Proof.
  unfold analyze_solar_energy_agent, run_simulation_agent,
    handle_configuration_post_agent, initialize_agent.
  destruct (negb (truthy (PDict d))); [cbn [handled]; discriminate|].
  cbn [py_get].
  destruct (dict_get "solar_production" d) as [s|];
    destruct (dict_get "battery_percentage" d) as [b|];
    cbn [bind is_none orb handled]; try discriminate.
  2: { destruct (is_none s); cbn [orb handled]; discriminate. }
  destruct (is_none s || is_none b); cbn [handled]; [discriminate|].
  assert (K : forall cap : pyval,
    handled (custom_appliances <-
               match dict_get "appliances" d with
               | Some x => Return x
               | None => Return PNone
               end ;;
             Return (Agent cap
               (if is_none (if truthy custom_appliances then custom_appliances else PNone)
                then DEFAULT_APPLIANCES
                else if truthy custom_appliances then custom_appliances else PNone)))
      = Agent cap_a app_a ->
    handled (custom_appliances <-
               match dict_get "appliances" d with
               | Some x => Return x
               | None => Return PNone
               end ;;
             simulation_data <-
               match dict_get "simulation_data" d with
               | Some x => Return x
               | None => Return (PList [])
               end ;;
             (if negb (truthy simulation_data)
              then Return (Answered 400 "No simulation data provided")
              else Return (Agent cap (if is_none custom_appliances
                                      then DEFAULT_APPLIANCES
                                      else custom_appliances))))
      = Agent cap_s app_s ->
    handled (appliances <-
               match dict_get "appliances" d with
               | Some x => Return x
               | None => Return (PDict [])
               end ;;
             Return (Agent cap (if is_none appliances
                                then DEFAULT_APPLIANCES else appliances)))
      = Agent cap_c app_c ->
    cap_a = cap_s /\ cap_s = cap_c /\
    ((app_a = app_s /\ app_s = app_c) <->
     exists v, dict_get "appliances" d = Some v /\ (truthy v = true \/ v = PNone))).
  { intros cap.
    destruct (dict_get "simulation_data" d) as [sim|]; cbn [bind truthy negb handled].
    2: { destruct (dict_get "appliances" d); cbn [bind handled]; intros _ S;
         discriminate S. }
    destruct (negb (truthy sim)).
    { destruct (dict_get "appliances" d); cbn [bind handled]; intros _ S;
      discriminate S. }
    destruct (dict_get "appliances" d) as [v|]; cbn [bind handled truthy is_none].
    - intros A S C. injection A as <- <-. injection S as <- <-. injection C as <- <-.
      split; [reflexivity|]. split; [reflexivity|].
      destruct (truthy v) eqn:Tv.
      + rewrite (truthy_not_none v Tv). split.
        * intros _. exists v. split; [reflexivity|now left].
        * intros _. now split.
      + cbn [is_none]. split.
        * intros [E _]. exists v. split; [reflexivity|]. right.
          destruct v; cbn [is_none] in E; try reflexivity;
            rewrite <- E in Tv; discriminate Tv.
        * intros (v' & E & [T|N]); injection E as <-; [congruence|].
          subst v. now split.
    - intros A S C. injection A as <- <-. injection S as <- <-. injection C as <- <-.
      split; [reflexivity|]. split; [reflexivity|].
      split; [intros [_ E]; discriminate E|intros (v' & E & _); discriminate E]. }
  destruct (dict_get "battery_capacity" d) as [cap|]; cbn [bind]; apply K.
Qed.

Lemma endpoints_disagree_on_appliances_witness :
  analyze_solar_energy_agent (body_with [("appliances", PDict [])])
    = Agent (PNum 10000) DEFAULT_APPLIANCES /\
  run_simulation_agent (body_with [("appliances", PDict [])])
    = Agent (PNum 10000) (PDict []) /\
  handle_configuration_post_agent (body_with [])
    = Agent (PNum 10000) (PDict []) /\
  run_simulation_agent (body_with []) = Agent (PNum 10000) DEFAULT_APPLIANCES /\
  ~ exists v, dict_get "appliances"
                [("solar_production", PNum 0); ("battery_percentage", PNum 75);
                 ("simulation_data", PList [PDict [("solar", PNum 3500)]])] = Some v /\
              (truthy v = true \/ v = PNone).
Proof.
  repeat (split; [reflexivity|]).
  intros H.
  apply (proj2 (proj2 (endpoints_disagree_on_appliances
           [("solar_production", PNum 0); ("battery_percentage", PNum 75);
            ("simulation_data", PList [PDict [("solar", PNum 3500)]])]
           _ _ _ _ _ _ eq_refl eq_refl eq_refl))) in H.
  destruct H as [_ E]. discriminate E.
Defined.

(* ================================================================== *)
(** * Further properties: why layers 2 and 4 fail *)
(* ================================================================== *)

Lemma standardize_json_raises (json_loads : string -> option pyval)
    (model : pyval -> model_outcome) (json_data : pyval) (e : exn) :
  standardize_json json_loads model json_data = Raise e ->
  model json_data = TextRaises e /\
  one_of [JSONDecodeError; AttributeError; ValueError] e = true.
Proof.
  unfold standardize_json.
  destruct (standardize_body json_loads (model json_data)) as [parsed|e0] eqn:B;
    [discriminate|].
  destruct (one_of [JSONDecodeError; AttributeError; ValueError] e0) eqn:O;
    [|discriminate].
  destruct (model json_data) as [e1|e1|text]; cbn [print_raw_response bind];
    try discriminate.
  intros H. injection H as ->. unfold standardize_body in B.
  cbn [response_text bind] in B. injection B as ->. now split.
Qed.

Lemma standardize_json_returns (json_loads : string -> option pyval)
    (model : pyval -> model_outcome) (json_data v : pyval) :
  standardize_json json_loads model json_data = Return v ->
  is_dict v = false ->
  exists text,
    model json_data = ModelText text /\
    json_loads (clean_response text) = Some v /\
    py_in "canonical_name" v = Return true /\ py_in "category" v = Return true.
Proof.
  unfold standardize_json.
  destruct (standardize_body json_loads (model json_data)) as [parsed|e0] eqn:B.
  - intros H D. injection H as ->. unfold standardize_body in B.
    apply bind_return in B. destruct B as (text & Ht & B).
    apply bind_return in B. destruct B as (parsed & Hp & B).
    apply bind_return in B. destruct B as (has_name & Hn & B).
    destruct has_name; cbn [negb] in B; [|discriminate B].
    apply bind_return in B. destruct B as (has_category & Hc & B).
    destruct has_category; cbn [negb] in B; [|discriminate B].
    injection B as ->. exists text.
    destruct (model json_data) as [e1|e1|text']; try discriminate Ht.
    injection Ht as ->. unfold loads in Hp.
    destruct (json_loads (clean_response text)) as [x|]; [|discriminate Hp].
    injection Hp as ->. now repeat split.
  - destruct (one_of [JSONDecodeError; AttributeError; ValueError] e0).
    + intros H. apply bind_return in H. destruct H as (_ & _ & H).
      injection H as <-. discriminate.
    + intros H. injection H as <-. discriminate.
Qed.



Section PipelineFailures.

Variable json_loads : string -> option pyval.
Variable path_exists : bool.
Variable vision : model_outcome.
Variable ocr : result string.
Variable standardizer : pyval -> model_outcome.
Variable estimator : breakdown_request -> model_outcome.

(** X28.  Layer 2 of the pipeline fails in two ways only.  The text of
    the reply cannot be read and raises one of the three exceptions of
    the first handler, which reads the text again; or the text decodes
    to a value that is not a dict and still passes both [in] tests, a
    list or a str that holds both key names, and [.get] then raises
    [AttributeError]. *)
Theorem pipeline_layer2_failure_causes (image_path : string) (e : exn) :
  run_complete_pipeline json_loads path_exists vision ocr standardizer estimator
    image_path = Failed "Layer 2 (Entity Standardization) failed" e ->
  (standardizer (snd (process_input json_loads path_exists vision ocr image_path))
     = TextRaises e /\
   one_of [JSONDecodeError; AttributeError; ValueError] e = true) \/
  (e = AttributeError /\
   exists text v,
     standardizer (snd (process_input json_loads path_exists vision ocr image_path))
       = ModelText text /\
     json_loads (clean_response text) = Some v /\ is_dict v = false /\
     py_in "canonical_name" v = Return true /\ py_in "category" v = Return true).
Proof.
  unfold run_complete_pipeline. intros H.
  set (l1 := snd (process_input json_loads path_exists vision ocr image_path)) in *.
  apply layer_failed in H. destruct H as [[_ H]|(a1 & B1 & H)]; [discriminate H|].
  apply bind_return in B1. destruct B1 as (_ & _ & B1). injection B1 as <-.
  apply layer_failed in H. destruct H as [[H _]|(l2 & B2 & H)].
  - destruct (standardize_json json_loads standardizer l1) as [v|e0] eqn:S.
    + right. cbn [bind] in H.
      destruct (py_get v "canonical_name" (PStr "Unknown")) as [x|e1] eqn:G.
      * exfalso. cbn [bind] in H. apply py_get_returns in G. destruct G as (d & ->).
        cbn [py_get] in H. destruct (dict_get "category" d); discriminate H.
      * cbn [bind] in H. injection H as <-.
        apply py_get_raises in G. destruct G as [-> D]. split; [reflexivity|].
        destruct (standardize_json_returns _ _ _ _ S D) as (text & Hm & Hj & Hn & Hc).
        now exists text, v.
    + left. cbn [bind] in H. injection H as <-.
      exact (standardize_json_raises _ _ _ _ S).
  - exfalso.
    apply layer_failed in H. destruct H as [[_ H]|(l3 & B3 & H)]; [discriminate H|].
    apply layer_failed in H. destruct H as [[_ H]|(l4 & B4 & H)]; [discriminate H|].
    apply layer_failed in H. destruct H as [[_ H]|(l5 & B5 & H)]; [discriminate H|].
    discriminate H.
Qed.


End PipelineFailures.

Lemma pipeline_layer2_failure_causes_witness :
  run_complete_pipeline json_loads_lists false (ModelRaises ApiError) (Raise ApiError)
    (fun _ => ModelText names_list_text) model_down "desk lamp"
    = Failed "Layer 2 (Entity Standardization) failed" AttributeError /\
  exists text v,
    ModelText names_list_text = ModelText text /\
    json_loads_lists (clean_response text) = Some v /\ is_dict v = false /\
    py_in "canonical_name" v = Return true /\ py_in "category" v = Return true.
Proof.
  split; [reflexivity|].
  destruct (pipeline_layer2_failure_causes json_loads_lists false (ModelRaises ApiError)
              (Raise ApiError) (fun _ => ModelText names_list_text) model_down
              "desk lamp" AttributeError eq_refl) as [[H _]|[_ H]].
  - discriminate H.
  - exact H.
Defined.


(* ================================================================== *)
(** * Further properties: what [track_and_advise] lets out *)
(* ================================================================== *)

Section SolarAgentExceptions.

Variable json_loads : string -> option pyval.
Variable dumps_log : list SolarEnergyAgent.log_entry -> string.
Variable format_2f : Z -> Z -> string.
Variable slice_of_dict : exn.







End SolarAgentExceptions.

